(** * pingfood-shadcn-backend: the document-normalization layer and the CRUD
      endpoints of [admin.py]

    The development follows the layering of the program:
    - byte-level codecs used by the renderer (base64, hex, UTF-8 validity);
    - Python values and the read-path renderer ([handle_non_utf8],
      [convert_objectid_to_str]);
    - the storage driver as an interface, and the [Database] adapter on top
      of it with its [try]/[except] boundaries;
    - the pydantic entity models and the FastAPI endpoints;
    - an in-memory driver with the document store's semantics, used wherever
      a statement talks about what ends up stored. *)

From Stdlib Require Import ZArith NArith List String Ascii Bool Lia.
From Stdlib.Strings Require Import Byte.
Import ListNotations.

Local Open Scope string_scope.
Local Open Scope list_scope.

(** ** Bytes and text *)

(** A Python [bytes] object is a list of bytes.  A Python [str] is kept as
    the string of its UTF-8 encoding, so that decoding valid UTF-8 bytes is
    a change of type only. *)
Definition bytes := list byte.

Definition str_of_bytes (bs : bytes) : string :=
  string_of_list_byte bs.

Definition bytes_of_str (s : string) : bytes :=
  list_byte_of_string s.

Module Base64.

(** The standard alphabet of [base64.b64encode]. *)
Definition alphabet : string :=
  "ABCDEFGHIJKLMNOPQRSTUVWXYZabcdefghijklmnopqrstuvwxyz0123456789+/".

Definition pad : ascii := "="%char.

Definition digit (n : N) : ascii :=
  match String.get (N.to_nat n) alphabet with
  | Some c => c
  | None => pad
  end.

(** [base64.b64encode(value).decode('utf-8')]: three bytes give four
    digits; one or two trailing bytes are padded with [=]. *)
Fixpoint b64encode (bs : bytes) : string :=
  match bs with
  | [] => EmptyString
  | [a] =>
      let x := Byte.to_N a in
      String (digit (x / 4))
        (String (digit ((x mod 4) * 16))
           (String pad (String pad EmptyString)))
  | [a; b] =>
      let x := Byte.to_N a in
      let y := Byte.to_N b in
      String (digit (x / 4))
        (String (digit ((x mod 4) * 16 + y / 16))
           (String (digit ((y mod 16) * 4))
              (String pad EmptyString)))
  | a :: b :: c :: rest =>
      let x := Byte.to_N a in
      let y := Byte.to_N b in
      let z := Byte.to_N c in
      String (digit (x / 4))
        (String (digit ((x mod 4) * 16 + y / 16))
           (String (digit ((y mod 16) * 4 + z / 64))
              (String (digit (z mod 64)) (b64encode rest))))
  end.

(** The value of a digit of the alphabet. *)
Definition value (c : ascii) : option N :=
  let n := N_of_ascii c in
  if (65 <=? n)%N && (n <=? 90)%N then Some (n - 65)%N
  else if (97 <=? n)%N && (n <=? 122)%N then Some (n - 71)%N
  else if (48 <=? n)%N && (n <=? 57)%N then Some (n + 4)%N
  else if (n =? 43)%N then Some 62%N
  else if (n =? 47)%N then Some 63%N
  else None.

Definition emit (n : N) (rest : option bytes) : option bytes :=
  match Byte.of_N n, rest with
  | Some b, Some bs => Some (b :: bs)
  | _, _ => None
  end.

(** The decoding loop of [binascii.a2b_base64] in its default, lenient
    mode: characters outside the alphabet are skipped, a padding that
    completes a group ends the input, and a group left incomplete at the
    end is an error ([None]).  [quad_pos] is the position in the current
    group of four, [leftchar] the bits not yet written, [pads] the padding
    characters seen since the last digit. *)
Fixpoint a2b_base64 (quad_pos : nat) (leftchar : N) (pads : nat)
    (s : string) : option bytes :=
  match s with
  | EmptyString =>
      match quad_pos with O => Some [] | S _ => None end
  | String c rest =>
      if Ascii.eqb c pad then
        if (2 <=? quad_pos)%nat then
          if (4 <=? quad_pos + S pads)%nat then Some []
          else a2b_base64 quad_pos leftchar (S pads) rest
        else a2b_base64 quad_pos leftchar pads rest
      else
        match value c with
        | None => a2b_base64 quad_pos leftchar pads rest
        | Some v =>
            match quad_pos with
            | 0%nat => a2b_base64 1 v 0 rest
            | 1%nat =>
                emit (leftchar * 4 + v / 16)
                  (a2b_base64 2 (v mod 16) 0 rest)
            | 2%nat =>
                emit (leftchar * 16 + v / 4)
                  (a2b_base64 3 (v mod 4) 0 rest)
            | _ => emit (leftchar * 64 + v) (a2b_base64 0 0 0 rest)
            end
        end
  end.

Definition is_ascii (s : string) : bool :=
  forallb (fun b => (Byte.to_N b <? 128)%N) (list_byte_of_string s).

(** [base64.b64decode(s)] on text: the text must be ASCII. *)
Definition b64decode (s : string) : option bytes :=
  if is_ascii s then a2b_base64 0 0 0 s else None.

End Base64.

Module Hex.

Definition digits : string := "0123456789abcdef".

Definition digit (n : N) : ascii :=
  match String.get (N.to_nat n) digits with
  | Some c => c
  | None => "0"%char
  end.

(** [binascii.hexlify]: two lowercase digits per byte, high nibble first. *)
Fixpoint hexlify (bs : bytes) : string :=
  match bs with
  | [] => EmptyString
  | b :: rest =>
      let x := Byte.to_N b in
      String (digit (x / 16)) (String (digit (x mod 16)) (hexlify rest))
  end.

(** The value of a lowercase hex digit, used to read a rendering back. *)
Definition value (c : ascii) : option N :=
  let n := N_of_ascii c in
  if (48 <=? n)%N && (n <=? 57)%N then Some (n - 48)%N
  else if (97 <=? n)%N && (n <=? 102)%N then Some (n - 87)%N
  else None.

Fixpoint unhexlify (s : string) : option bytes :=
  match s with
  | EmptyString => Some []
  | String _ EmptyString => None
  | String h (String l rest) =>
      match value h, value l, unhexlify rest with
      | Some x, Some y, Some bs =>
          match Byte.of_N (x * 16 + y) with
          | Some b => Some (b :: bs)
          | None => None
          end
      | _, _, _ => None
      end
  end.

End Hex.

Module Utf8.

(** The well-formed byte sequences of UTF-8 (the table of the Unicode
    standard that CPython's decoder enforces): no overlong forms, no
    surrogates, nothing above U+10FFFF.  [need] continuation bytes are
    still expected and the next one must lie in [lo .. hi]. *)
Fixpoint well_formed_from (need : nat) (lo hi : N) (bs : bytes) : bool :=
  match bs with
  | [] => match need with O => true | S _ => false end
  | b :: rest =>
      let x := Byte.to_N b in
      match need with
      | S k =>
          if (lo <=? x)%N && (x <=? hi)%N
          then well_formed_from k 128 191 rest
          else false
      | O =>
          if (x <=? 127)%N then well_formed_from 0 128 191 rest
          else if (194 <=? x)%N && (x <=? 223)%N then well_formed_from 1 128 191 rest
          else if (x =? 224)%N then well_formed_from 2 160 191 rest
          else if (x =? 237)%N then well_formed_from 2 128 159 rest
          else if (225 <=? x)%N && (x <=? 239)%N then well_formed_from 2 128 191 rest
          else if (x =? 240)%N then well_formed_from 3 144 191 rest
          else if (241 <=? x)%N && (x <=? 243)%N then well_formed_from 3 128 191 rest
          else if (x =? 244)%N then well_formed_from 3 128 143 rest
          else false
      end
  end.

Definition valid (bs : bytes) : bool := well_formed_from 0 128 191 bs.

(** [value.decode('utf-8')]: the text, or [None] for [UnicodeDecodeError]. *)
Definition decode (bs : bytes) : option string :=
  if valid bs then Some (str_of_bytes bs) else None.

End Utf8.

(** ** Python values *)

Local Set Warnings "-register-all".

(** The values a payload or a stored document is made of.  [VBytes] is the
    builtin [bytes]; [VBinary] is [bson.Binary], a subclass of [bytes];
    [VByteArray] stands for a value that is not a [bytes] instance but has a
    [decode] method; [VObjectId] is [bson.ObjectId] with its 12 bytes.  A
    float is kept as its 64-bit pattern and a timestamp as a number; neither
    is computed on.  A [dict] keeps its insertion order. *)
Inductive pyval : Type :=
| VNone
| VBool (b : bool)
| VInt (z : Z)
| VFloat (bits : N)
| VStr (s : string)
| VBytes (bs : bytes)
| VBinary (bs : bytes)
| VByteArray (bs : bytes)
| VObjectId (oid : bytes)
| VDatetime (t : Z)
| VList (items : list pyval)
| VDict (entries : list (string * pyval)).

Definition document := list (string * pyval).

(** [str(ObjectId)]: the 24 lowercase hex digits of the identifier. *)
Definition ObjectId_str (oid : bytes) : string := Hex.hexlify oid.

(** ** The read-path renderer *)

(** [handle_non_utf8]: a [bytes] instance is returned as base64 text at once;
    any other value is asked to [decode] itself, and comes back unchanged
    when it cannot ([UnicodeDecodeError]) or has no such method
    ([AttributeError]). *)
Definition handle_non_utf8 (value : pyval) : pyval :=
  match value with
  | VBytes bs | VBinary bs => VStr (Base64.b64encode bs)
  | VByteArray bs =>
      match Utf8.decode bs with
      | Some text => VStr text
      | None => value
      end
  | _ => value
  end.

(** [convert_objectid_to_str]: the values of a mapping are classified in
    place (containers recursed into, identifiers rendered as hex, the rest
    handed to [handle_non_utf8]); the elements of a sequence are handed to
    the function itself; anything else goes to [handle_non_utf8]. *)
Fixpoint convert_objectid_to_str (obj : pyval) : pyval :=
  match obj with
  | VDict entries =>
      VDict (map (fun kv =>
                    match kv with
                    | (key, value) =>
                        (key,
                         match value with
                         | VDict _ | VList _ => convert_objectid_to_str value
                         | VObjectId oid => VStr (ObjectId_str oid)
                         | _ => handle_non_utf8 value
                         end)
                    end) entries)
  | VList items => VList (map convert_objectid_to_str items)
  | _ => handle_non_utf8 obj
  end.

(** What the mapping branch of [convert_objectid_to_str] does with one
    value; the branch applies it to every entry. *)
Definition rendered_entry (value : pyval) : pyval :=
  match value with
  | VDict _ | VList _ => convert_objectid_to_str value
  | VObjectId oid => VStr (ObjectId_str oid)
  | _ => handle_non_utf8 value
  end.

(** *** Truth value, equality and mappings *)

(** The truth value Python gives a value in [if value:] and [not value]. *)
Definition truthy (value : pyval) : bool :=
  match value with
  | VNone => false
  | VBool b => b
  | VInt z => negb (z =? 0)%Z
  | VFloat bits => negb ((bits =? 0)%N || (bits =? 9223372036854775808)%N)
  | VStr s => negb (String.eqb s EmptyString)
  | VBytes bs | VBinary bs | VByteArray bs =>
      match bs with [] => false | _ :: _ => true end
  | VObjectId _ | VDatetime _ => true
  | VList items => match items with [] => false | _ :: _ => true end
  | VDict entries => match entries with [] => false | _ :: _ => true end
  end.

Fixpoint bytes_eqb (a b : bytes) : bool :=
  match a, b with
  | [], [] => true
  | x :: a', y :: b' => Byte.eqb x y && bytes_eqb a' b'
  | _, _ => false
  end.

(** Equality of two values as the store compares them: by kind, then by
    content, mappings field by field in order. *)
Fixpoint pyval_eqb (a b : pyval) : bool :=
  match a, b with
  | VNone, VNone => true
  | VBool x, VBool y => Bool.eqb x y
  | VInt x, VInt y => (x =? y)%Z
  | VFloat x, VFloat y => (x =? y)%N
  | VStr x, VStr y => String.eqb x y
  | VBytes x, VBytes y => bytes_eqb x y
  | VBinary x, VBinary y => bytes_eqb x y
  | VByteArray x, VByteArray y => bytes_eqb x y
  | VObjectId x, VObjectId y => bytes_eqb x y
  | VDatetime x, VDatetime y => (x =? y)%Z
  | VList xs, VList ys =>
      (fix items_eqb (xs ys : list pyval) : bool :=
         match xs, ys with
         | [], [] => true
         | x :: xs', y :: ys' => pyval_eqb x y && items_eqb xs' ys'
         | _, _ => false
         end) xs ys
  | VDict xs, VDict ys =>
      (fix entries_eqb (xs ys : list (string * pyval)) : bool :=
         match xs, ys with
         | [], [] => true
         | (k, x) :: xs', (l, y) :: ys' =>
             String.eqb k l && pyval_eqb x y && entries_eqb xs' ys'
         | _, _ => false
         end) xs ys
  | _, _ => false
  end.

(** [key in d] and [d.get(key)] on an insertion-ordered mapping. *)
Fixpoint dict_lookup (key : string) (d : document) : option pyval :=
  match d with
  | [] => None
  | (k, v) :: rest => if String.eqb k key then Some v else dict_lookup key rest
  end.

Definition dict_contains (key : string) (d : document) : bool :=
  match dict_lookup key d with Some _ => true | None => false end.

Definition dict_get (d : document) (key : string) (default : pyval) : pyval :=
  match dict_lookup key d with Some v => v | None => default end.

(** [d[key] = value]: an existing key keeps its place, a new one goes last. *)
Fixpoint dict_set (key : string) (value : pyval) (d : document) : document :=
  match d with
  | [] => [(key, value)]
  | (k, v) :: rest =>
      if String.eqb k key then (k, value) :: rest
      else (k, v) :: dict_set key value rest
  end.

Definition dict_keys (d : document) : list string := map fst d.

(** [a > b] where the code compares a count with [0]. *)
Definition py_gt (a : pyval) (b : Z) : bool :=
  match a with
  | VInt z => (b <? z)%Z
  | VBool true => (b <? 1)%Z
  | VBool false => (b <? 0)%Z
  | _ => false
  end.

(** ** Exceptions and the request monad *)

(** What a request can end in besides a response body.  [HTTPException] is
    raised by the code itself; [RequestValidationError] is raised by the
    framework when the body does not fit the declared model (answered with
    status 422); [Unhandled] is an exception of the driver that no handler
    catches (answered with status 500). *)
Inductive exn : Type :=
| HTTPException (status_code : nat) (detail : string)
| RequestValidationError (loc : string)
| Unhandled (what : string).

Definition status_of (e : exn) : nat :=
  match e with
  | HTTPException status_code _ => status_code
  | RequestValidationError _ => 422
  | Unhandled _ => 500
  end.

Inductive result (A : Type) : Type :=
| Ok (a : A)
| Raise (e : exn).

Arguments Ok {A} a.
Arguments Raise {A} e.

(** A coroutine of the application: it runs against the storage state [S]
    and either returns or raises. *)
Definition M (S A : Type) : Type := S -> result A * S.

Definition ret {S A : Type} (a : A) : M S A := fun s => (Ok a, s).

Definition raise {S A : Type} (e : exn) : M S A := fun s => (Raise e, s).

Definition bind {S A B : Type} (c : M S A) (k : A -> M S B) : M S B :=
  fun s =>
    match c s with
    | (Ok a, s') => k a s'
    | (Raise e, s') => (Raise e, s')
    end.

Declare Scope app_scope.
Delimit Scope app_scope with app.
Notation "x <- c ;; k" := (bind c (fun x => k))
  (at level 61, c at next level, right associativity) : app_scope.

(** ** The storage driver *)

(** What a call into the driver comes back with: a value, or an exception
    (connection failure, malformed query, duplicate key). *)
Inductive outcome (A : Type) : Type :=
| Returned (a : A)
| Raised (what : string).

Arguments Returned {A} a.
Arguments Raised {A} what.

Record InsertOneResult : Type :=
  { acknowledged : bool; inserted_id : pyval }.

Record UpdateResult : Type :=
  { matched_count : Z; modified_count : Z }.

Record DeleteResult : Type :=
  { deleted_count : Z }.

(** The calls the program makes on a collection handle [self.db[name]].
    Every call may change the storage state, also when it raises. *)
Class Driver (S : Type) : Type :=
  { coll_insert_one : string -> document -> S -> outcome InsertOneResult * S;
    coll_find_one : string -> document -> S -> outcome (option document) * S;
    coll_update_one :
      string -> document -> document -> S -> outcome UpdateResult * S;
    coll_delete_one : string -> document -> S -> outcome DeleteResult * S;
    coll_find_to_list : string -> nat -> S -> outcome (list document) * S }.

(** ** The [Database] adapter *)

Section Adapter.

Context {S : Type} {driver : Driver S}.

(** [Database.insert_one]: the driver's result, or status 500 for any
    exception. *)
Definition Database_insert_one (collection_name : string) (doc : document)
  : M S InsertOneResult :=
  fun s =>
    match coll_insert_one collection_name doc s with
    | (Returned res, s') => (Ok res, s')
    | (Raised _, s') =>
        (Raise (HTTPException 500 "Internal Server Error"), s')
    end.

(** [Database.find_one]: the rendered document, or [None] when there is
    none, when it is empty, and for any exception. *)
Definition Database_find_one (collection_name : string) (query : document)
  : M S pyval :=
  fun s =>
    match coll_find_one collection_name query s with
    | (Returned (Some doc), s') =>
        (Ok (if truthy (VDict doc)
             then convert_objectid_to_str (VDict doc)
             else VNone), s')
    | (Returned None, s') => (Ok VNone, s')
    | (Raised _, s') => (Ok VNone, s')
    end.

(** [Database.update_one]: the update goes out as [{"$set": update_data}];
    the modified count comes back in a mapping, an empty mapping for any
    exception. *)
Definition Database_update_one (collection_name : string)
    (query update_data : document) : M S pyval :=
  fun s =>
    match coll_update_one collection_name query update_data s with
    | (Returned res, s') =>
        (Ok (VDict [("modified_count", VInt (modified_count res))]), s')
    | (Raised _, s') => (Ok (VDict []), s')
    end.

(** [Database.delete_one]: the deleted count in a mapping, an empty
    mapping for any exception. *)
Definition Database_delete_one (collection_name : string) (query : document)
  : M S pyval :=
  fun s =>
    match coll_delete_one collection_name query s with
    | (Returned res, s') =>
        (Ok (VDict [("deleted_count", VInt (deleted_count res))]), s')
    | (Raised _, s') => (Ok (VDict []), s')
    end.

(** [db.db[name].find().to_list(length=n)], called by the list endpoints
    outside the adapter: an exception of the driver is not caught. *)
Definition db_find_to_list (collection_name : string) (length : nat)
  : M S (list document) :=
  fun s =>
    match coll_find_to_list collection_name length s with
    | (Returned docs, s') => (Ok docs, s')
    | (Raised what, s') => (Raise (Unhandled what), s')
    end.

(** [result.get(key, 0)] on what the adapter returned. *)
Definition result_get (res : pyval) (key : string) : pyval :=
  match res with
  | VDict entries => dict_get entries key (VInt 0)
  | _ => VInt 0
  end.

End Adapter.

(** ** Entity models *)

(** The annotations the model classes use. *)
Inductive ftype : Type :=
| TInt
| TStr
| TFloat
| TBool
| TDatetime
| TDict
| TListDict
| TOptional (t : ftype).

(** A declared field; [fdefault = None] is a field without a default, which
    the payload must provide. *)
Record field : Type :=
  { fname : string; fannot : ftype; fdefault : option pyval }.

Definition required (name : string) (t : ftype) : field :=
  {| fname := name; fannot := t; fdefault := None |}.

Definition defaulted (name : string) (t : ftype) (d : pyval) : field :=
  {| fname := name; fannot := t; fdefault := Some d |}.

(** A model instance: the value of every declared field, in declaration
    order, and the names of the fields that were explicitly set. *)
Record instance : Type :=
  { values : document; fields_set : list string }.

(** A model class: its fields and its [model_validator]s, the one of mode
    [before] on the raw payload and the one of mode [after] on the
    instance. *)
Record model_class : Type :=
  { fields : list field;
    before_validator : document -> document;
    after_validator : instance -> result instance }.

Definition is_dict (v : pyval) : bool :=
  match v with VDict _ => true | _ => false end.

(** Whether a value fits an annotation.  The conversions pydantic applies to
    values of another kind (numeric text, ISO timestamps) are left out:
    a payload holds its values as they are after conversion. *)
Fixpoint has_type (t : ftype) (v : pyval) : bool :=
  match t, v with
  | TInt, VInt _ => true
  | TStr, VStr _ => true
  | TFloat, VFloat _ => true
  | TBool, VBool _ => true
  | TDatetime, VDatetime _ => true
  | TDict, VDict _ => true
  | TListDict, VList items => forallb is_dict items
  | TOptional _, VNone => true
  | TOptional t', _ => has_type t' v
  | _, _ => false
  end.

(** Field validation: a field that is present must fit its annotation and
    counts as set; an absent field takes its default and does not; an absent
    field without a default fails the payload.  Keys of the payload that the
    class does not declare are ignored. *)
Fixpoint validate_fields (fs : list field) (payload : document)
  : result instance :=
  match fs with
  | [] => Ok {| values := []; fields_set := [] |}
  | f :: rest =>
      match dict_lookup (fname f) payload with
      | Some v =>
          if has_type (fannot f) v then
            match validate_fields rest payload with
            | Ok m =>
                Ok {| values := (fname f, v) :: values m;
                      fields_set := fname f :: fields_set m |}
            | Raise e => Raise e
            end
          else Raise (RequestValidationError (fname f))
      | None =>
          match fdefault f with
          | Some d =>
              match validate_fields rest payload with
              | Ok m =>
                  Ok {| values := (fname f, d) :: values m;
                        fields_set := fields_set m |}
              | Raise e => Raise e
              end
          | None => Raise (RequestValidationError (fname f))
          end
      end
  end.

Definition model_validate (cls : model_class) (payload : document)
  : result instance :=
  match validate_fields (fields cls) (before_validator cls payload) with
  | Ok m => after_validator cls m
  | Raise e => Raise e
  end.

(** [model.dict()] and [model.dict(exclude_unset=True)]. *)
Definition model_dict (m : instance) : document := values m.

Definition model_dict_exclude_unset (m : instance) : document :=
  filter (fun kv => existsb (String.eqb (fst kv)) (fields_set m)) (values m).

(** Attribute access and assignment on an instance. *)
Definition getattr (m : instance) (name : string) : pyval :=
  dict_get (values m) name VNone.

Definition setattr (m : instance) (name : string) (v : pyval) : instance :=
  {| values := dict_set name v (values m);
     fields_set :=
       if existsb (String.eqb name) (fields_set m) then fields_set m
       else fields_set m ++ [name] |}.

Definition no_before (payload : document) : document := payload.

Definition no_after (m : instance) : result instance := Ok m.

Definition restaurants : model_class :=
  {| fields :=
       [ required "restaurants_id" TInt;
         required "res_name" TStr;
         required "res_email" TStr;
         required "res_website" TStr;
         required "res_desc" TStr;
         defaulted "res_added" (TOptional TDatetime) VNone;
         required "res_active" TBool;
         required "city_id" TStr;
         required "state_id" TStr ];
     before_validator := no_before;
     after_validator := no_after |}.

Definition Branch : model_class :=
  {| fields :=
       [ required "branch_id" TInt;
         required "branch_name" TStr;
         required "branch_email" TStr;
         required "branch_phone" TStr;
         required "branch_website" TStr;
         required "branch_desc" TStr;
         defaulted "branch_added" (TOptional TDatetime) VNone;
         required "branch_active" TBool;
         required "restaurants_id" (TOptional TStr);
         required "address_id" (TOptional TStr) ];
     before_validator := no_before;
     after_validator := no_after |}.

Definition User : model_class :=
  {| fields :=
       [ required "id" TInt;
         required "firstname" TStr;
         required "lastname" TStr;
         required "email" TStr;
         required "phone" TStr;
         required "password" TStr;
         required "address_street" TStr;
         required "address_city" TStr;
         required "address_state" TStr;
         required "address_zip" TInt;
         required "user_active" TBool;
         required "role" TStr ];
     before_validator := no_before;
     after_validator := no_after |}.

Definition MenuItem : model_class :=
  {| fields :=
       [ required "item_id" TStr;
         required "name" TStr;
         required "description" TStr;
         required "price" TFloat;
         required "category" TStr;
         required "available" TBool ];
     before_validator := no_before;
     after_validator := no_after |}.

(** The two validators of [Order].  The one of mode [before] sees the raw
    payload.  The one of mode [after] is handed the instance; its membership
    test is read on the instance's fields, which is the most it can find. *)
Definition convert_binary_field (key : string) (values : document)
  : document :=
  match dict_lookup key values with
  | Some (VBinary bs) => dict_set key (VStr (Base64.b64encode bs)) values
  | _ => values
  end.

Definition convert_binary_fields_to_base64 (values : document) : document :=
  convert_binary_field "address_id"
    (convert_binary_field "restaurants_id" values).

Definition convert_base64_field (key : string) (m : instance)
  : result instance :=
  match dict_lookup key (values m) with
  | Some (VStr s) =>
      match Base64.b64decode s with
      | Some bs =>
          Ok {| values := dict_set key (VBinary bs) (values m);
                fields_set := fields_set m |}
      | None => Raise (RequestValidationError key)
      end
  | _ => Ok m
  end.

Definition convert_base64_to_binary (m : instance) : result instance :=
  match convert_base64_field "restaurants_id" m with
  | Ok m' => convert_base64_field "address_id" m'
  | Raise e => Raise e
  end.

Definition Order : model_class :=
  {| fields :=
       [ required "order_id" TStr;
         required "customer" TDict;
         required "order_type" TStr;
         required "store" TDict;
         required "items" TListDict;
         required "total_price" TFloat;
         required "payment_method" TStr;
         required "order_status" TStr;
         required "order_date" TDatetime ];
     before_validator := convert_binary_fields_to_base64;
     after_validator := convert_base64_to_binary |}.

(** ** The endpoints of [admin.py] *)

(** Each endpoint is the body of its handler: it gets the path parameter and
    the validated model instance, talks to the store through the adapter and
    returns the response body or raises.  [now] is the reading of the clock
    where the handler stamps a creation time. *)
Section Endpoints.

Context {S : Type} {driver : Driver S}.

(** *** Branch *)

Definition create_branch (now : Z) (branch : instance) : M S pyval :=
  let branch :=
    if negb (truthy (getattr branch "branch_added"))
    then setattr branch "branch_added" (VDatetime now)
    else branch in
  let data := model_dict branch in
  (result <- Database_insert_one "Branch" data ;;
   if acknowledged result
   then ret (VDict [("message", VStr "Branch created successfully");
                    ("branch_id", getattr branch "branch_id")])
   else raise (HTTPException 400 "Failed to create branch"))%app.

Definition get_branch (branch_id : Z) : M S pyval :=
  (result <- Database_find_one "Branch" [("branch_id", VInt branch_id)] ;;
   if truthy result then ret result
   else raise (HTTPException 404 "Branch not found"))%app.

Definition update_branch (branch_id : Z) (branch : instance) : M S pyval :=
  let update_data := model_dict_exclude_unset branch in
  if negb (truthy (VDict update_data))
  then raise (HTTPException 400 "No data provided to update")
  else
    (result <- Database_update_one "Branch" [("branch_id", VInt branch_id)]
                 update_data ;;
     if truthy result && py_gt (result_get result "modified_count") 0
     then ret (VDict [("message", VStr "Branch updated successfully")])
     else raise (HTTPException 400 "Failed to update branch"))%app.

Definition delete_branch (branch_id : Z) : M S pyval :=
  (found <- Database_find_one "Branch" [("branch_id", VInt branch_id)] ;;
   if negb (truthy found)
   then raise (HTTPException 400 "Branch not found")
   else
     result <- Database_delete_one "Branch" [("branch_id", VInt branch_id)] ;;
     if truthy result && py_gt (result_get result "deleted_count") 0
     then ret (VDict [("message", VStr "Branch deleted successfully")])
     else raise (HTTPException 400 "Failed to delete branch"))%app.

Definition get_all_branches : M S pyval :=
  (docs <- db_find_to_list "Branch" 200 ;;
   ret (convert_objectid_to_str (VList (map VDict docs))))%app.

(** *** User *)

Definition create_user (user : instance) : M S pyval :=
  let data := model_dict user in
  (result <- Database_insert_one "userData" data ;;
   if acknowledged result
   then ret (VDict [("message", VStr "User created successfully");
                    ("user_id", getattr user "id")])
   else raise (HTTPException 400 "Failed to create user"))%app.

Definition get_user (user_id : Z) : M S pyval :=
  (result <- Database_find_one "userData" [("id", VInt user_id)] ;;
   if truthy result then ret result
   else raise (HTTPException 404 "User not found"))%app.

Definition update_user (user_id : Z) (user : instance) : M S pyval :=
  let update_data := model_dict_exclude_unset user in
  if negb (truthy (VDict update_data))
  then raise (HTTPException 400 "No data provided to update")
  else
    (result <- Database_update_one "userData" [("id", VInt user_id)]
                 update_data ;;
     if truthy result && py_gt (result_get result "modified_count") 0
     then ret (VDict [("message", VStr "User updated successfully")])
     else raise (HTTPException 400 "Failed to update user"))%app.

Definition delete_user (user_id : Z) : M S pyval :=
  (found <- Database_find_one "userData" [("id", VInt user_id)] ;;
   if negb (truthy found)
   then raise (HTTPException 400 "User not found")
   else
     result <- Database_delete_one "userData" [("id", VInt user_id)] ;;
     if truthy result && py_gt (result_get result "deleted_count") 0
     then ret (VDict [("message", VStr "User deleted successfully")])
     else raise (HTTPException 400 "Failed to delete user"))%app.

Definition get_all_users : M S pyval :=
  (docs <- db_find_to_list "userData" 200 ;;
   ret (convert_objectid_to_str (VList (map VDict docs))))%app.

(** *** Menu item *)

Definition create_menu_item (item : instance) : M S pyval :=
  let data := model_dict item in
  (result <- Database_insert_one "menu" data ;;
   if acknowledged result
   then ret (VDict [("message", VStr "Menu item created successfully");
                    ("item_id", getattr item "item_id")])
   else raise (HTTPException 400 "Failed to create menu item"))%app.

Definition get_menu_item (item_id : string) : M S pyval :=
  (result <- Database_find_one "menu" [("item_id", VStr item_id)] ;;
   if truthy result then ret result
   else raise (HTTPException 404 "Menu item not found"))%app.

Definition update_menu_item (item_id : string) (item : instance) : M S pyval :=
  let update_data := model_dict_exclude_unset item in
  if negb (truthy (VDict update_data))
  then raise (HTTPException 400 "No data provided to update")
  else
    (result <- Database_update_one "menu" [("item_id", VStr item_id)]
                 update_data ;;
     if truthy result && py_gt (result_get result "modified_count") 0
     then ret (VDict [("message", VStr "Menu item updated successfully")])
     else raise (HTTPException 404 "Menu item not found"))%app.

Definition delete_menu_item (item_id : string) : M S pyval :=
  (found <- Database_find_one "menu" [("item_id", VStr item_id)] ;;
   if negb (truthy found)
   then raise (HTTPException 404 "Menu item not found")
   else
     result <- Database_delete_one "menu" [("item_id", VStr item_id)] ;;
     if truthy result && py_gt (result_get result "deleted_count") 0
     then ret (VDict [("message", VStr "Menu item deleted successfully")])
     else raise (HTTPException 400 "Failed to delete menu item"))%app.

Definition get_all_menu_items : M S pyval :=
  (docs <- db_find_to_list "menu" 200 ;;
   ret (convert_objectid_to_str (VList (map VDict docs))))%app.

(** *** Order *)

Definition create_order (order : instance) : M S pyval :=
  let data := model_dict order in
  (result <- Database_insert_one "orders" data ;;
   if acknowledged result
   then ret (VDict [("message", VStr "Order created successfully");
                    ("order_id", getattr order "order_id")])
   else raise (HTTPException 400 "Failed to create order"))%app.

Definition get_order (order_id : string) : M S pyval :=
  (result <- Database_find_one "orders" [("order_id", VStr order_id)] ;;
   if truthy result then ret result
   else raise (HTTPException 404 "Order not found"))%app.

Definition update_order (order_id : string) (order : instance) : M S pyval :=
  let update_data := model_dict_exclude_unset order in
  if negb (truthy (VDict update_data))
  then raise (HTTPException 400 "No data provided to update")
  else
    (result <- Database_update_one "orders" [("order_id", VStr order_id)]
                 update_data ;;
     if truthy result && py_gt (result_get result "modified_count") 0
     then ret (VDict [("message", VStr "Order updated successfully")])
     else raise (HTTPException 404 "Order not found"))%app.

Definition delete_order (order_id : string) : M S pyval :=
  (found <- Database_find_one "orders" [("order_id", VStr order_id)] ;;
   if negb (truthy found)
   then raise (HTTPException 404 "Order not found")
   else
     result <- Database_delete_one "orders" [("order_id", VStr order_id)] ;;
     if truthy result && py_gt (result_get result "deleted_count") 0
     then ret (VDict [("message", VStr "Order deleted successfully")])
     else raise (HTTPException 400 "Failed to delete order"))%app.

Definition get_all_orders : M S pyval :=
  (docs <- db_find_to_list "orders" 200 ;;
   ret (convert_objectid_to_str (VList (map VDict docs))))%app.

(** *** Restaurant *)

Definition create_restaurants (now : Z) (restaurant : instance) : M S pyval :=
  let restaurant :=
    if negb (truthy (getattr restaurant "res_added"))
    then setattr restaurant "res_added" (VDatetime now)
    else restaurant in
  let data := model_dict restaurant in
  (result <- Database_insert_one "restaurants" data ;;
   if acknowledged result
   then ret (VDict [("message", VStr "restaurants created successfully");
                    ("restaurants_id", getattr restaurant "restaurants_id")])
   else raise (HTTPException 400 "Failed to create restaurants"))%app.

Definition get_restaurants (restaurants_id : Z) : M S pyval :=
  (result <- Database_find_one "restaurants" [("restaurants_id", VInt restaurants_id)] ;;
   if truthy result then ret result
   else raise (HTTPException 404 "restaurants not found"))%app.

Definition update_restaurants (restaurants_id : Z) (restaurant : instance) : M S pyval :=
  let update_data := model_dict_exclude_unset restaurant in
  if negb (truthy (VDict update_data))
  then raise (HTTPException 400 "No data provided to update")
  else
    (result <- Database_update_one "restaurants" [("restaurants_id", VInt restaurants_id)]
                 update_data ;;
     if truthy result && py_gt (result_get result "modified_count") 0
     then ret (VDict [("message", VStr "restaurants updated successfully")])
     else raise (HTTPException 400 "Failed to update restaurants"))%app.

Definition delete_restaurants (restaurants_id : Z) : M S pyval :=
  (found <- Database_find_one "restaurants" [("restaurants_id", VInt restaurants_id)] ;;
   if negb (truthy found)
   then raise (HTTPException 400 "restaurants not found")
   else
     result <- Database_delete_one "restaurants" [("restaurants_id", VInt restaurants_id)] ;;
     if truthy result && py_gt (result_get result "deleted_count") 0
     then ret (VDict [("message", VStr "restaurants deleted successfully")])
     else raise (HTTPException 400 "Failed to delete restaurants"))%app.

Definition get_all_restaurantss : M S pyval :=
  (docs <- db_find_to_list "restaurants" 200 ;;
   ret (convert_objectid_to_str (VList (map VDict docs))))%app.

(** *** Requests *)

(** A request with a body: the framework validates the body against the
    model class of the handler's parameter and calls the handler with the
    instance, or answers the validation error without calling it. *)
Definition with_body {A : Type} (cls : model_class) (body : document)
    (handler : instance -> M S A) : M S A :=
  match model_validate cls body with
  | Ok m => handler m
  | Raise e => raise e
  end.

Definition put_branch (branch_id : Z) (body : document) : M S pyval :=
  with_body Branch body (update_branch branch_id).

Definition post_create_order (body : document) : M S pyval :=
  with_body Order body create_order.

(** *** Route tables *)

(** The update and delete endpoints side by side: the collection and the
    query each one sends to the adapter, and the exceptions it raises. *)
Record update_route : Type :=
  { u_collection : string;
    u_query : document;
    u_failed : exn;
    u_handler : instance -> M S pyval }.

Record delete_route : Type :=
  { d_collection : string;
    d_query : document;
    d_not_found : exn;
    d_failed : exn;
    d_handler : M S pyval }.

Definition update_routes (n : Z) (k : string) : list update_route :=
  [ {| u_collection := "Branch";
       u_query := [("branch_id", VInt n)];
       u_failed := HTTPException 400 "Failed to update branch";
       u_handler := update_branch n |};
    {| u_collection := "userData";
       u_query := [("id", VInt n)];
       u_failed := HTTPException 400 "Failed to update user";
       u_handler := update_user n |};
    {| u_collection := "menu";
       u_query := [("item_id", VStr k)];
       u_failed := HTTPException 404 "Menu item not found";
       u_handler := update_menu_item k |};
    {| u_collection := "orders";
       u_query := [("order_id", VStr k)];
       u_failed := HTTPException 404 "Order not found";
       u_handler := update_order k |};
    {| u_collection := "restaurants";
       u_query := [("restaurants_id", VInt n)];
       u_failed := HTTPException 400 "Failed to update restaurants";
       u_handler := update_restaurants n |} ].

Definition delete_routes (n : Z) (k : string) : list delete_route :=
  [ {| d_collection := "Branch";
       d_query := [("branch_id", VInt n)];
       d_not_found := HTTPException 400 "Branch not found";
       d_failed := HTTPException 400 "Failed to delete branch";
       d_handler := delete_branch n |};
    {| d_collection := "userData";
       d_query := [("id", VInt n)];
       d_not_found := HTTPException 400 "User not found";
       d_failed := HTTPException 400 "Failed to delete user";
       d_handler := delete_user n |};
    {| d_collection := "menu";
       d_query := [("item_id", VStr k)];
       d_not_found := HTTPException 404 "Menu item not found";
       d_failed := HTTPException 400 "Failed to delete menu item";
       d_handler := delete_menu_item k |};
    {| d_collection := "orders";
       d_query := [("order_id", VStr k)];
       d_not_found := HTTPException 404 "Order not found";
       d_failed := HTTPException 400 "Failed to delete order";
       d_handler := delete_order k |};
    {| d_collection := "restaurants";
       d_query := [("restaurants_id", VInt n)];
       d_not_found := HTTPException 400 "restaurants not found";
       d_failed := HTTPException 400 "Failed to delete restaurants";
       d_handler := delete_restaurants n |} ].

(** The list endpoints with the collection each one reads. *)
Definition list_routes : list (string * M S pyval) :=
  [ ("Branch", get_all_branches);
    ("userData", get_all_users);
    ("menu", get_all_menu_items);
    ("orders", get_all_orders);
    ("restaurants", get_all_restaurantss) ].

(** An update or a delete that came back from the driver without having
    changed anything: it raised, or it counted no document. *)
Definition update_ineffective (o : outcome UpdateResult) : Prop :=
  match o with
  | Raised _ => True
  | Returned r => (modified_count r <= 0)%Z
  end.

Definition delete_ineffective (o : outcome DeleteResult) : Prop :=
  match o with
  | Raised _ => True
  | Returned r => (deleted_count r <= 0)%Z
  end.

End Endpoints.

(** ** An in-memory document store *)

(** The document store the program runs against, reduced to what the
    program uses: named collections of documents in insertion order,
    equality queries, [$set] updates, and identifiers assigned on insert.
    [faults] schedules the failures of the connection, one flag per call;
    [calls] records the calls that reached the driver, oldest first.
    Documents are kept as they are given: what the BSON encoding does to
    timestamps and to [Binary] values is left out, and a statement that
    reads back what was inserted is made for [bson_exact] values only. *)
Module Mongo.

Inductive call : Type :=
| InsertOne (collection_name : string) (doc : document)
| FindOne (collection_name : string) (query : document)
| UpdateOne (collection_name : string) (query update : document)
| DeleteOne (collection_name : string) (query : document)
| FindToList (collection_name : string) (length : nat).

Record store : Type :=
  { collections : string -> list document;
    next_oid : N;
    faults : list bool;
    calls : list call }.

Definition empty : store :=
  {| collections := fun _ => []; next_oid := 0; faults := []; calls := [] |}.

(** No failure of the connection is scheduled. *)
Definition healthy (s : store) : Prop := faults s = [].

Definition byte_of_N (n : N) : byte :=
  match Byte.of_N (n mod 256) with Some b => b | None => x00 end.

Fixpoint big_endian (width : nat) (n : N) : bytes :=
  match width with
  | O => []
  | S w => big_endian w (n / 256) ++ [byte_of_N n]
  end.

(** The identifier the driver assigns: 12 bytes. *)
Definition new_oid (n : N) : bytes := big_endian 12 n.

(** A query is a conjunction of equalities on fields. *)
Definition matches (query doc : document) : bool :=
  forallb (fun kv =>
             match dict_lookup (fst kv) doc with
             | Some v => pyval_eqb (snd kv) v
             | None => false
             end) query.

Definition set_collection (name : string) (docs : list document)
    (colls : string -> list document) : string -> list document :=
  fun c => if String.eqb c name then docs else colls c.

Fixpoint replace_first (p : document -> bool) (f : document -> document)
    (docs : list document) : list document :=
  match docs with
  | [] => []
  | d :: rest =>
      if p d then f d :: rest else d :: replace_first p f rest
  end.

Fixpoint remove_first (p : document -> bool) (docs : list document)
  : list document :=
  match docs with
  | [] => []
  | d :: rest => if p d then rest else d :: remove_first p rest
  end.

(** [{"$set": update}] applied to a document. *)
Definition apply_set (update doc : document) : document :=
  fold_left (fun d kv => dict_set (fst kv) (snd kv) d) update doc.

(** Every call is recorded and takes the next flag of the schedule. *)
Definition enter (c : call) (s : store) : bool * store :=
  (hd false (faults s),
   {| collections := collections s;
      next_oid := next_oid s;
      faults := tl (faults s);
      calls := calls s ++ [c] |}).

Definition with_collection (name : string) (docs : list document)
    (s : store) : store :=
  {| collections := set_collection name docs (collections s);
     next_oid := next_oid s;
     faults := faults s;
     calls := calls s |}.

Definition unreachable : string := "ServerSelectionTimeoutError".

(** A document without [_id] gets a new identifier, placed first; one
    with an [_id] already in the collection is refused.  No other field is
    compared with what the collection holds. *)
Definition insert_one (name : string) (doc : document) (s : store)
  : outcome InsertOneResult * store :=
  let (fault, s1) := enter (InsertOne name doc) s in
  if fault then (Raised unreachable, s1)
  else
    let docs := collections s1 name in
    match dict_lookup "_id" doc with
    | Some id =>
        if existsb (matches [("_id", id)]) docs
        then (Raised "DuplicateKeyError", s1)
        else (Returned {| acknowledged := true; inserted_id := id |},
              with_collection name (docs ++ [doc]) s1)
    | None =>
        let id := VObjectId (new_oid (next_oid s1)) in
        (Returned {| acknowledged := true; inserted_id := id |},
         {| collections :=
              set_collection name (docs ++ [("_id", id) :: doc])
                (collections s1);
            next_oid := next_oid s1 + 1;
            faults := faults s1;
            calls := calls s1 |})
    end.

Definition find_one (name : string) (query : document) (s : store)
  : outcome (option document) * store :=
  let (fault, s1) := enter (FindOne name query) s in
  if fault then (Raised unreachable, s1)
  else (Returned (find (matches query) (collections s1 name)), s1).

Definition update_one (name : string) (query update : document)
    (s : store) : outcome UpdateResult * store :=
  let (fault, s1) := enter (UpdateOne name query update) s in
  if fault then (Raised unreachable, s1)
  else
    let docs := collections s1 name in
    match find (matches query) docs with
    | None =>
        (Returned {| matched_count := 0; modified_count := 0 |}, s1)
    | Some doc =>
        if pyval_eqb (VDict (apply_set update doc)) (VDict doc)
        then (Returned {| matched_count := 1; modified_count := 0 |}, s1)
        else
          (Returned {| matched_count := 1; modified_count := 1 |},
           with_collection name
             (replace_first (matches query) (apply_set update) docs) s1)
    end.

Definition delete_one (name : string) (query : document) (s : store)
  : outcome DeleteResult * store :=
  let (fault, s1) := enter (DeleteOne name query) s in
  if fault then (Raised unreachable, s1)
  else
    let docs := collections s1 name in
    match find (matches query) docs with
    | None => (Returned {| deleted_count := 0 |}, s1)
    | Some _ =>
        (Returned {| deleted_count := 1 |},
         with_collection name (remove_first (matches query) docs) s1)
    end.

(** [find().to_list(length=n)]: the first [n] documents of the
    collection. *)
Definition find_to_list (name : string) (length : nat) (s : store)
  : outcome (list document) * store :=
  let (fault, s1) := enter (FindToList name length) s in
  if fault then (Raised unreachable, s1)
  else (Returned (firstn length (collections s1 name)), s1).

#[global] Instance driver : Driver store :=
  {| coll_insert_one := insert_one;
     coll_find_one := find_one;
     coll_update_one := update_one;
     coll_delete_one := delete_one;
     coll_find_to_list := find_to_list |}.

(** How many documents of a list a query matches. *)
Definition count_matching (query : document) (docs : list document) : nat :=
  List.length (filter (matches query) docs).

End Mongo.

(** ** Sample data *)

(** A body for [POST /create-order/] that carries a reference field. *)
Definition order_body : document :=
  [ ("order_id", VStr "o-1");
    ("customer", VDict [("name", VStr "Ann")]);
    ("order_type", VStr "pickup");
    ("store", VDict [("name", VStr "Main")]);
    ("items", VList [VDict [("item_id", VStr "m-1")]]);
    ("total_price", VFloat 4621819117588971520);
    ("payment_method", VStr "card");
    ("order_status", VStr "new");
    ("order_date", VDatetime 1700000000);
    ("restaurants_id", VStr "AQID") ].

(** A body for [POST /create-branch/] and [PUT /branch/1]. *)
Definition branch_body : document :=
  [ ("branch_id", VInt 1);
    ("branch_name", VStr "Branch A");
    ("branch_email", VStr "a@example.com");
    ("branch_phone", VStr "555-0100");
    ("branch_website", VStr "a.example.com");
    ("branch_desc", VStr "first");
    ("branch_active", VBool true);
    ("restaurants_id", VNone);
    ("address_id", VStr "addr-1") ].

(** A store whose [Branch] collection holds 250 documents. *)
Definition crowded : Mongo.store :=
  {| Mongo.collections :=
       fun name =>
         if String.eqb name "Branch"
         then repeat [("_id", VObjectId (Mongo.new_oid 0));
                      ("branch_id", VInt 1)] 250
         else [];
     Mongo.next_oid := 250;
     Mongo.faults := [];
     Mongo.calls := [] |}.

(** A store whose connection fails on the next call. *)
Definition unreachable_store : Mongo.store :=
  {| Mongo.collections := fun _ => [];
     Mongo.next_oid := 0;
     Mongo.faults := [true];
     Mongo.calls := [] |}.

(** A body for [POST /create-user/]. *)
Definition user_body : document :=
  [ ("id", VInt 1);
    ("firstname", VStr "Ann");
    ("lastname", VStr "Lee");
    ("email", VStr "ann@example.com");
    ("phone", VStr "555-0101");
    ("password", VStr "secret");
    ("address_street", VStr "1 Main St");
    ("address_city", VStr "Springfield");
    ("address_state", VStr "IL");
    ("address_zip", VInt 62701);
    ("user_active", VBool true);
    ("role", VStr "admin") ].

(** ** Checks by enumeration *)

(** What has to hold of each of the 64 digits of the base64 alphabet for a
    text of digits to be read back: the digit has its own value, is not the
    padding character and is ASCII. *)
Definition base64_digit_checks (n : N) : bool :=
  match Base64.value (Base64.digit n) with
  | Some m => (m =? n)%N
  | None => false
  end
  && negb (Ascii.eqb (Base64.digit n) Base64.pad)
  && (Byte.to_N (byte_of_ascii (Base64.digit n)) <? 128)%N.

(** The reference fields the validators of [Order] look at hold bytes
    where the mapping has them at all. *)
Definition reference_fields_binary (values : document) : Prop :=
  forall key : string,
    key = "restaurants_id" \/ key = "address_id" ->
    match dict_lookup key values with
    | Some (VBinary _) | None => True
    | Some _ => False
    end.

(** ** Kinds of values in a tree *)

(** Whether a [bytes] value occurs anywhere in a value. *)
Fixpoint has_bytes (v : pyval) : bool :=
  match v with
  | VBytes _ | VBinary _ => true
  | VList items => existsb has_bytes items
  | VDict entries => existsb (fun kv => has_bytes (snd kv)) entries
  | _ => false
  end.

(** Whether a value is made of what JSON has only: no bytes of any kind and
    no identifier, at any depth. *)
Fixpoint json_native (v : pyval) : bool :=
  match v with
  | VBytes _ | VBinary _ | VByteArray _ | VObjectId _ => false
  | VList items => forallb json_native items
  | VDict entries => forallb (fun kv => json_native (snd kv)) entries
  | _ => true
  end.

(** A store that holds one branch, and a renaming of it. *)
Definition one_branch : Mongo.store :=
  snd (Database_insert_one "Branch" branch_body Mongo.empty).


(** An annotation whose values are scalars. *)
Fixpoint scalar_annot (t : ftype) : bool :=
  match t with
  | TDict | TListDict => false
  | TOptional t' => scalar_annot t'
  | _ => true
  end.

(** A field whose values, the default included, are JSON's own. *)
Definition scalar_field (f : field) : bool :=
  scalar_annot (fannot f) &&
  match fdefault f with Some d => json_native d | None => true end.

(** The instance [branch_body] validates to. *)
Definition branch_instance : instance :=
  {| values :=
       firstn 6 branch_body ++ [("branch_added", VNone)] ++
       skipn 6 branch_body;
     fields_set := map fst branch_body |}.

(** ** [register.py]: registration against an in-process list *)

Module Register.

(** The request model [User] of [register.py]. *)
Record User : Type :=
  { full_name : string;
    email : string;
    password : string;
    retype_password : string;
    agree_terms : bool }.

(** The response model [UserResponse]. *)
Definition UserResponse : model_class :=
  {| fields := [ required "full_name" TStr; required "email" TStr ];
     before_validator := no_before;
     after_validator := no_after |}.

(** The module-level list [mock_db] is the state. *)
Definition mock_db : Type := list document.

(** [register]: the two checks in their order, then the record is
    appended. *)
Definition register (user : User) : M mock_db pyval :=
  fun db =>
    if negb (String.eqb (password user) (retype_password user))
    then (Raise (HTTPException 400 "Passwords do not match"), db)
    else if negb (agree_terms user)
    then (Raise (HTTPException 400 "You must agree to the terms"), db)
    else
      (Ok (VDict [("message", VStr "Registration successful")]),
       db ++ [[("full_name", VStr (full_name user));
               ("email", VStr (email user));
               ("password", VStr (password user))]]).

(** [get_all_users]: the list itself, or 404 when it is empty. *)
Definition get_all_users : M mock_db pyval :=
  fun db =>
    if negb (truthy (VList (map VDict db)))
    then (Raise (HTTPException 404 "No users found"), db)
    else (Ok (VList (map VDict db)), db).

(** What [response_model=List[...]] does with the value a handler returns:
    every element is validated against the class and only its declared
    fields are sent; a value that does not fit is an error of the server. *)
Fixpoint response_items (cls : model_class) (items : list pyval)
  : result (list pyval) :=
  match items with
  | [] => Ok []
  | VDict d :: rest =>
      match model_validate cls d, response_items cls rest with
      | Ok m, Ok out => Ok (VDict (model_dict m) :: out)
      | _, _ => Raise (Unhandled "ResponseValidationError")
      end
  | _ :: _ => Raise (Unhandled "ResponseValidationError")
  end.

Definition response_model_list (cls : model_class) (body : pyval)
  : result pyval :=
  match body with
  | VList items =>
      match response_items cls items with
      | Ok out => Ok (VList out)
      | Raise e => Raise e
      end
  | _ => Raise (Unhandled "ResponseValidationError")
  end.

(** [GET /users] as the client sees it. *)
Definition get_users : M mock_db pyval :=
  fun db =>
    match get_all_users db with
    | (Ok body, db') => (response_model_list UserResponse body, db')
    | (Raise e, db') => (Raise e, db')
    end.

(** The list after a series of [POST /register] requests. *)
Definition registrations (users : list User) (db : mock_db) : mock_db :=
  fold_left (fun db user => snd (register user db)) users db.

(** A request that passes both checks. *)
Definition accepted (user : User) : bool :=
  String.eqb (password user) (retype_password user) && agree_terms user.

Definition record_of (user : User) : document :=
  [("full_name", VStr (full_name user));
   ("email", VStr (email user));
   ("password", VStr (password user))].

Definition public_record_of (user : User) : pyval :=
  VDict [("full_name", VStr (full_name user)); ("email", VStr (email user))].

End Register.

(** ** [main.py]: endpoints on the driver itself *)

Module Bson.

(** The value of a hex digit as [bytes.fromhex] reads it, in either case. *)
Definition digit_value (c : ascii) : option N :=
  let n := N_of_ascii c in
  if (48 <=? n)%N && (n <=? 57)%N then Some (n - 48)%N
  else if (97 <=? n)%N && (n <=? 102)%N then Some (n - 87)%N
  else if (65 <=? n)%N && (n <=? 70)%N then Some (n - 55)%N
  else None.

(** ASCII whitespace. *)
Definition is_space (c : ascii) : bool :=
  let n := N_of_ascii c in
  ((9 <=? n)%N && (n <=? 13)%N) || (n =? 32)%N.

(** [bytes.fromhex]: pairs of hex digits, whitespace allowed between pairs
    only.  [top] is the first digit of a pair that has been read. *)
Fixpoint fromhex (top : option N) (s : string) : option bytes :=
  match s with
  | EmptyString =>
      match top with None => Some [] | Some _ => None end
  | String c rest =>
      match top with
      | None =>
          if is_space c then fromhex None rest
          else
            match digit_value c with
            | Some t => fromhex (Some t) rest
            | None => None
            end
      | Some t =>
          match digit_value c with
          | Some b => Base64.emit (t * 16 + b) (fromhex None rest)
          | None => None
          end
      end
  end.

(** [ObjectId(text)]: the text must have 24 characters and be accepted by
    [fromhex]; [None] stands for [InvalidId].  A text with a character
    outside ASCII is refused whichever of the two tests it fails, so the
    count is taken on the encoded text. *)
Definition ObjectId_parse (text : string) : option bytes :=
  if (String.length text =? 24)%nat then fromhex None text else None.

End Bson.

Module Main.

(** The request model [User] of [main.py]. *)
Record User : Type :=
  { full_name : string;
    email : string;
    password : string;
    retype_password : string;
    agree_terms : bool }.

Definition UserResponse : model_class :=
  {| fields := [ required "full_name" TStr; required "email" TStr ];
     before_validator := no_before;
     after_validator := no_after |}.

(** [user["full_name"]] and [user["email"]] of each document; a document
    without one of them raises [KeyError]. *)
Fixpoint project_users (users : list document) : result (list pyval) :=
  match users with
  | [] => Ok []
  | user :: rest =>
      match dict_lookup "full_name" user, dict_lookup "email" user with
      | Some name, Some address =>
          match project_users rest with
          | Ok out =>
              Ok (VDict [("full_name", name); ("email", address)] :: out)
          | Raise e => Raise e
          end
      | _, _ => Raise (Unhandled "KeyError")
      end
  end.

(** What [response_model=cls] does with the value a handler returns. *)
Definition response_model (cls : model_class) (body : pyval) : result pyval :=
  match body with
  | VDict d =>
      match model_validate cls d with
      | Ok m => Ok (VDict (model_dict m))
      | Raise _ => Raise (Unhandled "ResponseValidationError")
      end
  | _ => Raise (Unhandled "ResponseValidationError")
  end.

Section Endpoints.

Context {S : Type} {driver : Driver S}.

(** [bcrypt.hashpw], which the program calls and does not define. *)
Variable hashpw : string -> string -> string.

(** Calls on a collection handle outside any [try]: an exception of the
    driver is not caught. *)
Definition motor_find_one (name : string) (query : document)
  : M S (option document) :=
  fun s =>
    match coll_find_one name query s with
    | (Returned found, s') => (Ok found, s')
    | (Raised what, s') => (Raise (Unhandled what), s')
    end.

Definition motor_insert_one (name : string) (doc : document)
  : M S InsertOneResult :=
  fun s =>
    match coll_insert_one name doc s with
    | (Returned res, s') => (Ok res, s')
    | (Raised what, s') => (Raise (Unhandled what), s')
    end.

Definition motor_delete_one (name : string) (query : document)
  : M S DeleteResult :=
  fun s =>
    match coll_delete_one name query s with
    | (Returned res, s') => (Ok res, s')
    | (Raised what, s') => (Raise (Unhandled what), s')
    end.

(** [hash_password]; [salt] is what [bcrypt.gensalt()] returned. *)
Definition hash_password (salt : string) (password : string) : string :=
  hashpw password salt.

(** [register]: the two checks, the lookup by address, then the insert of
    the record with the hashed password. *)
Definition register (salt : string) (user : User) : M S pyval :=
  if negb (String.eqb (password user) (retype_password user))
  then raise (HTTPException 400 "Passwords do not match")
  else if negb (agree_terms user)
  then raise (HTTPException 400 "You must agree to the terms")
  else
    (existing_user <- motor_find_one "users" [("email", VStr (email user))] ;;
     if match existing_user with
        | Some doc => truthy (VDict doc)
        | None => false
        end
     then raise (HTTPException 400 "Email already registered")
     else
       let hashed_password := hash_password salt (password user) in
       let new_user :=
         [("full_name", VStr (full_name user));
          ("email", VStr (email user));
          ("password", VStr hashed_password)] in
       _ <- motor_insert_one "users" new_user ;;
       ret (VDict [("message", VStr "Registration successful")]))%app.

(** [POST /admin/register] as the client sees it, with its declared
    response model. *)
Definition post_register (salt : string) (user : User) : M S pyval :=
  fun s =>
    match register salt user s with
    | (Ok body, s') => (response_model UserResponse body, s')
    | (Raise e, s') => (Raise e, s')
    end.

(** The body of [get_all_users]: at most 100 documents, each reduced to
    two fields. *)
Definition get_all_users_body : M S pyval :=
  (users <- db_find_to_list "users" 100 ;;
   if negb (truthy (VList (map VDict users)))
   then raise (HTTPException 404 "No users found")
   else
     match project_users users with
     | Ok out => ret (VList out)
     | Raise e => raise e
     end)%app.

(** [get_all_users] as it is declared, with
    [response_model=List[UserResponse]]: what the body returns is validated
    entry by entry against [UserResponse] before it is sent, as in
    [register.py]. *)
Definition get_all_users : M S pyval :=
  fun s =>
    match get_all_users_body s with
    | (Ok body, s') =>
        (Register.response_model_list UserResponse body, s')
    | (Raise e, s') => (Raise e, s')
    end.

Definition delete_item (item_id : string) : M S pyval :=
  match Bson.ObjectId_parse item_id with
  | None => raise (Unhandled "InvalidId")
  | Some oid =>
      (result <- motor_delete_one "items" [("_id", VObjectId oid)] ;;
       if (deleted_count result =? 0)%Z
       then raise (HTTPException 404 "Item not found")
       else ret (VDict [("message", VStr "Item deleted successfully")]))%app
  end.

Definition delete_menu (menu_id : string) : M S pyval :=
  match Bson.ObjectId_parse menu_id with
  | None => raise (Unhandled "InvalidId")
  | Some oid =>
      (result <- motor_delete_one "menus" [("_id", VObjectId oid)] ;;
       if (deleted_count result =? 0)%Z
       then raise (HTTPException 404 "Menu not found")
       else ret (VDict [("message", VStr "Menu deleted successfully")]))%app
  end.

Definition delete_customer (customer_id : string) : M S pyval :=
  match Bson.ObjectId_parse customer_id with
  | None => raise (Unhandled "InvalidId")
  | Some oid =>
      (result <- motor_delete_one "customers" [("_id", VObjectId oid)] ;;
       if (deleted_count result =? 0)%Z
       then raise (HTTPException 404 "Customer not found")
       else ret (VDict [("message", VStr "Customer deleted successfully")]))%app
  end.

Definition delete_branch (branch_id : string) : M S pyval :=
  match Bson.ObjectId_parse branch_id with
  | None => raise (Unhandled "InvalidId")
  | Some oid =>
      (result <- motor_delete_one "branches" [("_id", VObjectId oid)] ;;
       if (deleted_count result =? 0)%Z
       then raise (HTTPException 404 "Branch not found")
       else ret (VDict [("message", VStr "Branch deleted successfully")]))%app
  end.

Definition delete_inventory (inventory_id : string) : M S pyval :=
  match Bson.ObjectId_parse inventory_id with
  | None => raise (Unhandled "InvalidId")
  | Some oid =>
      (result <- motor_delete_one "inventory" [("_id", VObjectId oid)] ;;
       if (deleted_count result =? 0)%Z
       then raise (HTTPException 404 "Inventory item not found")
       else ret (VDict [("message", VStr "Inventory item deleted successfully")]))%app
  end.

(** The delete endpoints side by side: collection, texts and handler. *)
Definition delete_routes (id : string)
  : list (string * string * string * M S pyval) :=
  [ ("items", "Item not found",
     "Item deleted successfully", delete_item id);
    ("menus", "Menu not found",
     "Menu deleted successfully", delete_menu id);
    ("customers", "Customer not found",
     "Customer deleted successfully", delete_customer id);
    ("branches", "Branch not found",
     "Branch deleted successfully", delete_branch id);
    ("inventory", "Inventory item not found",
     "Inventory item deleted successfully", delete_inventory id) ].
End Endpoints.

End Main.

(** A store that holds one item, and one that holds one user. *)
Definition one_item : Mongo.store :=
  snd (Database_insert_one "items"
         [("name", VStr "Soup"); ("description", VStr "of the day");
          ("price", VFloat 4617315517961601024)] Mongo.empty).

Definition one_user : Mongo.store :=
  snd (Database_insert_one "users"
         [("full_name", VStr "Ann Lee"); ("email", VStr "ann@example.com");
          ("password", VStr "$2b$12$hash")] Mongo.empty).

(** A registration request of [main.py] that passes both checks, and the
    record stored for it. *)
Definition main_accepted (user : Main.User) : Prop :=
  Main.password user = Main.retype_password user /\
  Main.agree_terms user = true.

Definition main_record (hashpw : string -> string -> string)
    (salt : string) (user : Main.User) : document :=
  [("full_name", VStr (Main.full_name user));
   ("email", VStr (Main.email user));
   ("password", VStr (hashpw (Main.password user) salt))].

(** A registration request for [POST /admin/register]. *)
Definition main_user : Main.User :=
  {| Main.full_name := "Ann Lee";
     Main.email := "ann@example.com";
     Main.password := "secret";
     Main.retype_password := "secret";
     Main.agree_terms := true |}.

(** ** [db_connection.py]: the adapter that returns no [None] *)

Module DbConnection.

Section Adapter.

Context {S : Type} {driver : Driver S}.

(** The builtin [str], which the adapter applies to the identifier of an
    inserted document. *)
Variable py_str : pyval -> string.

(** [Database.insert_one]: the identifier as text in a mapping, the empty
    mapping for any exception. *)
Definition insert_one (collection_name : string) (doc : document)
  : M S pyval :=
  fun s =>
    match coll_insert_one collection_name doc s with
    | (Returned res, s') =>
        (Ok (VDict [("_id", VStr (py_str (inserted_id res)))]), s')
    | (Raised _, s') => (Ok (VDict []), s')
    end.

(** [Database.find_one]: the document as the driver returned it, the empty
    mapping when there is none, when it is empty, and for any exception. *)
Definition find_one (collection_name : string) (query : document)
  : M S pyval :=
  fun s =>
    match coll_find_one collection_name query s with
    | (Returned (Some doc), s') =>
        (Ok (if truthy (VDict doc) then VDict doc else VDict []), s')
    | (Returned None, s') => (Ok (VDict []), s')
    | (Raised _, s') => (Ok (VDict []), s')
    end.

Definition update_one (collection_name : string)
    (query update_data : document) : M S pyval :=
  fun s =>
    match coll_update_one collection_name query update_data s with
    | (Returned res, s') =>
        (Ok (VDict [("modified_count", VInt (modified_count res))]), s')
    | (Raised _, s') => (Ok (VDict []), s')
    end.

Definition delete_one (collection_name : string) (query : document)
  : M S pyval :=
  fun s =>
    match coll_delete_one collection_name query s with
    | (Returned res, s') =>
        (Ok (VDict [("deleted_count", VInt (deleted_count res))]), s')
    | (Raised _, s') => (Ok (VDict []), s')
    end.

End Adapter.

End DbConnection.

(** A reading of [str] on the values that serve as identifiers. *)
Definition text_of_id (v : pyval) : string :=
  match v with
  | VObjectId oid => ObjectId_str oid
  | VStr s => s
  | _ => EmptyString
  end.

(** A body for [PUT /branch/1] that names another key, and the instance it
    validates to. *)
Definition moved_body : document :=
  dict_set "branch_id" (VInt 2) branch_body.

Definition moved_branch : instance :=
  {| values :=
       firstn 6 moved_body ++ [("branch_added", VNone)] ++
       skipn 6 moved_body;
     fields_set := map fst moved_body |}.

(** A place in a document: the keys and positions that lead to it from the
    top. *)
Inductive step : Type :=
| Key (key : string)
| Index (i : nat).

Fixpoint value_at (path : list step) (v : pyval) : option pyval :=
  match path with
  | [] => Some v
  | Key key :: rest =>
      match v with
      | VDict entries =>
          match dict_lookup key entries with
          | Some inner => value_at rest inner
          | None => None
          end
      | _ => None
      end
  | Index i :: rest =>
      match v with
      | VList items =>
          match nth_error items i with
          | Some inner => value_at rest inner
          | None => None
          end
      | _ => None
      end
  end.

(** A store that holds one menu item and whose connection fails on the
    second call. *)
Definition menu_delete_fails : Mongo.store :=
  {| Mongo.collections :=
       fun name =>
         if String.eqb name "menu"
         then [[("_id", VObjectId (Mongo.new_oid 0));
                ("item_id", VStr "m-1")]]
         else [];
     Mongo.next_oid := 1;
     Mongo.faults := [false; true];
     Mongo.calls := [] |}.

(** The users as [GET /admin/users] shows them. *)
Definition shown_as (user : document) (entry : pyval) : Prop :=
  exists name address,
    dict_lookup "full_name" user = Some (VStr name) /\
    dict_lookup "email" user = Some (VStr address) /\
    entry = VDict [("full_name", VStr name); ("email", VStr address)].

(** The values that the store hands back as they were inserted.  A
    document is stored as BSON, and read back from it: a timestamp is cut
    to milliseconds and read back without its zone, a [Binary] of the
    generic subtype is read back as [bytes], a [bytearray] is not encoded,
    an integer must fit 64 bits, an identifier has 12 bytes, text must be
    encodable as UTF-8, and a key holds no NUL; keys with a dot or a
    leading dollar sign are refused by some versions of the store.  The
    other values come back as they went in, the store's limits of size and
    depth aside. *)
Definition bson_key (key : string) : bool :=
  Utf8.valid (bytes_of_str key) &&
  forallb (fun c => negb (Ascii.eqb c Ascii.zero || Ascii.eqb c "."%char))
    (list_ascii_of_string key) &&
  negb (String.prefix "$" key).

Fixpoint bson_exact (v : pyval) : bool :=
  match v with
  | VNone | VBool _ | VFloat _ | VBytes _ => true
  | VStr text => Utf8.valid (bytes_of_str text)
  | VInt z => ((- 2 ^ 63 <=? z) && (z <? 2 ^ 63))%Z
  | VObjectId oid => Nat.eqb (List.length oid) 12
  | VBinary _ | VByteArray _ | VDatetime _ => false
  | VList items => forallb bson_exact items
  | VDict entries =>
      forallb (fun kv => bson_key (fst kv) && bson_exact (snd kv)) entries
  end.

(** What it takes of a store for a failed request to leave no trace.  Seen
    through [data], a lookup and a listing change nothing, however they
    end, and an update or a delete that raises or that counts no document
    changes nothing: each operation is done as a whole or not at all.
    This is a property of the store, which the program relies on and does
    not establish: it has no rollback of its own. *)
Record all_or_nothing {S D : Type} {driver : Driver S} (data : S -> D)
  : Prop :=
  { find_one_reads :
      forall (name : string) (query : document) (s : S),
        data (snd (coll_find_one name query s)) = data s;
    find_to_list_reads :
      forall (name : string) (length : nat) (s : S),
        data (snd (coll_find_to_list name length s)) = data s;
    update_one_whole :
      forall (name : string) (query update : document) (s : S),
        update_ineffective (fst (coll_update_one name query update s)) ->
        data (snd (coll_update_one name query update s)) = data s;
    delete_one_whole :
      forall (name : string) (query : document) (s : S),
        delete_ineffective (fst (coll_delete_one name query s)) ->
        data (snd (coll_delete_one name query s)) = data s }.

(** * Properties *)

(** ** Codecs *)

Module HexFacts.

Import Hex.

Lemma byte_round_trip (b : byte) :
  value (digit (Byte.to_N b / 16)) = Some (Byte.to_N b / 16)%N /\
  value (digit (Byte.to_N b mod 16)) = Some (Byte.to_N b mod 16)%N /\
  Byte.of_N (Byte.to_N b / 16 * 16 + Byte.to_N b mod 16) = Some b.
Proof.
  destruct b; vm_compute; repeat split.
Qed.

(** A rendering can be read back, byte for byte. *)
Lemma unhexlify_hexlify (bs : bytes) : unhexlify (hexlify bs) = Some bs.
Proof.
  induction bs as [|b rest IH]; [reflexivity|].
  destruct (byte_round_trip b) as (Hh & Hl & Hb).
  cbn [hexlify unhexlify].
  rewrite Hh, Hl, IH, Hb. reflexivity.
Qed.

Lemma hexlify_injective (a b : bytes) : hexlify a = hexlify b -> a = b.
Proof.
  intros H.
  assert (E : Some a = Some b)
    by (rewrite <- (unhexlify_hexlify a), <- (unhexlify_hexlify b), H;
        reflexivity).
  now inversion E.
Qed.

Lemma hexlify_length (bs : bytes) :
  String.length (hexlify bs) = 2 * List.length bs.
Proof.
  induction bs as [|b rest IH]; cbn [hexlify String.length List.length];
    [reflexivity | rewrite IH; lia].
Qed.

End HexFacts.

(** ** The renderer *)

Lemma convert_dict (entries : document) :
  convert_objectid_to_str (VDict entries) =
  VDict (map (fun kv => (fst kv, rendered_entry (snd kv))) entries).
Proof.
  cbn [convert_objectid_to_str]. f_equal.
  apply map_ext. intros [key value]. reflexivity.
Qed.

Lemma convert_list (items : list pyval) :
  convert_objectid_to_str (VList items) =
  VList (map convert_objectid_to_str items).
Proof. reflexivity. Qed.

Lemma dict_lookup_map (f : pyval -> pyval) (key : string) (d : document) :
  dict_lookup key (map (fun kv => (fst kv, f (snd kv))) d) =
  option_map f (dict_lookup key d).
Proof.
  induction d as [|[k v] rest IH]; [reflexivity|].
  cbn [map dict_lookup fst snd].
  destruct (String.eqb k key); [reflexivity | exact IH].
Qed.

(** An identifier that is the value of a mapping entry is rendered as its
    hex string, and two identifiers are rendered alike only if they are the
    same. *)
Lemma convert_objectid_entry (key : string) (oid : bytes) (d : document) :
  dict_lookup key d = Some (VObjectId oid) ->
  exists d', convert_objectid_to_str (VDict d) = VDict d' /\
             dict_lookup key d' = Some (VStr (Hex.hexlify oid)).
Proof.
  intros H. eexists. split; [apply convert_dict|].
  rewrite dict_lookup_map, H. reflexivity.
Qed.

Lemma ObjectId_str_injective (a b : bytes) :
  ObjectId_str a = ObjectId_str b -> a = b.
Proof. apply HexFacts.hexlify_injective. Qed.

(** What a mapping entry is rendered as is what the renderer makes of the
    entry's value, unless the value is an identifier. *)
Lemma rendered_entry_convert (v : pyval) :
  (forall oid, v <> VObjectId oid) ->
  rendered_entry v = convert_objectid_to_str v.
Proof.
  intros H. destruct v; try reflexivity. now contradiction (H oid).
Qed.

(** A [bytes] value, wherever it lies in a document, is found at the same
    place of the rendered document as the base64 text of its content. *)
Lemma bytes_rendered_in_place (bs : bytes) (value : pyval) :
  value = VBytes bs \/ value = VBinary bs ->
  forall (path : list step) (stored : pyval),
    value_at path stored = Some value ->
    value_at path (convert_objectid_to_str stored) =
    Some (VStr (Base64.b64encode bs)).
Proof.
  intros Hv path. induction path as [|st rest IH]; intros stored H.
  - cbn [value_at] in H. injection H as ->.
    destruct Hv as [-> | ->]; reflexivity.
  - destruct st as [key|i].
    + destruct stored; try discriminate H. cbn [value_at] in H.
      destruct (dict_lookup key entries) as [inner|] eqn:L; [|discriminate].
      rewrite convert_dict. cbn [value_at]. rewrite dict_lookup_map, L.
      cbn [option_map]. rewrite rendered_entry_convert; [now apply IH|].
      intros oid ->. destruct rest as [|[k|j] rest]; cbn [value_at] in H.
      * injection H as <-. destruct Hv; discriminate.
      * discriminate.
      * discriminate.
    + destruct stored; try discriminate H. cbn [value_at] in H.
      destruct (nth_error items i) as [inner|] eqn:L; [|discriminate].
      rewrite convert_list. cbn [value_at]. rewrite nth_error_map, L.
      cbn [option_map]. now apply IH.
Qed.

(** C1, as the code has it: every [bytes] value ([bytes] or [Binary]),
    whether its content is valid UTF-8 or not, is rendered as the base64
    text of its content, no decoding being attempted on it: by the scalar
    renderer, as the value of a document field, as an element of a
    sequence, and at any depth of a stored document.  The decoded text is
    returned only for a value that is not a [bytes] instance and offers
    [decode], when its content is valid UTF-8; when it is not, that value
    is returned as it is. *)
Theorem handle_non_utf8_decodable_bytes (bs : bytes) (value : pyval) :
  value = VBytes bs \/ value = VBinary bs ->
  handle_non_utf8 value = VStr (Base64.b64encode bs) /\
  convert_objectid_to_str value = VStr (Base64.b64encode bs) /\
  (forall (doc : document) (key : string),
      dict_lookup key doc = Some value ->
      exists doc', convert_objectid_to_str (VDict doc) = VDict doc' /\
                   dict_lookup key doc' = Some (VStr (Base64.b64encode bs))) /\
  (forall (items : list pyval) (i : nat),
      nth_error items i = Some value ->
      exists items', convert_objectid_to_str (VList items) = VList items' /\
                     nth_error items' i = Some (VStr (Base64.b64encode bs))) /\
  (forall (path : list step) (stored : pyval),
      value_at path stored = Some value ->
      value_at path (convert_objectid_to_str stored) =
      Some (VStr (Base64.b64encode bs))) /\
  (forall text : string,
      Utf8.decode bs = Some text ->
      handle_non_utf8 (VByteArray bs) = VStr text) /\
  (Utf8.decode bs = None ->
   handle_non_utf8 (VByteArray bs) = VByteArray bs).
Proof.
  intros Hv.
  split; [destruct Hv as [-> | ->]; reflexivity|].
  split; [destruct Hv as [-> | ->]; reflexivity|].
  split; [|split; [|split; [|split]]].
  - intros doc key H. eexists. split; [apply convert_dict|].
    rewrite dict_lookup_map, H. destruct Hv as [-> | ->]; reflexivity.
  - intros items i H. eexists. split; [apply convert_list|].
    rewrite nth_error_map, H. destruct Hv as [-> | ->]; reflexivity.
  - exact (bytes_rendered_in_place bs value Hv).
  - intros text H. cbn [handle_non_utf8]. rewrite H. reflexivity.
  - intros H. cbn [handle_non_utf8]. rewrite H. reflexivity.
Qed.

Lemma handle_non_utf8_decodable_bytes_witness :
  Utf8.decode (bytes_of_str "abc") = Some "abc" /\
  handle_non_utf8 (VBytes (bytes_of_str "abc")) = VStr "YWJj" /\
  value_at [Key "items"; Index 0; Key "image"]
    (convert_objectid_to_str
       (VDict [("items",
                VList [VDict [("image", VBytes (bytes_of_str "abc"))]])])) =
    Some (VStr "YWJj") /\
  handle_non_utf8 (VByteArray (bytes_of_str "abc")) = VStr "abc".
Proof.
  destruct (handle_non_utf8_decodable_bytes
              (bytes_of_str "abc") (VBytes (bytes_of_str "abc"))
              (or_introl eq_refl))
    as (H1 & _ & _ & _ & H5 & H6 & _).
  split; [reflexivity|]. split; [exact H1|].
  split; [|exact (H6 "abc" eq_refl)].
  exact (H5 [Key "items"; Index 0; Key "image"]
           (VDict [("items",
                    VList [VDict [("image", VBytes (bytes_of_str "abc"))]])])
           eq_refl).
Defined.

(** C1 as stated fails: the bytes of ["abc"] decode as UTF-8, and the
    renderer returns ["YWJj"], not the decoded text. *)
Lemma handle_non_utf8_decoded_text_counterexample :
  ~ (forall (bs : bytes) (text : string),
        Utf8.decode bs = Some text ->
        handle_non_utf8 (VBytes bs) = VStr text).
Proof.
  intros H.
  specialize (H (bytes_of_str "abc") "abc" eq_refl).
  vm_compute in H. discriminate H.
Qed.

(** C2: a [bytes] value that is not valid UTF-8 is rendered as the base64
    text of its content, alone, as the value of a document field and as an
    element of a sequence; and the rendering depends on the bytes only, so
    that equal byte sequences are rendered alike. *)
Theorem render_invalid_utf8_is_base64 (bs : bytes) :
  Utf8.valid bs = false ->
  handle_non_utf8 (VBytes bs) = VStr (Base64.b64encode bs) /\
  (forall (doc : document) (key : string),
      dict_lookup key doc = Some (VBytes bs) ->
      exists doc', convert_objectid_to_str (VDict doc) = VDict doc' /\
                   dict_lookup key doc' = Some (VStr (Base64.b64encode bs))) /\
  convert_objectid_to_str (VList [VBytes bs]) =
    VList [VStr (Base64.b64encode bs)] /\
  (forall bs' : bytes,
      bs' = bs ->
      handle_non_utf8 (VBytes bs') = handle_non_utf8 (VBytes bs)).
Proof.
  intros _. split; [reflexivity|]. split; [|split].
  - intros doc key H. eexists. split; [apply convert_dict|].
    rewrite dict_lookup_map, H. reflexivity.
  - reflexivity.
  - intros bs' ->. reflexivity.
Qed.

Lemma render_invalid_utf8_is_base64_witness :
  Utf8.valid [xff; xfe]%byte = false /\
  handle_non_utf8 (VBytes [xff; xfe]%byte) = VStr "//4=".
Proof.
  split; [reflexivity|].
  exact (proj1 (render_invalid_utf8_is_base64 [xff; xfe]%byte eq_refl)).
Defined.

(** C3: an identifier that is an element of a sequence is not rendered: the
    sequence branch hands each element to the function itself, whose scalar
    branch knows nothing of identifiers and returns them as they are.  So a
    document with a sequence of identifiers comes back with the identifiers
    in it, where the claim has their hex strings. *)
Theorem convert_objectid_to_str_sequence_elements (oids : list bytes) :
  convert_objectid_to_str (VList (map VObjectId oids)) =
    VList (map VObjectId oids) /\
  (forall key : string,
      convert_objectid_to_str (VDict [(key, VList (map VObjectId oids))]) =
      VDict [(key, VList (map VObjectId oids))]) /\
  (forall oid : bytes,
      convert_objectid_to_str (VObjectId oid) = VObjectId oid).
Proof.
  assert (E : convert_objectid_to_str (VList (map VObjectId oids)) =
              VList (map VObjectId oids)).
  { rewrite convert_list, map_map. f_equal. }
  split; [exact E|]. split; [|reflexivity].
  intros key. rewrite convert_dict. cbn [map fst snd rendered_entry].
  rewrite E. reflexivity.
Qed.

(** ** Validation of request bodies *)

Section Validation.

Lemma validate_fields_keys (fs : list field) (payload : document)
    (m : instance) :
  validate_fields fs payload = Ok m ->
  dict_keys (values m) = map fname fs.
Proof.
  revert m. induction fs as [|f rest IH]; intros m H; cbn in H.
  - injection H as <-. reflexivity.
  - destruct (dict_lookup (fname f) payload) as [v|].
    + destruct (has_type (fannot f) v); [|discriminate].
      destruct (validate_fields rest payload) as [m'|]; [|discriminate].
      injection H as <-. cbn. f_equal. now apply IH.
    + destruct (fdefault f) as [d|]; [|discriminate].
      destruct (validate_fields rest payload) as [m'|]; [|discriminate].
      injection H as <-. cbn. f_equal. now apply IH.
Qed.

(** A body that lacks a field without a default never validates. *)
Lemma validate_fields_missing (fs : list field) (payload : document)
    (f : field) :
  In f fs -> fdefault f = None -> dict_lookup (fname f) payload = None ->
  exists loc, validate_fields fs payload = Raise (RequestValidationError loc).
Proof.
  intros Hin Hreq Hmiss. induction fs as [|g rest IH]; [destruct Hin|].
  cbn. destruct Hin as [-> | Hin].
  - rewrite Hmiss, Hreq. eauto.
  - destruct (IH Hin) as [loc E]. rewrite E.
    destruct (dict_lookup (fname g) payload) as [v|].
    + destruct (has_type (fannot g) v); eauto.
    + destruct (fdefault g); eauto.
Qed.

Lemma dict_lookup_absent (key : string) (d : document) :
  ~ In key (dict_keys d) -> dict_lookup key d = None.
Proof.
  induction d as [|[k v] rest IH]; intros H; [reflexivity|].
  cbn in *. destruct (String.eqb_spec k key) as [->|_].
  - exfalso. apply H. now left.
  - apply IH. intros Hin. apply H. now right.
Qed.

(** The first field of a class, when it has no default, is set in every
    instance that validates, so that the update it yields is not empty. *)
Lemma validated_update_not_empty (f : field) (rest : list field)
    (payload : document) (m : instance) :
  fdefault f = None ->
  validate_fields (f :: rest) payload = Ok m ->
  model_dict_exclude_unset m <> [].
Proof.
  intros Hreq H. cbn in H. rewrite Hreq in H.
  destruct (dict_lookup (fname f) payload) as [v|]; [|discriminate].
  destruct (has_type (fannot f) v); [|discriminate].
  destruct (validate_fields rest payload) as [m'|]; [|discriminate].
  injection H as <-. unfold model_dict_exclude_unset. cbn.
  rewrite String.eqb_refl. cbn. discriminate.
Qed.

End Validation.

Section UpdateHandler.

Context {S : Type} {driver : Driver S}.

(** The guard of the update handler: an instance with no field set is
    refused before any call to the store. *)
Lemma update_branch_no_data (branch_id : Z) (m : instance) (s : S) :
  model_dict_exclude_unset m = [] ->
  update_branch branch_id m s =
  (Raise (HTTPException 400 "No data provided to update"), s).
Proof.
  intros H. unfold update_branch. rewrite H. reflexivity.
Qed.

(** What the handler forwards is made of fields that were set. *)
Lemma update_data_set_fields (m : instance) (key : string) (v : pyval) :
  In (key, v) (model_dict_exclude_unset m) ->
  In key (fields_set m) /\ In (key, v) (values m).
Proof.
  unfold model_dict_exclude_unset. rewrite filter_In.
  intros [Hin Hset]. split; [|exact Hin].
  apply existsb_exists in Hset. destruct Hset as (x & Hx & E).
  apply String.eqb_eq in E. cbn in E. now subst x.
Qed.

(** The guard cannot fire on a request: a body that validates against
    [Branch] has set [branch_id]. *)
Lemma put_branch_guard_unreachable (body : document) (m : instance) :
  model_validate Branch body = Ok m ->
  model_dict_exclude_unset m <> [].
Proof.
  unfold model_validate. cbn [Branch before_validator after_validator fields].
  unfold no_before, no_after.
  destruct (validate_fields _ body) as [m0|] eqn:E; [|discriminate].
  intros H. injection H as <-.
  eapply validated_update_not_empty; [|exact E]. reflexivity.
Qed.

(** C4: a body that carries only some of the fields is not taken as a
    partial update.  The handler's parameter is the full [Branch] model,
    so a body lacking any field without a default is answered with a
    validation error by the framework; the handler is not called and
    nothing is forwarded to the store. *)
Theorem put_branch_partial_body_rejected
    (branch_id : Z) (body : document) (f : field) (s : S) :
  In f (fields Branch) -> fdefault f = None ->
  dict_lookup (fname f) body = None ->
  exists loc,
    put_branch branch_id body s = (Raise (RequestValidationError loc), s).
Proof.
  intros Hin Hreq Hmiss.
  destruct (validate_fields_missing (fields Branch) body f Hin Hreq Hmiss)
    as [loc E].
  exists loc. unfold put_branch, with_body, model_validate.
  cbn [Branch before_validator after_validator fields] in *.
  unfold no_before. rewrite E. reflexivity.
Qed.

End UpdateHandler.

Lemma put_branch_partial_body_rejected_witness :
  exists loc,
    put_branch 7 [("branch_name", VStr "Downtown")] Mongo.empty =
    (Raise (RequestValidationError loc), Mongo.empty).
Proof.
  apply (put_branch_partial_body_rejected 7
           [("branch_name", VStr "Downtown")] (required "branch_id" TInt)).
  - cbn. left. reflexivity.
  - reflexivity.
  - reflexivity.
Defined.

(** The same request, evaluated. *)
Example put_branch_name_only :
  put_branch 7 [("branch_name", VStr "Downtown")] Mongo.empty =
  (Raise (RequestValidationError "branch_id"), Mongo.empty).
Proof. reflexivity. Qed.

(** ** The write path of [Order] *)

(** The validators, taken as the functions on mappings they are written
    as: base64 text under a reference field is decoded to bytes, bytes are
    encoded by the first validator and decoded back by the second, and no
    other field is touched. *)
Lemma convert_base64_field_decodes (key text : string) (bs : bytes)
    (m : instance) :
  dict_lookup key (values m) = Some (VStr text) ->
  Base64.b64decode text = Some bs ->
  exists m', convert_base64_field key m = Ok m' /\
             dict_lookup key (values m') = Some (VBinary bs).
Proof.
  intros Hk Hd. unfold convert_base64_field. rewrite Hk, Hd.
  eexists. split; [reflexivity|]. cbn [values].
  clear Hd. induction (values m) as [|[k v] rest IH]; [discriminate|].
  cbn in *. destruct (String.eqb k key) eqn:E.
  - cbn. rewrite E. reflexivity.
  - cbn. rewrite E. now apply IH.
Qed.

Example decode_reference_text :
  Base64.b64decode "AQID" = Some [x01; x02; x03]%byte.
Proof. reflexivity. Qed.

Lemma convert_base64_field_absent (key : string) (m : instance) :
  dict_lookup key (values m) = None -> convert_base64_field key m = Ok m.
Proof. intros H. unfold convert_base64_field. now rewrite H. Qed.

(** An instance of [Order] has the nine declared fields and no other. *)
Lemma Order_instance_keys (body : document) (m : instance) :
  model_validate Order body = Ok m ->
  dict_keys (model_dict m) = map fname (fields Order).
Proof.
  unfold model_validate.
  destruct (validate_fields _ _) as [m0|] eqn:E; [|discriminate].
  apply validate_fields_keys in E.
  cbn [Order after_validator]. unfold convert_base64_to_binary.
  assert (R : dict_lookup "restaurants_id" (values m0) = None)
    by (apply dict_lookup_absent; rewrite E; cbn;
        intuition discriminate).
  assert (A : dict_lookup "address_id" (values m0) = None)
    by (apply dict_lookup_absent; rewrite E; cbn;
        intuition discriminate).
  rewrite (convert_base64_field_absent _ _ R).
  rewrite (convert_base64_field_absent _ _ A).
  intros H. injection H as <-. exact E.
Qed.

(** C8: a reference field of the body does not reach the stored document at
    all, neither as bytes nor as text.  [Order] declares no such field, so
    the instance the validators and the handler work on does not hold it,
    and the document that is inserted is the instance's nine fields. *)
Theorem create_order_reference_fields_not_stored
    (body : document) (m : instance) (s : Mongo.store) :
  model_validate Order body = Ok m ->
  Mongo.healthy s ->
  exists (id : pyval) (s' : Mongo.store),
    post_create_order body s =
      (Ok (VDict [("message", VStr "Order created successfully");
                  ("order_id", getattr m "order_id")]), s') /\
    Mongo.collections s' "orders" =
      Mongo.collections s "orders" ++ [("_id", id) :: model_dict m] /\
    dict_lookup "restaurants_id" (("_id", id) :: model_dict m) = None /\
    dict_lookup "address_id" (("_id", id) :: model_dict m) = None.
Proof.
  intros Hv Hs.
  pose proof (Order_instance_keys body m Hv) as K.
  assert (I : dict_lookup "_id" (model_dict m) = None)
    by (apply dict_lookup_absent; rewrite K; cbn; intuition discriminate).
  assert (R : dict_lookup "restaurants_id" (model_dict m) = None)
    by (apply dict_lookup_absent; rewrite K; cbn; intuition discriminate).
  assert (A : dict_lookup "address_id" (model_dict m) = None)
    by (apply dict_lookup_absent; rewrite K; cbn; intuition discriminate).
  unfold post_create_order, with_body. rewrite Hv.
  unfold create_order, bind, Database_insert_one.
  cbn [coll_insert_one Mongo.driver]. unfold Mongo.insert_one, Mongo.enter.
  rewrite Hs. cbn [hd tl Mongo.collections Mongo.next_oid Mongo.faults].
  rewrite I. cbn [acknowledged].
  eexists. eexists. split; [reflexivity|].
  cbn [Mongo.collections]. unfold Mongo.set_collection.
  rewrite String.eqb_refl.
  split; [reflexivity|]. split; cbn [dict_lookup]; assumption.
Qed.

Lemma create_order_reference_fields_not_stored_witness :
  exists (id : pyval) (s' : Mongo.store),
    post_create_order order_body Mongo.empty =
      (Ok (VDict [("message", VStr "Order created successfully");
                  ("order_id", VStr "o-1")]), s') /\
    Mongo.collections s' "orders" =
      [("_id", id) :: firstn 9 order_body] /\
    dict_lookup "restaurants_id" (("_id", id) :: firstn 9 order_body) = None /\
    dict_lookup "address_id" (("_id", id) :: firstn 9 order_body) = None.
Proof.
  exact (create_order_reference_fields_not_stored order_body
           {| values := firstn 9 order_body;
              fields_set := map fst (firstn 9 order_body) |}
           Mongo.empty eq_refl eq_refl).
Defined.

(** ** Equality of values *)

Lemma bytes_eqb_refl (bs : bytes) : bytes_eqb bs bs = true.
Proof.
  induction bs as [|b rest IH]; [reflexivity|].
  cbn. rewrite IH, (Byte.byte_dec_lb (eq_refl b)). reflexivity.
Qed.

Lemma pyval_eqb_refl : forall v : pyval, pyval_eqb v v = true.
Proof.
  fix pyval_eqb_refl 1. intros v.
  destruct v as [ | b | z | bits | s | bs | bs | bs | oid | t | items | entries ];
    cbn [pyval_eqb].
  - reflexivity.
  - apply Bool.eqb_reflx.
  - apply Z.eqb_refl.
  - apply N.eqb_refl.
  - apply String.eqb_refl.
  - apply bytes_eqb_refl.
  - apply bytes_eqb_refl.
  - apply bytes_eqb_refl.
  - apply bytes_eqb_refl.
  - apply Z.eqb_refl.
  - revert items. fix IH 1. intros [|x xs]; [reflexivity|].
    rewrite (pyval_eqb_refl x), (IH xs). reflexivity.
  - revert entries. fix IH 1. intros [|[k x] xs]; [reflexivity|].
    rewrite String.eqb_refl, (pyval_eqb_refl x), (IH xs). reflexivity.
Qed.

(** ** Inserts *)

Section Inserts.

Import Mongo.

Lemma count_matching_app (query : document) (a b : list document) :
  count_matching query (a ++ b) =
  count_matching query a + count_matching query b.
Proof.
  unfold count_matching. rewrite filter_app, length_app. reflexivity.
Qed.

Lemma matches_natural_key (key : string) (v id : pyval) (doc : document) :
  key <> "_id" -> dict_lookup key doc = Some v ->
  matches [(key, v)] (("_id", id) :: doc) = true.
Proof.
  intros Hk Hv. unfold matches. cbn [forallb fst snd dict_lookup].
  destruct (String.eqb_spec "_id" key) as [E|_]; [now subst key|].
  rewrite Hv, pyval_eqb_refl. reflexivity.
Qed.

(** On a store without scheduled failure, a document without [_id] is
    inserted whatever the collection holds. *)
Lemma insert_one_fresh (name : string) (doc : document) (s : store) :
  healthy s -> dict_lookup "_id" doc = None ->
  exists s',
    Database_insert_one name doc s =
      (Ok {| acknowledged := true;
             inserted_id := VObjectId (new_oid (next_oid s)) |}, s') /\
    collections s' name =
      collections s name ++
        [("_id", VObjectId (new_oid (next_oid s))) :: doc] /\
    (forall other, other <> name -> collections s' other = collections s other) /\
    next_oid s' = (next_oid s + 1)%N /\
    healthy s' /\
    calls s' = calls s ++ [InsertOne name doc].
Proof.
  intros Hs Hid. unfold Database_insert_one.
  cbn [coll_insert_one driver]. unfold insert_one, enter.
  rewrite Hs. cbn [hd tl collections next_oid faults calls]. rewrite Hid.
  eexists. split; [reflexivity|].
  cbn [collections next_oid faults calls]. unfold set_collection.
  rewrite String.eqb_refl. repeat split.
  intros other Ho. destruct (String.eqb_spec other name); congruence.
Qed.

(** C5: two inserts that carry the same natural key both succeed, in
    every collection: each is acknowledged, the collection afterwards
    holds both documents after what it held before, two more documents
    match the key, and the driver saw the two inserts and no other call,
    so that nothing was looked up before inserting. *)
Theorem insert_same_natural_key_twice
    (name key : string) (v : pyval) (d1 d2 : document) (s : store) :
  healthy s ->
  key <> "_id" ->
  dict_lookup "_id" d1 = None -> dict_lookup "_id" d2 = None ->
  dict_lookup key d1 = Some v -> dict_lookup key d2 = Some v ->
  exists (r1 r2 : InsertOneResult) (s1 s2 : store),
    Database_insert_one name d1 s = (Ok r1, s1) /\
    Database_insert_one name d2 s1 = (Ok r2, s2) /\
    acknowledged r1 = true /\ acknowledged r2 = true /\
    collections s2 name =
      collections s name ++
        [("_id", inserted_id r1) :: d1; ("_id", inserted_id r2) :: d2] /\
    count_matching [(key, v)] (collections s2 name) =
      count_matching [(key, v)] (collections s name) + 2 /\
    calls s2 = calls s ++ [InsertOne name d1; InsertOne name d2].
Proof.
  intros Hs Hk H1 H2 K1 K2.
  destruct (insert_one_fresh name d1 s Hs H1)
    as (s1 & E1 & C1 & _ & _ & Hs1 & L1).
  destruct (insert_one_fresh name d2 s1 Hs1 H2)
    as (s2 & E2 & C2 & _ & _ & _ & L2).
  do 4 eexists. split; [exact E1|]. split; [exact E2|].
  cbn [acknowledged inserted_id]. split; [reflexivity|].
  split; [reflexivity|].
  assert (C : collections s2 name =
              collections s name ++
                [("_id", VObjectId (new_oid (next_oid s))) :: d1;
                 ("_id", VObjectId (new_oid (next_oid s1))) :: d2]).
  { rewrite C2, C1, <- app_assoc. reflexivity. }
  split; [exact C|]. split.
  - rewrite C, count_matching_app. f_equal.
    unfold count_matching. cbn [filter].
    rewrite (matches_natural_key key v _ d1 Hk K1).
    rewrite (matches_natural_key key v _ d2 Hk K2). reflexivity.
  - rewrite L2, L1, <- app_assoc. reflexivity.
Qed.

End Inserts.

Lemma insert_same_natural_key_twice_witness :
  exists (r1 r2 : InsertOneResult) (s1 s2 : Mongo.store),
    Database_insert_one "Branch" (firstn 3 branch_body) Mongo.empty =
      (Ok r1, s1) /\
    Database_insert_one "Branch" (firstn 2 branch_body) s1 = (Ok r2, s2) /\
    acknowledged r1 = true /\ acknowledged r2 = true /\
    Mongo.collections s2 "Branch" =
      [] ++ [("_id", inserted_id r1) :: firstn 3 branch_body;
             ("_id", inserted_id r2) :: firstn 2 branch_body] /\
    Mongo.count_matching [("branch_id", VInt 1)] (Mongo.collections s2 "Branch") =
      0 + 2 /\
    Mongo.calls s2 =
      [] ++ [Mongo.InsertOne "Branch" (firstn 3 branch_body);
             Mongo.InsertOne "Branch" (firstn 2 branch_body)].
Proof.
  apply (insert_same_natural_key_twice "Branch" "branch_id" (VInt 1)
           (firstn 3 branch_body) (firstn 2 branch_body) Mongo.empty).
  - reflexivity.
  - discriminate.
  - reflexivity.
  - reflexivity.
  - reflexivity.
  - reflexivity.
Defined.


(** The same through the endpoint: [POST /create-branch/] twice with one
    body leaves two documents with that [branch_id]. *)
Example create_branch_twice :
  let s1 := snd (with_body Branch branch_body (create_branch 10) Mongo.empty) in
  let r2 := with_body Branch branch_body (create_branch 11) s1 in
  fst r2 =
    Ok (VDict [("message", VStr "Branch created successfully");
               ("branch_id", VInt 1)]) /\
  Mongo.count_matching [("branch_id", VInt 1)]
    (Mongo.collections (snd r2) "Branch") = 2.
Proof. split; reflexivity. Qed.

(** ** The shape of the endpoints *)

Section Shapes.

Context {S : Type} {driver : Driver S}.

(** The five list endpoints are one program, up to the collection. *)
Lemma list_route_shape (name : string) (ep : M S pyval) :
  In (name, ep) list_routes ->
  ep = bind (db_find_to_list name 200)
         (fun docs => ret (convert_objectid_to_str (VList (map VDict docs)))).
Proof.
  unfold list_routes. cbn [In].
  intros [E|[E|[E|[E|[E|[]]]]]]; injection E as <- <-; reflexivity.
Qed.

(** So are the five delete endpoints, up to the collection, the query and
    the texts. *)
Lemma delete_route_shape (n : Z) (k : string) (r : delete_route) :
  In r (delete_routes n k) ->
  exists message : string,
    d_handler r =
    bind (Database_find_one (d_collection r) (d_query r))
      (fun found =>
         if negb (truthy found) then raise (d_not_found r)
         else
           bind (Database_delete_one (d_collection r) (d_query r))
             (fun result =>
                if truthy result &&
                   py_gt (result_get result "deleted_count") 0
                then ret (VDict [("message", VStr message)])
                else raise (d_failed r))).
Proof.
  unfold delete_routes. cbn [In].
  intros [E|[E|[E|[E|[E|[]]]]]]; subst r; eexists; reflexivity.
Qed.

(** And the five update endpoints. *)
Lemma update_route_shape (n : Z) (k : string) (r : update_route) :
  In r (update_routes n k) ->
  exists message : string,
    forall m : instance,
      u_handler r m =
      if negb (truthy (VDict (model_dict_exclude_unset m)))
      then raise (HTTPException 400 "No data provided to update")
      else
        bind (Database_update_one (u_collection r) (u_query r)
                (model_dict_exclude_unset m))
          (fun result =>
             if truthy result &&
                py_gt (result_get result "modified_count") 0
             then ret (VDict [("message", VStr message)])
             else raise (u_failed r)).
Proof.
  unfold update_routes. cbn [In].
  intros [E|[E|[E|[E|[E|[]]]]]]; subst r; eexists; intros m; reflexivity.
Qed.

Lemma delete_route_not_found (n : Z) (k : string) (r : delete_route) :
  In r (delete_routes n k) ->
  exists (status : nat) (label : string),
    d_not_found r = HTTPException status (label ++ " not found") /\
    (status = 400 \/ status = 404).
Proof.
  unfold delete_routes. cbn [In].
  intros [E|[E|[E|[E|[E|[]]]]]]; subst r; cbn [d_not_found].
  - exists 400, "Branch". split; [reflexivity | now left].
  - exists 400, "User". split; [reflexivity | now left].
  - exists 404, "Menu item". split; [reflexivity | now right].
  - exists 404, "Order". split; [reflexivity | now right].
  - exists 400, "restaurants". split; [reflexivity | now left].
Qed.

End Shapes.

(** ** Listing and deleting on the store *)

Section OnTheStore.

Import Mongo.

Lemma convert_documents_length (docs : list document) :
  exists items,
    convert_objectid_to_str (VList (map VDict docs)) = VList items /\
    List.length items = List.length docs.
Proof.
  eexists. split; [apply convert_list|].
  now rewrite !length_map.
Qed.

(** C6: every list endpoint returns at most 200 documents, namely the
    first 200 of its collection or all of them when there are fewer; on a
    collection of 250 documents it returns exactly 200. *)
Theorem list_all_capped (name : string) (ep : M store pyval) (s : store) :
  In (name, ep) list_routes ->
  (forall (body : pyval) (s' : store),
      ep s = (Ok body, s') ->
      exists items,
        body = VList items /\
        List.length items <= 200 /\
        List.length items = Nat.min 200 (List.length (collections s name))) /\
  (healthy s ->
   List.length (collections s name) = 250 ->
   exists items s',
     ep s = (Ok (VList items), s') /\ List.length items = 200).
Proof.
  intros Hin. rewrite (list_route_shape name ep Hin).
  unfold bind, db_find_to_list, ret. cbn [coll_find_to_list driver].
  unfold Mongo.find_to_list, enter.
  destruct (convert_documents_length (firstn 200 (collections s name)))
    as (items & E & L).
  rewrite length_firstn in L.
  split.
  - intros body s'. destruct (hd false (faults s)).
    + intros H. discriminate H.
    + cbn [collections]. rewrite E. intros H. injection H as <- _.
      exists items. split; [reflexivity|]. split; [lia | exact L].
  - intros Hs H250. rewrite Hs. cbn [hd collections]. rewrite E.
    do 2 eexists. split; [reflexivity|]. lia.
Qed.

(** C7: a delete request whose key matches no document is answered with
    the endpoint's not-found error (status 400 or 404, by entity).  The
    store holds what it held, and the only call the driver saw is the
    lookup: the delete was not issued, so no count was reported. *)
Theorem delete_absent_key_not_found
    (n : Z) (k : string) (r : delete_route) (s : store) :
  In r (delete_routes n k) ->
  find (matches (d_query r)) (collections s (d_collection r)) = None ->
  exists s',
    d_handler r s = (Raise (d_not_found r), s') /\
    collections s' = collections s /\
    calls s' = calls s ++ [FindOne (d_collection r) (d_query r)] /\
    exists (status : nat) (label : string),
      d_not_found r = HTTPException status (label ++ " not found") /\
      (status = 400 \/ status = 404).
Proof.
  intros Hin Habs.
  destruct (delete_route_shape n k r Hin) as [message E].
  rewrite E. unfold bind at 1. unfold Database_find_one.
  cbn [coll_find_one driver]. unfold Mongo.find_one, enter.
  eexists. split; [|split; [|split]].
  - destruct (hd false (faults s)); cbn [collections].
    + reflexivity.
    + rewrite Habs. reflexivity.
  - reflexivity.
  - reflexivity.
  - exact (delete_route_not_found n k r Hin).
Qed.

End OnTheStore.

Lemma list_all_capped_witness :
  exists items s',
    get_all_branches crowded = (Ok (VList items), s') /\
    List.length items = 200.
Proof.
  apply (list_all_capped "Branch" get_all_branches crowded).
  - cbn. left. reflexivity.
  - reflexivity.
  - reflexivity.
Defined.

Lemma delete_absent_key_not_found_witness :
  exists s',
    delete_branch 1 Mongo.empty =
      (Raise (HTTPException 400 "Branch not found"), s') /\
    Mongo.collections s' = Mongo.collections Mongo.empty /\
    Mongo.calls s' = [] ++ [Mongo.FindOne "Branch" [("branch_id", VInt 1)]] /\
    exists (status : nat) (label : string),
      HTTPException 400 "Branch not found" =
        HTTPException status (label ++ " not found") /\
      (status = 400 \/ status = 404).
Proof.
  apply (delete_absent_key_not_found 1 "m-1"
           {| d_collection := "Branch";
              d_query := [("branch_id", VInt 1)];
              d_not_found := HTTPException 400 "Branch not found";
              d_failed := HTTPException 400 "Failed to delete branch";
              d_handler := delete_branch 1 |} Mongo.empty).
  - cbn. left. reflexivity.
  - reflexivity.
Defined.


(** ** Storage faults *)

Section Faults.

Context {S : Type} {driver : Driver S}.

(** C9: a failure of the driver in [find_one] is caught by the adapter and
    comes back as [None], the very value a lookup that finds nothing comes
    back as, and the read endpoint answers both with its not-found error;
    a failure in [insert_one] is raised to the caller as status 500
    "Internal Server Error", and the create endpoint lets it through.
    Each of the six statements stands on the one call it is about. *)
Theorem storage_fault_asymmetry
    (name : string) (query doc : document) (n : Z) (user : instance)
    (s : S) :
  (forall (what : string) (s' : S),
      coll_find_one name query s = (Raised what, s') ->
      Database_find_one name query s = (Ok VNone, s')) /\
  (forall s' : S,
      coll_find_one name query s = (Returned None, s') ->
      Database_find_one name query s = (Ok VNone, s')) /\
  (forall (what : string) (s' : S),
      coll_insert_one name doc s = (Raised what, s') ->
      Database_insert_one name doc s =
        (Raise (HTTPException 500 "Internal Server Error"), s')) /\
  (forall (what : string) (s' : S),
      coll_find_one "Branch" [("branch_id", VInt n)] s = (Raised what, s') ->
      get_branch n s = (Raise (HTTPException 404 "Branch not found"), s')) /\
  (forall s' : S,
      coll_find_one "Branch" [("branch_id", VInt n)] s = (Returned None, s') ->
      get_branch n s = (Raise (HTTPException 404 "Branch not found"), s')) /\
  (forall (what : string) (s' : S),
      coll_insert_one "userData" (model_dict user) s = (Raised what, s') ->
      create_user user s =
        (Raise (HTTPException 500 "Internal Server Error"), s')).
Proof.
  unfold get_branch, create_user, bind, Database_find_one,
    Database_insert_one.
  repeat split; intros; match goal with H : _ = _ |- _ => rewrite H end;
    reflexivity.
Qed.

Lemma update_route_status (n : Z) (k : string) (r : update_route) :
  In r (update_routes n k) ->
  status_of (u_failed r) = 400 \/ status_of (u_failed r) = 404.
Proof.
  unfold update_routes. cbn [In].
  intros [E|[E|[E|[E|[E|[]]]]]]; subst r; cbn; auto.
Qed.

Lemma delete_route_status (n : Z) (k : string) (r : delete_route) :
  In r (delete_routes n k) -> status_of (d_failed r) = 400.
Proof.
  unfold delete_routes. cbn [In].
  intros [E|[E|[E|[E|[E|[]]]]]]; subst r; reflexivity.
Qed.

(** What the adapter hands back for an update or a delete that changed
    nothing does not pass the endpoint's test, be it the empty mapping of
    a failure or a count of zero. *)
Lemma ineffective_update_result (query update : document) (name : string)
    (s s' : S) (o : outcome UpdateResult) :
  coll_update_one name query update s = (o, s') ->
  update_ineffective o ->
  exists result,
    Database_update_one name query update s = (Ok result, s') /\
    truthy result && py_gt (result_get result "modified_count") 0 = false.
Proof.
  intros E H. unfold Database_update_one. rewrite E.
  destruct o as [r|what]; cbn in H; eexists; (split; [reflexivity|]).
  - cbn. apply Z.ltb_ge. exact H.
  - reflexivity.
Qed.

Lemma ineffective_delete_result (query : document) (name : string)
    (s s' : S) (o : outcome DeleteResult) :
  coll_delete_one name query s = (o, s') ->
  delete_ineffective o ->
  exists result,
    Database_delete_one name query s = (Ok result, s') /\
    truthy result && py_gt (result_get result "deleted_count") 0 = false.
Proof.
  intros E H. unfold Database_delete_one. rewrite E.
  destruct o as [r|what]; cbn in H; eexists; (split; [reflexivity|]).
  - cbn. apply Z.ltb_ge. exact H.
  - reflexivity.
Qed.

(** An update that came back without having changed anything ends in the
    endpoint's own failure, of status 400 or 404. *)
Lemma ineffective_update_fails
    (n : Z) (k : string) (r : update_route) (m : instance) (s s' : S)
    (o : outcome UpdateResult) :
  In r (update_routes n k) ->
  model_dict_exclude_unset m <> [] ->
  coll_update_one (u_collection r) (u_query r)
    (model_dict_exclude_unset m) s = (o, s') ->
  update_ineffective o ->
  u_handler r m s = (Raise (u_failed r), s') /\
  (status_of (u_failed r) = 400 \/ status_of (u_failed r) = 404).
Proof.
  intros Hin Hne E Ho.
  split; [|exact (update_route_status n k r Hin)].
  destruct (update_route_shape n k r Hin) as [message Sh]. rewrite Sh.
  destruct (model_dict_exclude_unset m) as [|kv rest] eqn:D;
    [contradiction|].
  cbn [truthy negb].
  destruct (ineffective_update_result _ _ _ _ _ _ E Ho) as (res & Er & T).
  unfold bind. rewrite Er, T. reflexivity.
Qed.

(** A delete that came back without having removed anything, after the
    lookup found the document, ends in the endpoint's failure of status
    400. *)
Lemma ineffective_delete_fails
    (n : Z) (k : string) (r : delete_route) (doc : document) (s s1 s2 : S)
    (o : outcome DeleteResult) :
  In r (delete_routes n k) ->
  coll_find_one (d_collection r) (d_query r) s = (Returned (Some doc), s1) ->
  doc <> [] ->
  coll_delete_one (d_collection r) (d_query r) s1 = (o, s2) ->
  delete_ineffective o ->
  d_handler r s = (Raise (d_failed r), s2) /\
  status_of (d_failed r) = 400.
Proof.
  intros Hin F Hne E Ho.
  split; [|exact (delete_route_status n k r Hin)].
  destruct (delete_route_shape n k r Hin) as [message Sh]. rewrite Sh.
  destruct (ineffective_delete_result _ _ _ _ _ E Ho) as (res & Er & T).
  unfold bind at 1. unfold Database_find_one. rewrite F.
  destruct doc as [|kv rest]; [contradiction|].
  cbn [truthy]. rewrite convert_dict. cbn [map truthy negb].
  unfold bind. rewrite Er, T. reflexivity.
Qed.

(** A delete request whose lookup finds nothing is answered with the
    endpoint's not-found error, and no delete is asked of the driver. *)
Lemma missing_target_not_found
    (n : Z) (k : string) (r : delete_route) (s s1 : S) :
  In r (delete_routes n k) ->
  coll_find_one (d_collection r) (d_query r) s = (Returned None, s1) ->
  d_handler r s = (Raise (d_not_found r), s1).
Proof.
  intros Hin F.
  destruct (delete_route_shape n k r Hin) as [message Sh]. rewrite Sh.
  unfold bind, Database_find_one. rewrite F. reflexivity.
Qed.

(** In no delete endpoint is the not-found error the error of a delete
    that removed nothing. *)
Lemma delete_failures_differ (n : Z) (k : string) (r : delete_route) :
  In r (delete_routes n k) -> d_not_found r <> d_failed r.
Proof.
  unfold delete_routes. cbn [In].
  intros [E|[E|[E|[E|[E|[]]]]]]; subst r; discriminate.
Qed.

End Faults.

Lemma storage_fault_asymmetry_witness :
  Database_find_one "Branch" [("branch_id", VInt 1)] unreachable_store =
    (Ok VNone, snd (Mongo.find_one "Branch" [("branch_id", VInt 1)]
                      unreachable_store)) /\
  Database_find_one "Branch" [("branch_id", VInt 1)] Mongo.empty =
    (Ok VNone, snd (Mongo.find_one "Branch" [("branch_id", VInt 1)]
                      Mongo.empty)) /\
  Database_insert_one "Branch" branch_body unreachable_store =
    (Raise (HTTPException 500 "Internal Server Error"),
     snd (Mongo.insert_one "Branch" branch_body unreachable_store)).
Proof.
  pose proof (storage_fault_asymmetry (driver := Mongo.driver)
                "Branch" [("branch_id", VInt 1)] branch_body 1
                {| values := user_body; fields_set := map fst user_body |})
    as H.
  destruct (H unreachable_store) as (F & _ & I & _).
  destruct (H Mongo.empty) as (_ & N & _).
  split; [|split].
  - exact (F Mongo.unreachable _ eq_refl).
  - exact (N _ eq_refl).
  - exact (I Mongo.unreachable _ eq_refl).
Defined.


(** ** Base64 *)

Module Base64Facts.

Import Base64.

Lemma digit_checks_all :
  forallb base64_digit_checks (map N.of_nat (seq 0 64)) = true.
Proof. vm_compute. reflexivity. Qed.

Lemma digit_facts (n : N) :
  (n < 64)%N ->
  value (digit n) = Some n /\
  Ascii.eqb (digit n) pad = false /\
  (Byte.to_N (byte_of_ascii (digit n)) <? 128)%N = true.
Proof.
  intros H.
  assert (C : base64_digit_checks n = true).
  { apply (proj1 (forallb_forall _ _) digit_checks_all).
    rewrite <- (N2Nat.id n). apply in_map. apply in_seq. lia. }
  unfold base64_digit_checks in C.
  apply andb_prop in C. destruct C as [C A].
  apply andb_prop in C. destruct C as [V P].
  destruct (value (digit n)) as [m|]; [|discriminate].
  apply N.eqb_eq in V. subst m.
  apply negb_true_iff in P. auto.
Qed.

Lemma byte_bound (b : byte) : (Byte.to_N b < 256)%N.
Proof. pose proof (Byte.to_N_bounded b). lia. Qed.

(** The arithmetic of one group: the four digits are below 64 and give the
    three bytes back. *)
Lemma group_arith (x y z : N) :
  (x < 256)%N -> (y < 256)%N -> (z < 256)%N ->
  (x / 4 < 64 /\ (x mod 4) * 16 + y / 16 < 64 /\
   (y mod 16) * 4 + z / 64 < 64 /\ z mod 64 < 64 /\
   x / 4 * 4 + ((x mod 4) * 16 + y / 16) / 16 = x /\
   ((x mod 4) * 16 + y / 16) mod 16 = y / 16 /\
   y / 16 * 16 + ((y mod 16) * 4 + z / 64) / 4 = y /\
   ((y mod 16) * 4 + z / 64) mod 4 = z / 64 /\
   z / 64 * 64 + z mod 64 = z)%N.
Proof.
  intros Hx Hy Hz.
  assert (A : (((x mod 4) * 16 + y / 16) / 16 = x mod 4)%N).
  { rewrite N.div_add_l by lia. rewrite N.div_small; [lia|].
    apply N.Div0.div_lt_upper_bound. lia. }
  assert (B : (((x mod 4) * 16 + y / 16) mod 16 = y / 16)%N).
  { rewrite N.add_comm, N.Div0.mod_add. apply N.mod_small.
    apply N.Div0.div_lt_upper_bound. lia. }
  assert (C : (((y mod 16) * 4 + z / 64) / 4 = y mod 16)%N).
  { rewrite N.div_add_l by lia. rewrite N.div_small; [lia|].
    apply N.Div0.div_lt_upper_bound. lia. }
  assert (D : (((y mod 16) * 4 + z / 64) mod 4 = z / 64)%N).
  { rewrite N.add_comm, N.Div0.mod_add. apply N.mod_small.
    apply N.Div0.div_lt_upper_bound. lia. }
  rewrite A, B, C, D.
  pose proof (N.div_mod x 4). pose proof (N.div_mod y 16).
  pose proof (N.div_mod z 64).
  pose proof (N.mod_upper_bound x 4). pose proof (N.mod_upper_bound y 16).
  pose proof (N.mod_upper_bound z 64).
  assert (x / 4 < 64)%N by (apply N.Div0.div_lt_upper_bound; lia).
  assert (y / 16 < 16)%N by (apply N.Div0.div_lt_upper_bound; lia).
  assert (z / 64 < 4)%N by (apply N.Div0.div_lt_upper_bound; lia).
  repeat split; lia.
Qed.

Lemma emit_byte (b : byte) (bs : bytes) :
  emit (Byte.to_N b) (Some bs) = Some (b :: bs).
Proof. unfold emit. rewrite Byte.of_to_N. reflexivity. Qed.

Ltac digit_step H :=
  destruct (digit_facts _ H) as (?V & ?P & _);
  cbn [a2b_base64];
  match goal with
  | P : Ascii.eqb _ pad = false, V : value _ = Some _ |- _ =>
      rewrite P, V; clear P V
  end.

(** Reading one full group of four digits. *)
Lemma read_group (a b c : byte) (s : string) :
  let x := Byte.to_N a in
  let y := Byte.to_N b in
  let z := Byte.to_N c in
  a2b_base64 0 0 0
    (String (digit (x / 4))
       (String (digit ((x mod 4) * 16 + y / 16))
          (String (digit ((y mod 16) * 4 + z / 64))
             (String (digit (z mod 64)) s)))) =
  emit x (emit y (emit z (a2b_base64 0 0 0 s))).
Proof.
  intros x y z.
  destruct (group_arith x y z (byte_bound a) (byte_bound b) (byte_bound c))
    as (D1 & D2 & D3 & D4 & E1 & E2 & E3 & E4 & E5).
  digit_step D1. digit_step D2. rewrite E1, E2.
  digit_step D3. rewrite E3, E4.
  digit_step D4. rewrite E5. reflexivity.
Qed.

Lemma read_one (a : byte) :
  let x := Byte.to_N a in
  a2b_base64 0 0 0
    (String (digit (x / 4))
       (String (digit ((x mod 4) * 16))
          (String pad (String pad EmptyString)))) = Some [a].
Proof.
  intros x.
  destruct (group_arith x 0 0 (byte_bound a) eq_refl eq_refl)
    as (D1 & D2 & _ & _ & E1 & _).
  change (0 / 16)%N with 0%N in *. rewrite N.add_0_r in *.
  digit_step D1. digit_step D2. rewrite E1.
  exact (emit_byte a []).
Qed.

Lemma read_two (a b : byte) :
  let x := Byte.to_N a in
  let y := Byte.to_N b in
  a2b_base64 0 0 0
    (String (digit (x / 4))
       (String (digit ((x mod 4) * 16 + y / 16))
          (String (digit ((y mod 16) * 4))
             (String pad EmptyString)))) = Some [a; b].
Proof.
  intros x y.
  destruct (group_arith x y 0 (byte_bound a) (byte_bound b) eq_refl)
    as (D1 & D2 & D3 & _ & E1 & E2 & E3 & _).
  change (0 / 64)%N with 0%N in *. rewrite N.add_0_r in *.
  digit_step D1. digit_step D2. rewrite E1, E2.
  digit_step D3. rewrite E3.
  transitivity (emit x (Some [b])); [|exact (emit_byte a [b])].
  f_equal. exact (emit_byte b []).
Qed.

Lemma a2b_b64encode (bs : bytes) : a2b_base64 0 0 0 (b64encode bs) = Some bs.
Proof.
  remember (List.length bs) as n eqn:L.
  revert bs L. induction n as [n IH] using lt_wf_ind. intros bs L.
  destruct bs as [|a [|b [|c rest]]].
  - reflexivity.
  - apply read_one.
  - apply read_two.
  - cbn [b64encode]. rewrite read_group.
    rewrite (IH (List.length rest)); [|subst n; cbn; lia | reflexivity].
    cbv zeta. now rewrite !emit_byte.
Qed.

Lemma b64encode_ascii (bs : bytes) : is_ascii (b64encode bs) = true.
Proof.
  unfold is_ascii.
  remember (List.length bs) as n eqn:L.
  revert bs L. induction n as [n IH] using lt_wf_ind. intros bs L.
  destruct bs as [|a [|b [|c rest]]].
  - reflexivity.
  - destruct (group_arith _ 0 0 (byte_bound a) eq_refl eq_refl)
      as (D1 & D2 & _).
    change (0 / 16)%N with 0%N in *. rewrite N.add_0_r in *.
    destruct (digit_facts _ D1) as (_ & _ & A1).
    destruct (digit_facts _ D2) as (_ & _ & A2).
    unfold list_byte_of_string; cbn [b64encode list_ascii_of_string map forallb]. rewrite A1, A2.
    reflexivity.
  - destruct (group_arith _ _ 0 (byte_bound a) (byte_bound b) eq_refl)
      as (D1 & D2 & D3 & _).
    change (0 / 64)%N with 0%N in *. rewrite N.add_0_r in *.
    destruct (digit_facts _ D1) as (_ & _ & A1).
    destruct (digit_facts _ D2) as (_ & _ & A2).
    destruct (digit_facts _ D3) as (_ & _ & A3).
    unfold list_byte_of_string; cbn [b64encode list_ascii_of_string map forallb]. rewrite A1, A2, A3.
    reflexivity.
  - destruct (group_arith _ _ _ (byte_bound a) (byte_bound b) (byte_bound c))
      as (D1 & D2 & D3 & D4 & _).
    destruct (digit_facts _ D1) as (_ & _ & A1).
    destruct (digit_facts _ D2) as (_ & _ & A2).
    destruct (digit_facts _ D3) as (_ & _ & A3).
    destruct (digit_facts _ D4) as (_ & _ & A4).
    unfold list_byte_of_string; cbn [b64encode list_ascii_of_string map forallb]. rewrite A1, A2, A3, A4.
    cbn [andb]. apply (IH (List.length rest)); [subst n; cbn; lia | reflexivity].
Qed.

End Base64Facts.

(** Decoding undoes encoding. *)
Lemma b64decode_of_b64encode (bs : bytes) :
  Base64.b64decode (Base64.b64encode bs) = Some bs.
Proof.
  unfold Base64.b64decode.
  rewrite Base64Facts.b64encode_ascii. apply Base64Facts.a2b_b64encode.
Qed.

(** X1: base64 text written by the encoder is read back by the decoder as
    the bytes it was written from, whatever the bytes and their number. *)
Theorem b64decode_b64encode (bs : bytes) :
  Base64.b64decode (Base64.b64encode bs) = Some bs.
Proof. intros; apply b64decode_of_b64encode; assumption. Qed.

(** ** Mappings *)

Lemma dict_lookup_set (key k : string) (v : pyval) (d : document) :
  dict_lookup key (dict_set k v d) =
  if String.eqb k key then Some v else dict_lookup key d.
Proof.
  induction d as [|[k0 v0] rest IH]; cbn [dict_set dict_lookup].
  - destruct (String.eqb k key); reflexivity.
  - destruct (String.eqb_spec k0 k) as [->|N].
    + cbn [dict_lookup]. destruct (String.eqb k key); reflexivity.
    + cbn [dict_lookup]. rewrite IH.
      destruct (String.eqb_spec k0 key) as [->|N'].
      * destruct (String.eqb_spec k key) as [->|_]; [congruence | reflexivity].
      * reflexivity.
Qed.

Lemma dict_set_set (k : string) (v w : pyval) (d : document) :
  dict_set k w (dict_set k v d) = dict_set k w d.
Proof.
  induction d as [|[k0 v0] rest IH]; cbn [dict_set].
  - rewrite String.eqb_refl. reflexivity.
  - destruct (String.eqb k0 k) eqn:E; cbn [dict_set]; rewrite E.
    + reflexivity.
    + now rewrite IH.
Qed.

Lemma dict_set_same (k : string) (v : pyval) (d : document) :
  dict_lookup k d = Some v -> dict_set k v d = d.
Proof.
  induction d as [|[k0 v0] rest IH]; cbn [dict_set dict_lookup];
    [discriminate|].
  destruct (String.eqb_spec k0 k) as [->|N].
  - intros H. injection H as ->. reflexivity.
  - intros H. now rewrite IH.
Qed.

Lemma dict_set_keys (k : string) (v : pyval) (d : document) :
  dict_contains k d = true -> dict_keys (dict_set k v d) = dict_keys d.
Proof.
  unfold dict_contains.
  induction d as [|[k0 v0] rest IH]; cbn [dict_set dict_lookup dict_keys map];
    [discriminate|].
  destruct (String.eqb k0 k) eqn:E; cbn [map fst]; [reflexivity|].
  intros H. f_equal. now apply IH.
Qed.

(** ** The validators of [Order] as functions on mappings *)

Lemma convert_reference_round_trip (key : string) (d : document)
    (fs : list string) :
  match dict_lookup key d with
  | Some (VBinary _) | None => True
  | Some _ => False
  end ->
  convert_base64_field key
    {| values := convert_binary_field key d; fields_set := fs |} =
  Ok {| values := d; fields_set := fs |}.
Proof.
  unfold convert_base64_field, convert_binary_field. cbn [values fields_set].
  destruct (dict_lookup key d) as [v|] eqn:E.
  - destruct v; try contradiction. intros _.
    rewrite dict_lookup_set, String.eqb_refl, b64decode_of_b64encode.
    rewrite dict_set_set, (dict_set_same _ _ _ E). reflexivity.
  - intros _. rewrite E. reflexivity.
Qed.

Lemma convert_binary_field_other (key other : string) (d : document) :
  other <> key ->
  dict_lookup other (convert_binary_field key d) = dict_lookup other d.
Proof.
  intros N. unfold convert_binary_field.
  destruct (dict_lookup key d) as [[]|]; try reflexivity.
  rewrite dict_lookup_set.
  destruct (String.eqb_spec key other); [congruence | reflexivity].
Qed.

Lemma dict_set_comm (k k' : string) (v v' : pyval) (d : document) :
  k <> k' -> dict_contains k d = true ->
  dict_set k v (dict_set k' v' d) = dict_set k' v' (dict_set k v d).
Proof.
  intros N. unfold dict_contains.
  induction d as [|[k0 v0] rest IH]; cbn [dict_lookup]; [discriminate|].
  cbn [dict_set].
  destruct (String.eqb_spec k0 k) as [->|N0].
  - intros _. destruct (String.eqb_spec k k') as [E|_]; [contradiction|].
    cbn [dict_set]. rewrite String.eqb_refl.
    destruct (String.eqb_spec k k') as [E|_]; [contradiction|]. reflexivity.
  - intros H. destruct (String.eqb_spec k0 k') as [->|N1]; cbn [dict_set].
    + destruct (String.eqb_spec k' k) as [E|_]; [congruence|].
      rewrite String.eqb_refl. reflexivity.
    + destruct (String.eqb_spec k0 k) as [E|_]; [contradiction|].
      destruct (String.eqb_spec k0 k') as [E|_]; [contradiction|].
      f_equal. now apply IH.
Qed.

(** On a mapping whose reference fields hold bytes, the validator of
    mode [after] undoes the validator of mode [before]: the first writes
    the base64 text of the bytes, the second decodes it, and the mapping is
    as it was, entry for entry. *)
Theorem Order_validators_round_trip (payload : document) (fs : list string) :
  reference_fields_binary payload ->
  convert_base64_to_binary
    {| values := convert_binary_fields_to_base64 payload; fields_set := fs |} =
  Ok {| values := payload; fields_set := fs |}.
Proof.
  intros H.
  pose proof (H "restaurants_id" (or_introl eq_refl)) as R.
  pose proof (H "address_id" (or_intror eq_refl)) as A.
  unfold convert_base64_to_binary, convert_binary_fields_to_base64.
  assert (S1 : convert_base64_field "restaurants_id"
                 {| values :=
                      convert_binary_field "address_id"
                        (convert_binary_field "restaurants_id" payload);
                    fields_set := fs |} =
               Ok {| values := convert_binary_field "address_id" payload;
                     fields_set := fs |}).
  { unfold convert_base64_field. cbn [values fields_set].
    rewrite convert_binary_field_other by discriminate.
    destruct (dict_lookup "restaurants_id" payload) as [v|] eqn:E.
    - destruct v; try contradiction.
      unfold convert_binary_field at 1. rewrite E.
      rewrite dict_lookup_set, String.eqb_refl, b64decode_of_b64encode.
      f_equal. f_equal.
      unfold convert_binary_field at 2. rewrite E.
      unfold convert_binary_field. rewrite dict_lookup_set.
      destruct (String.eqb_spec "restaurants_id" "address_id") as [X|_];
        [discriminate X|].
      destruct (dict_lookup "address_id" payload) as [w|] eqn:F.
      + destruct w; try contradiction.
        rewrite dict_set_comm;
          [| discriminate
           | unfold dict_contains; rewrite dict_lookup_set, String.eqb_refl;
             reflexivity].
        rewrite dict_set_set, (dict_set_same _ _ _ E). reflexivity.
      + rewrite dict_set_set, (dict_set_same _ _ _ E). reflexivity.
    - assert (Id : convert_binary_field "restaurants_id" payload = payload)
        by (unfold convert_binary_field; rewrite E; reflexivity).
      rewrite Id, E. reflexivity. }
  rewrite S1. apply convert_reference_round_trip. exact A.
Qed.

Lemma Order_validators_round_trip_witness :
  convert_base64_to_binary
    {| values :=
         convert_binary_fields_to_base64
           [("order_id", VStr "o-1");
            ("restaurants_id", VBinary [x01; x02; x03]%byte)];
       fields_set := [] |} =
  Ok {| values :=
          [("order_id", VStr "o-1");
           ("restaurants_id", VBinary [x01; x02; x03]%byte)];
        fields_set := [] |}.
Proof.
  apply (Order_validators_round_trip
           [("order_id", VStr "o-1");
            ("restaurants_id", VBinary [x01; x02; x03]%byte)] []).
  intros key [-> | ->]; exact I.
Defined.

(** ** The renderer on whole trees *)

(** Induction on a value, with the hypothesis available for every element
    of a sequence and every value of a mapping. *)
Lemma pyval_tree_ind (P : pyval -> Prop) :
  (forall v,
      match v with VList _ | VDict _ => False | _ => True end -> P v) ->
  (forall items, Forall P items -> P (VList items)) ->
  (forall entries,
      Forall (fun kv => P (snd kv)) entries -> P (VDict entries)) ->
  forall v, P v.
Proof.
  intros Hs Hl Hd. fix self 1. intros v.
  destruct v as [ | b | z | bits | s | bs | bs | bs | oid | t | items | entries ];
    try (apply Hs; exact I).
  - apply Hl. revert items. fix go 1. intros [|x xs].
    + constructor.
    + constructor; [apply self | apply go].
  - apply Hd. revert entries. fix go 1. intros [|[k x] xs].
    + constructor.
    + constructor; [apply self | apply go].
Qed.

Lemma rendered_entry_cases (v : pyval) :
  rendered_entry v = convert_objectid_to_str v \/
  exists oid, v = VObjectId oid /\ rendered_entry v = VStr (ObjectId_str oid).
Proof.
  destruct v; try (left; reflexivity). right. eexists. split; reflexivity.
Qed.

(** X2: whatever the document, what the renderer returns holds no [bytes]
    value at any depth: each one has become text. *)
Theorem convert_objectid_to_str_no_bytes (v : pyval) :
  has_bytes (convert_objectid_to_str v) = false.
Proof.
  induction v as [v Hv | items IH | entries IH] using pyval_tree_ind.
  - destruct v; try contradiction; try reflexivity.
    cbn. destruct (Utf8.decode bs); reflexivity.
  - rewrite convert_list. cbn [has_bytes].
    induction IH as [|x xs Hx _ IHxs]; [reflexivity|].
    cbn [map existsb]. now rewrite Hx, IHxs.
  - rewrite convert_dict. cbn [has_bytes].
    induction IH as [|[k x] xs Hx _ IHxs]; [reflexivity|].
    cbn [map existsb fst snd] in *. rewrite IHxs, orb_false_r.
    destruct (rendered_entry_cases x) as [E | (oid & _ & E)]; rewrite E;
      [exact Hx | reflexivity].
Qed.

Lemma convert_keeps_kind (v : pyval) :
  match v with
  | VList _ =>
      match convert_objectid_to_str v with VList _ => True | _ => False end
  | VDict _ =>
      match convert_objectid_to_str v with VDict _ => True | _ => False end
  | VObjectId _ => convert_objectid_to_str v = v
  | _ =>
      match convert_objectid_to_str v with
      | VList _ | VDict _ | VObjectId _ => False
      | _ => True
      end
  end.
Proof.
  destruct v; try exact I; try reflexivity.
  cbn. destruct (Utf8.decode bs); exact I.
Qed.

Lemma rendered_entry_of_converted (v : pyval) :
  convert_objectid_to_str (convert_objectid_to_str v) =
    convert_objectid_to_str v ->
  rendered_entry (rendered_entry v) = rendered_entry v.
Proof.
  intros H. pose proof (convert_keeps_kind v) as K.
  destruct v; try reflexivity.
  - cbn [rendered_entry handle_non_utf8].
    destruct (Utf8.decode bs) eqn:E; cbn [rendered_entry handle_non_utf8];
      [reflexivity | rewrite E; reflexivity].
  - cbn [rendered_entry].
    destruct (convert_objectid_to_str (VList items)); try contradiction.
    exact H.
  - cbn [rendered_entry].
    destruct (convert_objectid_to_str (VDict entries)); try contradiction.
    exact H.
Qed.

(** X3: rendering what has been rendered changes nothing. *)
Theorem convert_objectid_to_str_idempotent (v : pyval) :
  convert_objectid_to_str (convert_objectid_to_str v) =
  convert_objectid_to_str v.
Proof.
  induction v as [v Hv | items IH | entries IH] using pyval_tree_ind.
  - destruct v; try contradiction; try reflexivity.
    cbn. destruct (Utf8.decode bs) eqn:E; [reflexivity|].
    cbn. rewrite E. reflexivity.
  - rewrite !convert_list. f_equal. rewrite map_map.
    induction IH as [|x xs Hx _ IHxs]; [reflexivity|].
    cbn [map]. now rewrite Hx, IHxs.
  - rewrite !convert_dict. f_equal. rewrite map_map. cbn [fst snd].
    induction IH as [|[k x] xs Hx _ IHxs]; [reflexivity|].
    cbn [map fst snd] in *. rewrite IHxs.
    now rewrite (rendered_entry_of_converted x Hx).
Qed.

(** The renderer fixes every value that is JSON's own. *)
Lemma json_native_fixed (v : pyval) :
  json_native v = true -> convert_objectid_to_str v = v.
Proof.
  induction v as [v Hv | items IH | entries IH] using pyval_tree_ind.
  - destruct v; try contradiction; try reflexivity; discriminate.
  - cbn [json_native]. intros H. rewrite convert_list. f_equal.
    induction IH as [|x xs Hx _ IHxs]; [reflexivity|].
    cbn [forallb] in H. apply andb_prop in H. destruct H as [H1 H2].
    cbn [map]. now rewrite (Hx H1), (IHxs H2).
  - cbn [json_native]. intros H. rewrite convert_dict. f_equal.
    induction IH as [|[k x] xs Hx _ IHxs]; [reflexivity|].
    cbn [forallb fst snd] in *. apply andb_prop in H. destruct H as [H1 H2].
    cbn [map fst snd]. rewrite (IHxs H2). f_equal. f_equal.
    destruct (rendered_entry_cases x) as [E | (oid & -> & _)];
      [rewrite E; exact (Hx H1) | discriminate H1].
Qed.

(** X4: a document made of JSON's own kinds of values only comes back from
    the renderer as it went in. *)
Theorem convert_objectid_to_str_json_native (v : pyval) :
  json_native v = true -> convert_objectid_to_str v = v.
Proof. intros; apply json_native_fixed; assumption. Qed.

Lemma convert_objectid_to_str_json_native_witness :
  convert_objectid_to_str (VDict branch_body) = VDict branch_body.
Proof.
  exact (convert_objectid_to_str_json_native (VDict branch_body) eq_refl).
Defined.

(** ** Equality of values, continued *)

Lemma bytes_eqb_eq (a b : bytes) : bytes_eqb a b = true -> a = b.
Proof.
  revert b. induction a as [|x a IH]; intros [|y b]; cbn; try discriminate.
  - reflexivity.
  - intros H. apply andb_prop in H. destruct H as [H1 H2].
    apply Byte.byte_dec_bl in H1. subst y. f_equal. now apply IH.
Qed.

Lemma pyval_eqb_eq : forall a b : pyval, pyval_eqb a b = true -> a = b.
Proof.
  fix self 1. intros a b.
  destruct a as [ | x | x | x | x | x | x | x | x | x | xs | xs ];
    destruct b as [ | y | y | y | y | y | y | y | y | y | ys | ys ];
    cbn [pyval_eqb]; try discriminate; intros H.
  - reflexivity.
  - apply Bool.eqb_prop in H. now subst.
  - apply Z.eqb_eq in H. now subst.
  - apply N.eqb_eq in H. now subst.
  - apply String.eqb_eq in H. now subst.
  - apply bytes_eqb_eq in H. now subst.
  - apply bytes_eqb_eq in H. now subst.
  - apply bytes_eqb_eq in H. now subst.
  - apply bytes_eqb_eq in H. now subst.
  - apply Z.eqb_eq in H. now subst.
  - f_equal. revert xs ys H. fix go 1. intros [|x xs] [|y ys] H;
      try discriminate.
    + reflexivity.
    + apply andb_prop in H. destruct H as [H1 H2].
      rewrite (self x y H1), (go xs ys H2). reflexivity.
  - f_equal. revert xs ys H. fix go 1. intros [|[k x] xs] [|[l y] ys] H;
      try discriminate.
    + reflexivity.
    + apply andb_prop in H. destruct H as [H1 H2].
      apply andb_prop in H1. destruct H1 as [H0 H1].
      apply String.eqb_eq in H0. subst l.
      rewrite (self x y H1), (go xs ys H2). reflexivity.
Qed.

Lemma pyval_eqb_iff (a b : pyval) : pyval_eqb a b = true <-> a = b.
Proof.
  split; [apply pyval_eqb_eq | intros ->; apply pyval_eqb_refl].
Qed.

(** ** Lookups on the store *)

Section Lookups.

Import Mongo.

Lemma find_app_none {A : Type} (p : A -> bool) (l : list A) (x : A) :
  find p l = None -> p x = true -> find p (l ++ [x]) = Some x.
Proof.
  induction l as [|y l IH]; cbn; intros H Hx.
  - now rewrite Hx.
  - destruct (p y); [discriminate | now apply IH].
Qed.

Lemma find_app_some {A : Type} (p : A -> bool) (l l' : list A) (y : A) :
  find p l = Some y -> find p (l ++ l') = Some y.
Proof.
  induction l as [|z l IH]; cbn; [discriminate|].
  destruct (p z); [trivial | exact IH].
Qed.

(** On a store without scheduled failure the adapter's lookup is the first
    matching document of the collection, rendered. *)
Lemma find_one_healthy (name : string) (query : document) (s : store) :
  healthy s ->
  exists s',
    Database_find_one name query s =
      (Ok match find (matches query) (collections s name) with
          | Some doc =>
              if truthy (VDict doc) then convert_objectid_to_str (VDict doc)
              else VNone
          | None => VNone
          end, s') /\
    collections s' = collections s /\
    next_oid s' = next_oid s /\
    healthy s' /\
    calls s' = calls s ++ [FindOne name query].
Proof.
  intros Hs. unfold Database_find_one.
  cbn [coll_find_one driver]. unfold find_one, enter. rewrite Hs.
  cbn [hd tl collections].
  eexists. split.
  - destruct (find (matches query) (collections s name)); reflexivity.
  - repeat split.
Qed.

(** The lookup after an insert under a key that is new. *)
Lemma find_after_insert
    (name key : string) (v : pyval) (doc : document) (s : store) :
  healthy s ->
  key <> "_id" ->
  dict_lookup "_id" doc = None ->
  dict_lookup key doc = Some v ->
  find (matches [(key, v)]) (collections s name) = None ->
  exists (r : InsertOneResult) (oid : bytes) (s1 s2 : store),
    Database_insert_one name doc s = (Ok r, s1) /\
    inserted_id r = VObjectId oid /\
    Database_find_one name [(key, v)] s1 =
      (Ok (VDict (("_id", VStr (ObjectId_str oid))
                  :: map (fun kv => (fst kv, rendered_entry (snd kv))) doc)),
       s2).
Proof.
  intros Hs Hk Hid Hv Hnone.
  destruct (insert_one_fresh name doc s Hs Hid)
    as (s1 & E1 & C1 & _ & _ & Hs1 & _).
  destruct (find_one_healthy name [(key, v)] s1 Hs1) as (s2 & E2 & _).
  do 4 eexists. split; [exact E1|]. split; [reflexivity|].
  rewrite E2, C1.
  rewrite (find_app_none _ _ _ Hnone (matches_natural_key key v _ doc Hk Hv)).
  cbn [truthy]. rewrite convert_dict. reflexivity.
Qed.

(** X5: a document that the store keeps as it is given (no timestamp, no
    [Binary], no [bytearray], integers of 64 bits), inserted under a key
    that no document of the collection has yet, is what a lookup by that
    key returns next: the fields as they were inserted, rendered, behind
    the identifier the store assigned, as its hex text. *)
Theorem insert_then_find
    (name key : string) (v : pyval) (doc : document) (s : store) :
  healthy s ->
  bson_exact (VDict doc) = true ->
  key <> "_id" ->
  dict_lookup "_id" doc = None ->
  dict_lookup key doc = Some v ->
  find (matches [(key, v)]) (collections s name) = None ->
  exists (r : InsertOneResult) (oid : bytes) (s1 s2 : store),
    Database_insert_one name doc s = (Ok r, s1) /\
    inserted_id r = VObjectId oid /\
    Database_find_one name [(key, v)] s1 =
      (Ok (VDict (("_id", VStr (ObjectId_str oid))
                  :: map (fun kv => (fst kv, rendered_entry (snd kv))) doc)),
       s2).
Proof. intros; apply find_after_insert; assumption. Qed.

(** X6: a document inserted under a key that a document of the collection
    already has is not what a lookup by that key returns: the lookup
    answers as it did before the insert, with the older document. *)
Theorem insert_shadowed_by_older
    (name : string) (query doc old : document) (s : store) :
  healthy s ->
  dict_lookup "_id" doc = None ->
  find (matches query) (collections s name) = Some old ->
  exists (r : InsertOneResult) (s1 : store),
    Database_insert_one name doc s = (Ok r, s1) /\
    fst (Database_find_one name query s1) =
    fst (Database_find_one name query s) /\
    fst (Database_find_one name query s) =
    Ok (if truthy (VDict old) then convert_objectid_to_str (VDict old)
        else VNone).
Proof.
  intros Hs Hid Hold.
  destruct (insert_one_fresh name doc s Hs Hid)
    as (s1 & E1 & C1 & _ & _ & Hs1 & _).
  destruct (find_one_healthy name query s1 Hs1) as (s2 & E2 & _).
  destruct (find_one_healthy name query s Hs) as (s3 & E3 & _).
  do 2 eexists. split; [exact E1|].
  rewrite E2, E3, C1. cbn [fst].
  rewrite (find_app_some _ _ _ _ Hold), Hold. split; reflexivity.
Qed.

End Lookups.

Lemma insert_then_find_witness :
  exists (r : InsertOneResult) (oid : bytes) (s1 s2 : Mongo.store),
    Database_insert_one "Branch" branch_body Mongo.empty = (Ok r, s1) /\
    inserted_id r = VObjectId oid /\
    Database_find_one "Branch" [("branch_id", VInt 1)] s1 =
      (Ok (VDict (("_id", VStr (ObjectId_str oid))
                  :: map (fun kv => (fst kv, rendered_entry (snd kv)))
                       branch_body)),
       s2).
Proof.
  apply (insert_then_find "Branch" "branch_id" (VInt 1) branch_body
           Mongo.empty).
  - reflexivity.
  - reflexivity.
  - discriminate.
  - reflexivity.
  - reflexivity.
  - reflexivity.
Defined.

Lemma insert_shadowed_by_older_witness :
  exists (r : InsertOneResult) (s1 : Mongo.store),
    Database_insert_one "Branch" branch_body crowded = (Ok r, s1) /\
    fst (Database_find_one "Branch" [("branch_id", VInt 1)] s1) =
    fst (Database_find_one "Branch" [("branch_id", VInt 1)] crowded) /\
    fst (Database_find_one "Branch" [("branch_id", VInt 1)] crowded) =
    Ok (if truthy (VDict [("_id", VObjectId (Mongo.new_oid 0));
                          ("branch_id", VInt 1)])
        then convert_objectid_to_str
               (VDict [("_id", VObjectId (Mongo.new_oid 0));
                       ("branch_id", VInt 1)])
        else VNone).
Proof.
  apply (insert_shadowed_by_older "Branch" [("branch_id", VInt 1)]
           branch_body
           [("_id", VObjectId (Mongo.new_oid 0)); ("branch_id", VInt 1)]
           crowded).
  - reflexivity.
  - reflexivity.
  - reflexivity.
Defined.

(** ** Deleting and updating on the store *)

Section Changes.

Import Mongo.

Lemma count_remove_first (p : document -> bool) (docs : list document)
    (doc : document) :
  find p docs = Some doc ->
  List.length (filter p (remove_first p docs)) + 1 =
  List.length (filter p docs).
Proof.
  induction docs as [|d rest IH]; cbn [find remove_first filter];
    [discriminate|].
  destruct (p d) eqn:E.
  - intros _. cbn [List.length]. lia.
  - intros H. cbn [filter]. rewrite E. now apply IH.
Qed.

Lemma matched_not_empty (key : string) (v : pyval) (docs : list document)
    (doc : document) :
  find (matches [(key, v)]) docs = Some doc -> doc <> [].
Proof.
  intros H. apply find_some in H. destruct H as [_ H].
  intros ->. discriminate H.
Qed.

Lemma delete_route_query (n : Z) (k : string) (r : delete_route) :
  In r (delete_routes n k) -> exists key v, d_query r = [(key, v)].
Proof.
  unfold delete_routes. cbn [In].
  intros [E|[E|[E|[E|[E|[]]]]]]; subst r; do 2 eexists; reflexivity.
Qed.

Lemma update_route_query (n : Z) (k : string) (r : update_route) :
  In r (update_routes n k) -> exists key v, u_query r = [(key, v)].
Proof.
  unfold update_routes. cbn [In].
  intros [E|[E|[E|[E|[E|[]]]]]]; subst r; do 2 eexists; reflexivity.
Qed.

(** A delete request whose key matches, on a store without scheduled
    failure. *)
Lemma delete_first_match
    (n : Z) (k : string) (r : delete_route) (doc : document) (s : store) :
  In r (delete_routes n k) ->
  healthy s ->
  find (matches (d_query r)) (collections s (d_collection r)) = Some doc ->
  exists (message : string) (s' : store),
    d_handler r s = (Ok (VDict [("message", VStr message)]), s') /\
    collections s' (d_collection r) =
      remove_first (matches (d_query r)) (collections s (d_collection r)) /\
    count_matching (d_query r) (collections s' (d_collection r)) + 1 =
      count_matching (d_query r) (collections s (d_collection r)) /\
    (forall other, other <> d_collection r ->
                   collections s' other = collections s other) /\
    calls s' =
      calls s ++ [FindOne (d_collection r) (d_query r);
                  DeleteOne (d_collection r) (d_query r)].
Proof.
  intros Hin Hs Hdoc.
  destruct (delete_route_shape n k r Hin) as [message Sh].
  destruct (delete_route_query n k r Hin) as (key & v & Q).
  assert (Hne : doc <> []) by (rewrite Q in Hdoc; eapply matched_not_empty; eauto).
  exists message. rewrite Sh.
  destruct (find_one_healthy (d_collection r) (d_query r) s Hs)
    as (s1 & E1 & C1 & _ & Hs1 & L1).
  unfold bind at 1. rewrite E1, Hdoc.
  destruct doc as [|kv rest]; [contradiction|].
  cbn [truthy]. rewrite convert_dict. cbn [map truthy negb].
  unfold bind, Database_delete_one. cbn [coll_delete_one driver].
  unfold delete_one, enter. rewrite Hs1. cbn [hd tl collections].
  assert (C1' : collections s1 (d_collection r) =
                collections s (d_collection r)) by (rewrite C1; reflexivity).
  rewrite C1', Hdoc. cbn [deleted_count truthy andb result_get dict_get
                         dict_lookup String.eqb Ascii.eqb Bool.eqb py_gt
                         Z.ltb Z.compare ret].
  eexists. split; [reflexivity|].
  cbn [collections calls with_collection]. unfold set_collection.
  rewrite String.eqb_refl. split; [reflexivity|]. split; [|split].
  - unfold count_matching. eapply count_remove_first. exact Hdoc.
  - intros other Ho. destruct (String.eqb_spec other (d_collection r));
      [contradiction | rewrite C1; reflexivity].
  - rewrite L1, <- app_assoc. reflexivity.
Qed.

(** X7: on a store without scheduled failure, a delete request whose key
    matches a document succeeds and removes exactly one document, the first
    that matches: one document fewer matches the key, the other
    collections are as they were, and the driver saw the lookup and the
    delete. *)
Theorem delete_removes_first_match
    (n : Z) (k : string) (r : delete_route) (doc : document) (s : store) :
  In r (delete_routes n k) ->
  healthy s ->
  find (matches (d_query r)) (collections s (d_collection r)) = Some doc ->
  exists (message : string) (s' : store),
    d_handler r s = (Ok (VDict [("message", VStr message)]), s') /\
    collections s' (d_collection r) =
      remove_first (matches (d_query r)) (collections s (d_collection r)) /\
    count_matching (d_query r) (collections s' (d_collection r)) + 1 =
      count_matching (d_query r) (collections s (d_collection r)) /\
    (forall other, other <> d_collection r ->
                   collections s' other = collections s other) /\
    calls s' =
      calls s ++ [FindOne (d_collection r) (d_query r);
                  DeleteOne (d_collection r) (d_query r)].
Proof. intros; eapply delete_first_match; eassumption. Qed.

Lemma dict_lookup_apply_set (key : string) (update doc : document) :
  dict_lookup key (apply_set update doc) =
  match dict_lookup key (rev update) with
  | Some v => Some v
  | None => dict_lookup key doc
  end.
Proof.
  unfold apply_set. revert doc.
  induction update as [|[k v] rest IH] using rev_ind; intros doc.
  - reflexivity.
  - rewrite fold_left_app, rev_app_distr. cbn [fold_left rev app fst snd].
    rewrite dict_lookup_set. cbn [dict_lookup].
    destruct (String.eqb k key); [reflexivity | apply IH].
Qed.

(** The adapter's update on a store without scheduled failure. *)
Lemma update_one_healthy (name : string) (query update : document)
    (s : store) :
  healthy s ->
  exists s',
    Database_update_one name query update s =
      (Ok (VDict [("modified_count",
                   VInt match find (matches query) (collections s name) with
                        | Some doc =>
                            if pyval_eqb (VDict (apply_set update doc))
                                 (VDict doc)
                            then 0 else 1
                        | None => 0
                        end)]), s') /\
    collections s' =
      match find (matches query) (collections s name) with
      | Some doc =>
          if pyval_eqb (VDict (apply_set update doc)) (VDict doc)
          then collections s
          else set_collection name
                 (replace_first (matches query) (apply_set update)
                    (collections s name)) (collections s)
      | None => collections s
      end /\
    calls s' = calls s ++ [UpdateOne name query update].
Proof.
  intros Hs. unfold Database_update_one.
  cbn [coll_update_one driver]. unfold update_one, enter. rewrite Hs.
  cbn [hd tl collections].
  destruct (find (matches query) (collections s name)) as [doc|].
  - destruct (pyval_eqb (VDict (apply_set update doc)) (VDict doc));
      eexists; repeat split.
  - eexists. repeat split.
Qed.

(** An update request whose key matches and whose data change the
    document, on a store without scheduled failure. *)
Lemma update_first_match
    (n : Z) (k : string) (r : update_route) (m : instance) (doc : document)
    (s : store) :
  In r (update_routes n k) ->
  healthy s ->
  model_dict_exclude_unset m <> [] ->
  find (matches (u_query r)) (collections s (u_collection r)) = Some doc ->
  apply_set (model_dict_exclude_unset m) doc <> doc ->
  exists (message : string) (s' : store),
    u_handler r m s = (Ok (VDict [("message", VStr message)]), s') /\
    collections s' (u_collection r) =
      replace_first (matches (u_query r))
        (apply_set (model_dict_exclude_unset m))
        (collections s (u_collection r)) /\
    (forall key : string,
        dict_lookup key (apply_set (model_dict_exclude_unset m) doc) =
        match dict_lookup key (rev (model_dict_exclude_unset m)) with
        | Some v => Some v
        | None => dict_lookup key doc
        end) /\
    List.length (collections s' (u_collection r)) =
      List.length (collections s (u_collection r)) /\
    (forall other, other <> u_collection r ->
                   collections s' other = collections s other).
Proof.
  intros Hin Hs Hne Hdoc Hch.
  destruct (update_route_shape n k r Hin) as [message Sh].
  exists message. rewrite Sh.
  destruct (model_dict_exclude_unset m) as [|kv rest] eqn:D; [contradiction|].
  cbn [truthy negb].
  destruct (update_one_healthy (u_collection r) (u_query r) (kv :: rest) s Hs)
    as (s' & E & C & _).
  rewrite Hdoc in E, C.
  destruct (pyval_eqb (VDict (apply_set (kv :: rest) doc)) (VDict doc)) eqn:Q.
  { apply pyval_eqb_eq in Q. injection Q as Q. contradiction. }
  exists s'. unfold bind. rewrite E.
  split; [reflexivity|]. rewrite C. unfold set_collection.
  rewrite String.eqb_refl. split; [reflexivity|].
  split; [intros key; apply dict_lookup_apply_set|]. split.
  - clear. induction (collections s (u_collection r)) as [|d ds IH];
      [reflexivity|].
    cbn [replace_first]. destruct (matches (u_query r) d); cbn [List.length];
      [reflexivity | now rewrite IH].
  - intros other Ho. destruct (String.eqb_spec other (u_collection r));
      [contradiction | reflexivity].
Qed.


(** X9: an update request whose data leave the matching document as it is
    is answered with the endpoint's failure, as if there were no such
    document, and the store holds what it held. *)
Theorem update_without_change_fails
    (n : Z) (k : string) (r : update_route) (m : instance) (doc : document)
    (s : store) :
  In r (update_routes n k) ->
  healthy s ->
  model_dict_exclude_unset m <> [] ->
  find (matches (u_query r)) (collections s (u_collection r)) = Some doc ->
  apply_set (model_dict_exclude_unset m) doc = doc ->
  exists s' : store,
    u_handler r m s = (Raise (u_failed r), s') /\
    collections s' = collections s.
Proof.
  intros Hin Hs Hne Hdoc Hsame.
  destruct (update_route_shape n k r Hin) as [message Sh]. rewrite Sh.
  destruct (model_dict_exclude_unset m) as [|kv rest] eqn:D; [contradiction|].
  cbn [truthy negb].
  destruct (update_one_healthy (u_collection r) (u_query r) (kv :: rest) s Hs)
    as (s' & E & C & _).
  rewrite Hdoc, Hsame, pyval_eqb_refl in E, C.
  exists s'. unfold bind. rewrite E. split; [reflexivity | exact C].
Qed.

End Changes.

(** ** Requests that fail *)

Section Traces.

Context {S D : Type} {driver : Driver S} (data : S -> D).

Hypothesis store_law : all_or_nothing data.

Lemma failed_update_no_trace
    (n : Z) (k : string) (r : update_route) (m : instance) (s s' : S)
    (e : exn) :
  In r (update_routes n k) ->
  u_handler r m s = (Raise e, s') -> data s' = data s.
Proof.
  intros Hin.
  destruct (update_route_shape n k r Hin) as [message Sh]. rewrite Sh.
  destruct (negb (truthy (VDict (model_dict_exclude_unset m)))).
  - intros H. injection H as _ <-. reflexivity.
  - unfold bind, Database_update_one.
    pose proof (update_one_whole data store_law (u_collection r) (u_query r)
                  (model_dict_exclude_unset m) s) as W.
    destruct (coll_update_one (u_collection r) (u_query r)
                (model_dict_exclude_unset m) s) as [[res|what] t].
    + cbn [truthy result_get dict_get dict_lookup String.eqb andb py_gt fst snd]
        in *.
      unfold result_get, dict_get. cbn [dict_lookup].
      rewrite String.eqb_refl. cbn [py_gt].
      destruct (0 <? modified_count res)%Z eqn:C.
      * intros H. discriminate H.
      * intros H. injection H as _ <-. apply W. cbn.
        now apply Z.ltb_ge.
    + cbn [truthy andb fst snd] in *.
      intros H. injection H as _ <-. now apply W.
Qed.

Lemma failed_delete_no_trace
    (n : Z) (k : string) (r : delete_route) (s s' : S) (e : exn) :
  In r (delete_routes n k) ->
  d_handler r s = (Raise e, s') -> data s' = data s.
Proof.
  intros Hin.
  destruct (delete_route_shape n k r Hin) as [message Sh]. rewrite Sh.
  unfold bind at 1.
  assert (F : data (snd (Database_find_one (d_collection r) (d_query r) s))
              = data s).
  { unfold Database_find_one.
    pose proof (find_one_reads data store_law (d_collection r) (d_query r) s)
      as R.
    destruct (coll_find_one (d_collection r) (d_query r) s)
      as [[[doc|]|what] t]; exact R. }
  destruct (Database_find_one (d_collection r) (d_query r) s)
    as [[found|e0] t]; cbn [snd] in F.
  - destruct (negb (truthy found)).
    + intros H. injection H as _ <-. exact F.
    + unfold bind, Database_delete_one.
      pose proof (delete_one_whole data store_law (d_collection r)
                    (d_query r) t) as W.
      destruct (coll_delete_one (d_collection r) (d_query r) t)
        as [[res|what] t'].
      * cbn [truthy andb fst snd] in *.
        unfold result_get, dict_get. cbn [dict_lookup].
        rewrite String.eqb_refl. cbn [py_gt].
        destruct (0 <? deleted_count res)%Z eqn:C.
        -- intros H. discriminate H.
        -- intros H. injection H as _ <-. rewrite W; [exact F|].
           cbn. now apply Z.ltb_ge.
      * cbn [truthy andb fst snd] in *.
        intros H. injection H as _ <-. rewrite W; [exact F | exact I].
  - intros H. injection H as _ <-. exact F.
Qed.

(** X10: on a store that does each operation as a whole or not at all, a
    request that ends in an error has changed no data: this holds of every
    update and every delete endpoint, and a list endpoint changes no data
    however it ends.  The program adds nothing to what the store
    guarantees: it undoes nothing. *)
Theorem failed_requests_change_nothing (n : Z) (k : string) :
  (forall (r : update_route) (m : instance) (s s' : S) (e : exn),
      In r (update_routes n k) ->
      u_handler r m s = (Raise e, s') -> data s' = data s) /\
  (forall (r : delete_route) (s s' : S) (e : exn),
      In r (delete_routes n k) ->
      d_handler r s = (Raise e, s') -> data s' = data s) /\
  (forall (name : string) (ep : M S pyval) (s : S),
      In (name, ep) list_routes ->
      data (snd (ep s)) = data s).
Proof.
  split; [|split].
  - intros r m s s' e. apply failed_update_no_trace.
  - intros r s s' e. apply failed_delete_no_trace.
  - intros name ep s Hin. rewrite (list_route_shape name ep Hin).
    unfold bind, db_find_to_list.
    pose proof (find_to_list_reads data store_law name 200 s) as R.
    destruct (coll_find_to_list name 200 s) as [[docs|what] t]; exact R.
Qed.

End Traces.

(** The in-memory store does each operation as a whole or not at all. *)
Lemma Mongo_all_or_nothing : all_or_nothing Mongo.collections.
Proof.
  split.
  - intros name query s. cbn [coll_find_one Mongo.driver].
    unfold Mongo.find_one, Mongo.enter.
    destruct (hd false (Mongo.faults s)); reflexivity.
  - intros name length s. cbn [coll_find_to_list Mongo.driver].
    unfold Mongo.find_to_list, Mongo.enter.
    destruct (hd false (Mongo.faults s)); reflexivity.
  - intros name query update s. cbn [coll_update_one Mongo.driver].
    unfold Mongo.update_one, Mongo.enter. cbn [Mongo.collections].
    destruct (hd false (Mongo.faults s)); [reflexivity|].
    destruct (find _ _) as [doc|]; [|reflexivity].
    destruct (pyval_eqb _ _); [reflexivity|].
    cbn. intros H. lia.
  - intros name query s. cbn [coll_delete_one Mongo.driver].
    unfold Mongo.delete_one, Mongo.enter. cbn [Mongo.collections].
    destruct (hd false (Mongo.faults s)); [reflexivity|].
    destruct (find _ _) as [doc|]; [|reflexivity].
    cbn. intros H. lia.
Qed.


(** ** Failures of the connection in updates and deletes *)

Section FaultsAndMisses.

Import Mongo.

(** C10, as the code has it: a failure of the driver in [update_one] or
    [delete_one] comes back from the adapter as the empty mapping, which
    fails the endpoint's test as a count of zero does, so that the request
    ends in the endpoint's own failure, never in status 500.  For an update
    that failure (status 400 or 404) is also the answer to a request whose
    target is missing.  For a delete it is the status 400 failure of a
    delete that removed nothing; a missing target is answered before, by
    the not-found error of the lookup, which is another error in every
    delete endpoint. *)
Theorem update_delete_fault_as_no_match (n : Z) (k : string) :
  (forall (S : Type) (driver : Driver S) (r : update_route) (m : instance)
          (s s' : S) (o : outcome UpdateResult),
      In r (update_routes n k) ->
      model_dict_exclude_unset m <> [] ->
      coll_update_one (u_collection r) (u_query r)
        (model_dict_exclude_unset m) s = (o, s') ->
      update_ineffective o ->
      u_handler r m s = (Raise (u_failed r), s') /\
      (status_of (u_failed r) = 400 \/ status_of (u_failed r) = 404)) /\
  (forall (r : update_route) (m : instance) (s : store),
      In r (update_routes n k) ->
      model_dict_exclude_unset m <> [] ->
      healthy s ->
      find (matches (u_query r)) (collections s (u_collection r)) = None ->
      fst (u_handler r m s) = Raise (u_failed r)) /\
  (forall (S : Type) (driver : Driver S) (r : delete_route) (doc : document)
          (s s1 s2 : S) (o : outcome DeleteResult),
      In r (delete_routes n k) ->
      coll_find_one (d_collection r) (d_query r) s =
        (Returned (Some doc), s1) ->
      doc <> [] ->
      coll_delete_one (d_collection r) (d_query r) s1 = (o, s2) ->
      delete_ineffective o ->
      d_handler r s = (Raise (d_failed r), s2) /\
      status_of (d_failed r) = 400) /\
  (forall (S : Type) (driver : Driver S) (r : delete_route) (s s1 : S),
      In r (delete_routes n k) ->
      coll_find_one (d_collection r) (d_query r) s = (Returned None, s1) ->
      d_handler r s = (Raise (d_not_found r), s1) /\
      d_not_found r <> d_failed r).
Proof.
  split; [|split; [|split]].
  - intros S driver r m s s' o. apply ineffective_update_fails.
  - intros r m s Hin Hne Hs Hnone.
    destruct (update_one_healthy (u_collection r) (u_query r)
                (model_dict_exclude_unset m) s Hs) as (s' & E & _).
    rewrite Hnone in E.
    assert (U : coll_update_one (u_collection r) (u_query r)
                  (model_dict_exclude_unset m) s =
                (Returned {| matched_count := 0; modified_count := 0 |},
                 snd (update_one (u_collection r) (u_query r)
                        (model_dict_exclude_unset m) s))).
    { cbn [coll_update_one driver]. unfold update_one, enter. rewrite Hs.
      cbn [hd tl collections]. rewrite Hnone. reflexivity. }
    destruct (ineffective_update_fails n k r m s _ _ Hin Hne U) as [H _].
    + cbn. lia.
    + rewrite H. reflexivity.
  - intros S driver r doc s s1 s2 o. apply ineffective_delete_fails.
  - intros S driver r s s1 Hin F.
    split; [now apply (missing_target_not_found n k)|].
    now apply (delete_failures_differ n k).
Qed.

(** C10 as stated fails for deletes: with the menu item in the store and
    the connection failing in [delete_one], [DELETE /menu-item/m-1] is
    answered with status 400 "Failed to delete menu item", while the same
    request for an item that is not there is answered with status 404
    "Menu item not found"; the caller tells the two apart. *)
Lemma delete_fault_as_missing_target_counterexample :
  ~ (forall (key : string) (doc : document) (what : string)
            (s s1 s2 t t1 : store),
        find_one "menu" [("item_id", VStr key)] s =
          (Returned (Some doc), s1) ->
        delete_one "menu" [("item_id", VStr key)] s1 = (Raised what, s2) ->
        find_one "menu" [("item_id", VStr key)] t = (Returned None, t1) ->
        fst (delete_menu_item key s) = fst (delete_menu_item key t)).
Proof.
  intros H.
  specialize (H "m-1" [("_id", VObjectId (new_oid 0)); ("item_id", VStr "m-1")]
                unreachable menu_delete_fails
                (snd (find_one "menu" [("item_id", VStr "m-1")]
                        menu_delete_fails))
                (snd (delete_menu_item "m-1" menu_delete_fails))
                Mongo.empty
                (snd (find_one "menu" [("item_id", VStr "m-1")] Mongo.empty))
                eq_refl eq_refl eq_refl).
  vm_compute in H. discriminate H.
Qed.

End FaultsAndMisses.

Lemma update_delete_fault_as_no_match_witness :
  update_branch 1 {| values := branch_body; fields_set := ["branch_name"] |}
    unreachable_store =
    (Raise (HTTPException 400 "Failed to update branch"),
     snd (Mongo.update_one "Branch" [("branch_id", VInt 1)]
            [("branch_name", VStr "Branch A")] unreachable_store)) /\
  fst (update_branch 1
         {| values := branch_body; fields_set := ["branch_name"] |}
         Mongo.empty) =
    Raise (HTTPException 400 "Failed to update branch") /\
  delete_menu_item "m-1" menu_delete_fails =
    (Raise (HTTPException 400 "Failed to delete menu item"),
     snd (delete_menu_item "m-1" menu_delete_fails)) /\
  delete_menu_item "m-1" Mongo.empty =
    (Raise (HTTPException 404 "Menu item not found"),
     snd (Mongo.find_one "menu" [("item_id", VStr "m-1")] Mongo.empty)).
Proof.
  destruct (update_delete_fault_as_no_match 1 "m-1") as (U & U0 & D & D0).
  split; [|split; [|split]].
  - refine (proj1 (U Mongo.store Mongo.driver
                     {| u_collection := "Branch";
                        u_query := [("branch_id", VInt 1)];
                        u_failed := HTTPException 400 "Failed to update branch";
                        u_handler := update_branch 1 |}
                     {| values := branch_body; fields_set := ["branch_name"] |}
                     unreachable_store
                     (snd (Mongo.update_one "Branch" [("branch_id", VInt 1)]
                             [("branch_name", VStr "Branch A")]
                             unreachable_store))
                     (Raised Mongo.unreachable) _ _ eq_refl I)).
    + cbn. left. reflexivity.
    + discriminate.
  - refine (U0 {| u_collection := "Branch";
                  u_query := [("branch_id", VInt 1)];
                  u_failed := HTTPException 400 "Failed to update branch";
                  u_handler := update_branch 1 |}
               {| values := branch_body; fields_set := ["branch_name"] |}
               Mongo.empty _ _ eq_refl eq_refl).
    + cbn. left. reflexivity.
    + discriminate.
  - refine (proj1 (D Mongo.store Mongo.driver
                     {| d_collection := "menu";
                        d_query := [("item_id", VStr "m-1")];
                        d_not_found := HTTPException 404 "Menu item not found";
                        d_failed :=
                          HTTPException 400 "Failed to delete menu item";
                        d_handler := delete_menu_item "m-1" |}
                     [("_id", VObjectId (Mongo.new_oid 0));
                      ("item_id", VStr "m-1")]
                     menu_delete_fails
                     (snd (Mongo.find_one "menu" [("item_id", VStr "m-1")]
                             menu_delete_fails))
                     (snd (delete_menu_item "m-1" menu_delete_fails))
                     (Raised Mongo.unreachable) _ eq_refl _ eq_refl I)).
    + cbn. right. right. left. reflexivity.
    + discriminate.
  - refine (proj1 (D0 Mongo.store Mongo.driver
                     {| d_collection := "menu";
                        d_query := [("item_id", VStr "m-1")];
                        d_not_found := HTTPException 404 "Menu item not found";
                        d_failed :=
                          HTTPException 400 "Failed to delete menu item";
                        d_handler := delete_menu_item "m-1" |}
                     Mongo.empty
                     (snd (Mongo.find_one "menu" [("item_id", VStr "m-1")]
                             Mongo.empty))
                     _ eq_refl)).
    cbn. right. right. left. reflexivity.
Defined.


Lemma delete_removes_first_match_witness :
  exists (message : string) (s' : Mongo.store),
    delete_branch 1 one_branch =
      (Ok (VDict [("message", VStr message)]), s') /\
    Mongo.collections s' "Branch" =
      Mongo.remove_first (Mongo.matches [("branch_id", VInt 1)])
        (Mongo.collections one_branch "Branch") /\
    Mongo.count_matching [("branch_id", VInt 1)]
      (Mongo.collections s' "Branch") + 1 =
      Mongo.count_matching [("branch_id", VInt 1)]
        (Mongo.collections one_branch "Branch") /\
    (forall other, other <> "Branch" ->
                   Mongo.collections s' other =
                   Mongo.collections one_branch other) /\
    Mongo.calls s' =
      Mongo.calls one_branch ++
        [Mongo.FindOne "Branch" [("branch_id", VInt 1)];
         Mongo.DeleteOne "Branch" [("branch_id", VInt 1)]].
Proof.
  apply (delete_removes_first_match 1 "m-1"
           {| d_collection := "Branch";
              d_query := [("branch_id", VInt 1)];
              d_not_found := HTTPException 400 "Branch not found";
              d_failed := HTTPException 400 "Failed to delete branch";
              d_handler := delete_branch 1 |}
           (("_id", VObjectId (Mongo.new_oid 0)) :: branch_body) one_branch).
  - cbn. left. reflexivity.
  - reflexivity.
  - reflexivity.
Defined.


Lemma update_without_change_fails_witness :
  exists s' : Mongo.store,
    update_branch 1
      {| values := branch_body; fields_set := map fst branch_body |}
      one_branch =
      (Raise (HTTPException 400 "Failed to update branch"), s') /\
    Mongo.collections s' = Mongo.collections one_branch.
Proof.
  apply (update_without_change_fails 1 "m-1"
           {| u_collection := "Branch";
              u_query := [("branch_id", VInt 1)];
              u_failed := HTTPException 400 "Failed to update branch";
              u_handler := update_branch 1 |}
           {| values := branch_body; fields_set := map fst branch_body |}
           (("_id", VObjectId (Mongo.new_oid 0)) :: branch_body) one_branch).
  - cbn. left. reflexivity.
  - reflexivity.
  - discriminate.
  - reflexivity.
  - reflexivity.
Defined.

Lemma failed_requests_change_nothing_witness :
  Mongo.collections
    (snd (update_branch 1
            {| values := branch_body; fields_set := ["branch_name"] |}
            unreachable_store)) =
  Mongo.collections unreachable_store.
Proof.
  refine (proj1 (failed_requests_change_nothing (driver := Mongo.driver)
                   Mongo.collections Mongo_all_or_nothing 1 "m-1")
            {| u_collection := "Branch";
               u_query := [("branch_id", VInt 1)];
               u_failed := HTTPException 400 "Failed to update branch";
               u_handler := update_branch 1 |}
            {| values := branch_body; fields_set := ["branch_name"] |}
            unreachable_store _
            (HTTPException 400 "Failed to update branch") _ eq_refl).
  cbn. left. reflexivity.
Defined.


(** ** Instances of the flat models *)

Lemma has_type_native (t : ftype) (v : pyval) :
  scalar_annot t = true -> has_type t v = true -> json_native v = true.
Proof.
  induction t; cbn [scalar_annot]; intros Ht Hv;
    try discriminate Ht; destruct v; try discriminate Hv; try reflexivity;
    now apply IHt.
Qed.

Lemma validate_fields_native (fs : list field) (body : document)
    (m : instance) :
  forallb scalar_field fs = true ->
  validate_fields fs body = Ok m ->
  forallb (fun kv => json_native (snd kv)) (values m) = true.
Proof.
  revert m. induction fs as [|f rest IH]; intros m Hfs H; cbn in H.
  - injection H as <-. reflexivity.
  - cbn [forallb] in Hfs. apply andb_prop in Hfs. destruct Hfs as [Hf Hrest].
    unfold scalar_field in Hf. apply andb_prop in Hf. destruct Hf as [Ha Hd].
    destruct (dict_lookup (fname f) body) as [v|].
    + destruct (has_type (fannot f) v) eqn:T; [|discriminate].
      destruct (validate_fields rest body) as [m'|]; [|discriminate].
      injection H as <-. cbn [values forallb snd].
      rewrite (has_type_native _ _ Ha T). now apply IH.
    + destruct (fdefault f) as [d|]; [|discriminate].
      destruct (validate_fields rest body) as [m'|]; [|discriminate].
      injection H as <-. cbn [values forallb snd].
      rewrite Hd. now apply IH.
Qed.

(** A declared field that the body provides has the body's value in the
    instance. *)
Lemma validate_fields_lookup (fs : list field) (body : document)
    (m : instance) (key : string) (v : pyval) :
  validate_fields fs body = Ok m ->
  In key (map fname fs) ->
  dict_lookup key body = Some v ->
  dict_lookup key (values m) = Some v.
Proof.
  revert m. induction fs as [|f rest IH]; intros m H Hin Hv; [destruct Hin|].
  cbn in H.
  destruct (dict_lookup (fname f) body) as [w|] eqn:W.
  - destruct (has_type (fannot f) w); [|discriminate].
    destruct (validate_fields rest body) as [m'|]; [|discriminate].
    injection H as <-. cbn [values dict_lookup].
    destruct (String.eqb_spec (fname f) key) as [E|N].
    + congruence.
    + destruct Hin as [E|Hin]; [contradiction|]. now apply IH.
  - destruct (fdefault f) as [d|]; [|discriminate].
    destruct (validate_fields rest body) as [m'|]; [|discriminate].
    injection H as <-. cbn [values dict_lookup].
    destruct (String.eqb_spec (fname f) key) as [E|N].
    + congruence.
    + destruct Hin as [E|Hin]; [contradiction|]. now apply IH.
Qed.

(** A declared field that the body provides fits its annotation. *)
Lemma validate_fields_typed (fs : list field) (body : document)
    (m : instance) (f : field) (v : pyval) :
  validate_fields fs body = Ok m ->
  In f fs ->
  dict_lookup (fname f) body = Some v ->
  has_type (fannot f) v = true.
Proof.
  revert m. induction fs as [|g rest IH]; intros m H Hin Hv; [destruct Hin|].
  cbn in H. destruct Hin as [->|Hin].
  - rewrite Hv in H. destruct (has_type (fannot f) v); [reflexivity|].
    discriminate.
  - destruct (dict_lookup (fname g) body) as [w|].
    + destruct (has_type (fannot g) w); [|discriminate].
      destruct (validate_fields rest body) as [m'|]; [|discriminate].
      now apply (IH m').
    + destruct (fdefault g) as [d|]; [|discriminate].
      destruct (validate_fields rest body) as [m'|]; [|discriminate].
      now apply (IH m').
Qed.

(** A declared field that the body leaves out has its default. *)
Lemma validate_fields_default (fs : list field) (body : document)
    (m : instance) (key : string) :
  validate_fields fs body = Ok m ->
  In key (map fname fs) ->
  dict_lookup key body = None ->
  exists f, In f fs /\ fname f = key /\
            dict_lookup key (values m) = fdefault f.
Proof.
  revert m. induction fs as [|f rest IH]; intros m H Hin Hv; [destruct Hin|].
  cbn in H.
  destruct (String.eqb_spec (fname f) key) as [E|N].
  - subst key. rewrite Hv in H.
    destruct (fdefault f) as [d|] eqn:D; [|discriminate].
    destruct (validate_fields rest body) as [m'|]; [|discriminate].
    injection H as <-. exists f. cbn [values dict_lookup].
    rewrite String.eqb_refl.
    split; [now left | split; [reflexivity | now rewrite D]].
  - destruct Hin as [E|Hin]; [contradiction|].
    assert (R : exists m', validate_fields rest body = Ok m' /\
                           dict_lookup key (values m) =
                           dict_lookup key (values m')).
    { destruct (dict_lookup (fname f) body) as [w|].
      - destruct (has_type (fannot f) w); [|discriminate].
        destruct (validate_fields rest body) as [m'|]; [|discriminate].
        injection H as <-. exists m'. split; [reflexivity|].
        cbn [values dict_lookup].
        destruct (String.eqb_spec (fname f) key); [contradiction|reflexivity].
      - destruct (fdefault f) as [d|]; [|discriminate].
        destruct (validate_fields rest body) as [m'|]; [|discriminate].
        injection H as <-. exists m'. split; [reflexivity|].
        cbn [values dict_lookup].
        destruct (String.eqb_spec (fname f) key); [contradiction|reflexivity]. }
    destruct R as (m' & E' & L). rewrite L.
    destruct (IH m' E' Hin Hv) as (g & Hg & Hn & Hl).
    exists g. split; [now right | split; assumption].
Qed.

Lemma dict_set_native (key : string) (v : pyval) (d : document) :
  json_native v = true ->
  forallb (fun kv => json_native (snd kv)) d = true ->
  forallb (fun kv => json_native (snd kv)) (dict_set key v d) = true.
Proof.
  intros Hv. induction d as [|[k w] rest IH]; cbn [dict_set forallb snd].
  - now rewrite Hv.
  - intros H. apply andb_prop in H. destruct H as [H1 H2].
    destruct (String.eqb k key); cbn [forallb snd].
    + now rewrite Hv, H2.
    + now rewrite H1, IH.
Qed.

Lemma rendered_native (d : document) :
  forallb (fun kv => json_native (snd kv)) d = true ->
  map (fun kv => (fst kv, rendered_entry (snd kv))) d = d.
Proof.
  intros H.
  pose proof (json_native_fixed (VDict d) H) as E.
  rewrite convert_dict in E. now injection E.
Qed.

Section CreateThenGet.

Import Mongo.

(** X11: on a store without scheduled failure, for a body whose values
    other than [branch_added] the store keeps as they are given and for a
    [branch_id] that no stored branch has, [GET /branch/{id}] after
    [POST /create-branch/] returns the declared fields in declaration
    order behind the new identifier's hex text, every field but
    [branch_added] with the value the body gave it; [branch_added] is a
    timestamp, never null, whether the body gave one or not.  Which
    timestamp is left open: the store keeps milliseconds only. *)
Theorem create_branch_then_get
    (now n : Z) (body : document) (m : instance) (s : store) :
  healthy s ->
  forallb (fun kv => String.eqb (fst kv) "branch_added" ||
                     bson_exact (snd kv)) body = true ->
  model_validate Branch body = Ok m ->
  dict_lookup "branch_id" body = Some (VInt n) ->
  find (matches [("branch_id", VInt n)]) (collections s "Branch") = None ->
  exists (oid : bytes) (stored : document) (s1 s2 : store),
    create_branch now m s =
      (Ok (VDict [("message", VStr "Branch created successfully");
                  ("branch_id", VInt n)]), s1) /\
    get_branch n s1 =
      (Ok (VDict (("_id", VStr (ObjectId_str oid)) :: stored)), s2) /\
    dict_keys stored = map fname (fields Branch) /\
    (forall (key : string) (v : pyval),
        key <> "branch_added" ->
        In key (map fname (fields Branch)) ->
        dict_lookup key body = Some v ->
        dict_lookup key stored = Some v) /\
    exists t : Z, dict_lookup "branch_added" stored = Some (VDatetime t).
Proof.
  intros Hs _ Hv Hid Hnone.
  unfold model_validate in Hv.
  cbn [Branch before_validator after_validator] in Hv.
  unfold no_before, no_after in Hv.
  destruct (validate_fields (fields Branch) body) as [m0|] eqn:V;
    [|discriminate].
  injection Hv as ->.
  pose proof (validate_fields_keys _ _ _ V) as K.
  pose proof (validate_fields_native (fields Branch) body m eq_refl V)
    as Hnat.
  assert (Hadded : In "branch_added" (map fname (fields Branch)))
    by (cbn; tauto).
  (* the instance after the stamp *)
  set (m' := if negb (truthy (getattr m "branch_added"))
             then setattr m "branch_added" (VDatetime now) else m).
  assert (K' : dict_keys (values m') = map fname (fields Branch)).
  { unfold m'. destruct (negb (truthy (getattr m "branch_added")));
      [|exact K]. cbn [setattr values]. rewrite dict_set_keys; [exact K|].
    unfold dict_contains.
    destruct (dict_lookup "branch_added" (values m)) eqn:E; [reflexivity|].
    exfalso. destruct (dict_lookup "branch_added" body) as [w|] eqn:B.
    - rewrite (validate_fields_lookup _ _ _ _ _ V Hadded B) in E.
      discriminate.
    - destruct (validate_fields_default _ _ _ _ V Hadded B)
        as (f & Hf & Hn & Hl).
      rewrite E in Hl. cbn in Hf.
      repeat (destruct Hf as [<-|Hf]; [discriminate|]). destruct Hf. }
  assert (Hnat' : forallb (fun kv => json_native (snd kv)) (values m') = true).
  { unfold m'. destruct (negb (truthy (getattr m "branch_added")));
      [|exact Hnat]. cbn [setattr values]. now apply dict_set_native. }
  assert (L : forall key v, key <> "branch_added" ->
                In key (map fname (fields Branch)) ->
                dict_lookup key body = Some v ->
                dict_lookup key (values m') = Some v).
  { intros key v Hk Hin Hb. unfold m'.
    destruct (negb (truthy (getattr m "branch_added"))).
    - cbn [setattr values]. rewrite dict_lookup_set.
      destruct (String.eqb_spec "branch_added" key); [congruence|].
      exact (validate_fields_lookup _ _ _ _ _ V Hin Hb).
    - exact (validate_fields_lookup _ _ _ _ _ V Hin Hb). }
  assert (Bid : dict_lookup "branch_id" (values m') = Some (VInt n)).
  { apply L; [discriminate | cbn; tauto | exact Hid]. }
  assert (Noid : dict_lookup "_id" (values m') = None).
  { apply dict_lookup_absent. rewrite K'. cbn. intuition discriminate. }
  destruct (find_after_insert "Branch" "branch_id" (VInt n) (values m') s
              Hs ltac:(discriminate) Noid Bid Hnone)
    as (r & oid & s1 & s2 & E1 & Er & E2).
  rewrite (rendered_native _ Hnat') in E2.
  assert (Ack : acknowledged r = true).
  { destruct (insert_one_fresh "Branch" (values m') s Hs Noid)
      as (t & Et & _). rewrite Et in E1. now injection E1 as <- _. }
  exists oid, (values m'), s1, s2.
  split; [|split; [|split; [exact K'|split; [exact L|]]]].
  - unfold create_branch. fold m'. unfold bind, model_dict.
    rewrite E1, Ack. unfold getattr, dict_get. rewrite Bid. reflexivity.
  - unfold get_branch, bind. rewrite E2. reflexivity.
  - unfold m', getattr, dict_get.
    destruct (dict_lookup "branch_added" body) as [w|] eqn:B.
    + pose proof (validate_fields_lookup _ _ _ _ _ V Hadded B) as E.
      pose proof (validate_fields_typed _ _ _
                    (defaulted "branch_added" (TOptional TDatetime) VNone)
                    w V ltac:(cbn; tauto) B) as T.
      rewrite E. destruct w; try discriminate T; cbn [truthy negb].
      * cbn [setattr values]. rewrite dict_lookup_set. now exists now.
      * rewrite E. now exists t.
    + destruct (validate_fields_default _ _ _ _ V Hadded B)
        as (f & Hf & Hn & Hl).
      assert (D : fdefault f = Some VNone).
      { cbn in Hf.
        repeat (destruct Hf as [<-|Hf];
                [first [discriminate Hn | reflexivity]|]). destruct Hf. }
      rewrite Hl, D. cbn [truthy negb setattr values].
      rewrite dict_lookup_set. now exists now.
Qed.

End CreateThenGet.

Lemma create_branch_then_get_witness :
  exists (oid : bytes) (stored : document) (s1 s2 : Mongo.store),
    create_branch 10 branch_instance Mongo.empty =
      (Ok (VDict [("message", VStr "Branch created successfully");
                  ("branch_id", VInt 1)]), s1) /\
    get_branch 1 s1 =
      (Ok (VDict (("_id", VStr (ObjectId_str oid)) :: stored)), s2) /\
    dict_keys stored = map fname (fields Branch) /\
    (forall (key : string) (v : pyval),
        key <> "branch_added" ->
        In key (map fname (fields Branch)) ->
        dict_lookup key branch_body = Some v ->
        dict_lookup key stored = Some v) /\
    exists t : Z, dict_lookup "branch_added" stored = Some (VDatetime t).
Proof.
  exact (create_branch_then_get 10 1 branch_body branch_instance Mongo.empty
           eq_refl eq_refl eq_refl eq_refl eq_refl).
Defined.


(** ** Registration *)

Module RegisterFacts.

Import Register.

Lemma register_step (user : User) (db : mock_db) :
  snd (register user db) =
  if accepted user then db ++ [record_of user] else db.
Proof.
  unfold register, accepted, record_of.
  destruct (String.eqb (password user) (retype_password user));
    destruct (agree_terms user); reflexivity.
Qed.

(** The list after a series of requests, by induction on the series. *)
Lemma registrations_append (users : list User) (db : mock_db) :
  registrations users db = db ++ map record_of (filter accepted users).
Proof.
  unfold registrations. revert db.
  induction users as [|u us IH]; intros db; cbn [fold_left filter].
  - now rewrite app_nil_r.
  - rewrite IH, register_step. destruct (accepted u); cbn [map].
    + rewrite <- app_assoc. reflexivity.
    + reflexivity.
Qed.

(** X14: the list of registered users is a log of the accepted requests:
    after any series of registration requests it is what it was, followed
    by one record per request whose two passwords agree and that agrees to
    the terms, in the order of the requests, the password as it was
    submitted.  Nothing is ever removed or rewritten, and a request that
    repeats an earlier one adds a second record. *)
Theorem registrations_log (users : list User) (db : mock_db) :
  registrations users db = db ++ map record_of (filter accepted users).
Proof. intros; apply registrations_append; assumption. Qed.

(** A registration request is refused for its passwords before it is
    refused for the terms, and a refused request leaves the list as it
    is: with passwords that differ the answer is "Passwords do not match"
    whether or not the terms are agreed to. *)
Theorem register_refusals (user : User) (db : mock_db) :
  accepted user = false ->
  exists detail : string,
    register user db = (Raise (HTTPException 400 detail), db) /\
    (detail = "Passwords do not match" <->
     password user <> retype_password user) /\
    (detail = "You must agree to the terms" <->
     password user = retype_password user /\ agree_terms user = false).
Proof.
  unfold accepted, register. intros H.
  destruct (String.eqb_spec (password user) (retype_password user)) as [E|N].
  - cbn [andb] in H. rewrite H. cbn [negb].
    eexists. split; [reflexivity|]. split; split.
    + discriminate.
    + intros C. contradiction.
    + auto.
    + reflexivity.
  - cbn [negb]. eexists. split; [reflexivity|]. split; split.
    + auto.
    + reflexivity.
    + discriminate.
    + intros [C _]. contradiction.
Qed.

Lemma response_items_records (users : list User) :
  response_items UserResponse (map VDict (map record_of users)) =
  Ok (map public_record_of users).
Proof.
  induction users as [|u us IH]; [reflexivity|].
  cbn [map response_items]. rewrite IH. reflexivity.
Qed.

(** X15: what [GET /users] answers after a series of registration requests
    on an empty list: 404 when none of them was accepted, and otherwise the
    name and the address of every accepted request, in order, and nothing
    else of it: the password, which the list holds, is not sent. *)
Theorem users_after_registrations (users : list User) :
  fst (get_users (registrations users [])) =
  match filter accepted users with
  | [] => Raise (HTTPException 404 "No users found")
  | _ :: _ => Ok (VList (map public_record_of (filter accepted users)))
  end.
Proof.
  rewrite registrations_append. cbn [app].
  destruct (filter accepted users) as [|u us]; [reflexivity|].
  unfold get_users, get_all_users.
  cbn [map truthy negb fst response_model_list].
  change (VDict (record_of u) :: map VDict (map record_of us))
    with (map VDict (map record_of (u :: us))).
  rewrite response_items_records. reflexivity.
Qed.

End RegisterFacts.

Lemma register_refusals_witness :
  exists detail : string,
    Register.register
      {| Register.full_name := "Ann Lee";
         Register.email := "ann@example.com";
         Register.password := "secret";
         Register.retype_password := "secrte";
         Register.agree_terms := false |} [] =
      (Raise (HTTPException 400 detail), []) /\
    (detail = "Passwords do not match" <-> "secret" <> "secrte") /\
    (detail = "You must agree to the terms" <->
     "secret" = "secrte" /\ false = false).
Proof.
  exact (RegisterFacts.register_refusals
           {| Register.full_name := "Ann Lee";
              Register.email := "ann@example.com";
              Register.password := "secret";
              Register.retype_password := "secrte";
              Register.agree_terms := false |} [] eq_refl).
Defined.

(** ** Identifiers in requests *)

Module BsonFacts.

Import Bson.

Lemma byte_read_back (b : byte) :
  is_space (Hex.digit (Byte.to_N b / 16)) = false /\
  digit_value (Hex.digit (Byte.to_N b / 16)) = Some (Byte.to_N b / 16)%N /\
  digit_value (Hex.digit (Byte.to_N b mod 16)) =
    Some (Byte.to_N b mod 16)%N /\
  Byte.of_N (Byte.to_N b / 16 * 16 + Byte.to_N b mod 16) = Some b.
Proof.
  destruct b; vm_compute; repeat split.
Qed.

Lemma fromhex_hexlify (bs : bytes) :
  fromhex None (Hex.hexlify bs) = Some bs.
Proof.
  induction bs as [|b rest IH]; [reflexivity|].
  destruct (byte_read_back b) as (Hs & Hh & Hl & Hb).
  cbn [Hex.hexlify fromhex]. rewrite Hs, Hh, Hl, IH.
  unfold Base64.emit. rewrite Hb. reflexivity.
Qed.

End BsonFacts.

(** Parsing undoes the hex rendering of 12 bytes. *)
Lemma ObjectId_parse_hexlify (oid : bytes) :
  List.length oid = 12 ->
  Bson.ObjectId_parse (ObjectId_str oid) = Some oid.
Proof.
  intros H. unfold Bson.ObjectId_parse, ObjectId_str.
  rewrite HexFacts.hexlify_length, H. cbn [Nat.mul Nat.add Nat.eqb].
  apply BsonFacts.fromhex_hexlify.
Qed.

(** X16: the text of an identifier is read back as the identifier: for
    every identifier of 12 bytes, [ObjectId(str(oid))] is [oid], so that
    the text sent for a stored document names that document in a later
    request. *)
Theorem ObjectId_parse_str (oid : bytes) :
  List.length oid = 12 ->
  Bson.ObjectId_parse (ObjectId_str oid) = Some oid.
Proof. intros; apply ObjectId_parse_hexlify; assumption. Qed.

Lemma ObjectId_parse_str_witness :
  Bson.ObjectId_parse (ObjectId_str (Mongo.new_oid 7)) =
  Some (Mongo.new_oid 7).
Proof.
  exact (ObjectId_parse_str (Mongo.new_oid 7) eq_refl).
Defined.

(** ** The endpoints of [main.py] on the store *)

Section MainOnTheStore.

Import Mongo.

Lemma main_delete_shape (id : string) (name not_found deleted : string)
    (ep : M store pyval) :
  In (name, not_found, deleted, ep) (Main.delete_routes id) ->
  ep =
  match Bson.ObjectId_parse id with
  | None => raise (Unhandled "InvalidId")
  | Some oid =>
      bind (Main.motor_delete_one name [("_id", VObjectId oid)])
        (fun result =>
           if (deleted_count result =? 0)%Z
           then raise (HTTPException 404 not_found)
           else ret (VDict [("message", VStr deleted)]))
  end.
Proof.
  unfold Main.delete_routes. cbn [In].
  intros [E|[E|[E|[E|[E|[]]]]]]; injection E as <- <- <- <-; reflexivity.
Qed.

(** X17: the delete endpoints of [main.py] ask the store once and look
    nothing up.  A text that is no identifier is refused before the driver
    is called; on a store without scheduled failure an identifier that no
    document has is answered with 404 and the collection is as it was, and
    an identifier that a document has removes that document; in both cases
    the one call the driver saw is the delete. *)
Theorem main_delete_by_identifier
    (id name not_found deleted : string) (ep : M store pyval) (s : store) :
  In (name, not_found, deleted, ep) (Main.delete_routes id) ->
  match Bson.ObjectId_parse id with
  | None => ep s = (Raise (Unhandled "InvalidId"), s)
  | Some oid =>
      healthy s ->
      exists s',
        calls s' = calls s ++ [DeleteOne name [("_id", VObjectId oid)]] /\
        match find (matches [("_id", VObjectId oid)]) (collections s name) with
        | None =>
            ep s = (Raise (HTTPException 404 not_found), s') /\
            collections s' = collections s
        | Some _ =>
            ep s = (Ok (VDict [("message", VStr deleted)]), s') /\
            collections s' name =
              remove_first (matches [("_id", VObjectId oid)])
                (collections s name)
        end
  end.
Proof.
  intros Hin. rewrite (main_delete_shape _ _ _ _ _ Hin).
  destruct (Bson.ObjectId_parse id) as [oid|]; [|reflexivity].
  intros Hs. unfold bind, Main.motor_delete_one.
  cbn [coll_delete_one driver]. unfold delete_one, enter. rewrite Hs.
  cbn [hd tl collections].
  destruct (find (matches [("_id", VObjectId oid)]) (collections s name)).
  - eexists. refine (conj _ (conj eq_refl _)).
    + reflexivity.
    + cbn [collections with_collection]. unfold set_collection.
      now rewrite String.eqb_refl.
  - eexists. refine (conj _ (conj eq_refl _)); reflexivity.
Qed.

Lemma Forall_firstn_of {A : Type} (P : A -> Prop) (n : nat) (l : list A) :
  Forall P l -> Forall P (firstn n l).
Proof.
  intros H. revert n. induction H as [|x l Hx _ IH]; intros [|n]; cbn;
    constructor; auto.
Qed.

(** An entry passes [UserResponse] exactly when its two fields are text,
    and then it is sent as it is. *)
Lemma user_response_entry (d : document) (m : instance) :
  model_validate Main.UserResponse d = Ok m ->
  exists name address,
    dict_lookup "full_name" d = Some (VStr name) /\
    dict_lookup "email" d = Some (VStr address) /\
    model_dict m = [("full_name", VStr name); ("email", VStr address)].
Proof.
  unfold model_validate.
  cbn [Main.UserResponse fields before_validator after_validator
       validate_fields fname fannot fdefault required].
  unfold no_before, no_after.
  destruct (dict_lookup "full_name" d) as [v|]; [|discriminate].
  destruct v; try discriminate. cbn [has_type].
  destruct (dict_lookup "email" d) as [w|]; [|discriminate].
  destruct w; try discriminate. cbn [has_type].
  intros H. injection H as <-. do 2 eexists. repeat split.
Qed.

Lemma listing_shape (users : list document) (items out : list pyval) :
  Main.project_users users = Ok items ->
  Register.response_items Main.UserResponse items = Ok out ->
  Forall2 shown_as users out.
Proof.
  revert items out.
  induction users as [|u us IH]; intros items out P R; cbn in P.
  - injection P as <-. cbn in R. injection R as <-. constructor.
  - destruct (dict_lookup "full_name" u) as [a|] eqn:A; [|discriminate].
    destruct (dict_lookup "email" u) as [b|] eqn:B; [|discriminate].
    destruct (Main.project_users us) as [items'|]; [|discriminate].
    injection P as <-. cbn [Register.response_items] in R.
    destruct (model_validate Main.UserResponse
                [("full_name", a); ("email", b)]) as [m|] eqn:V;
      [|discriminate].
    destruct (Register.response_items Main.UserResponse items')
      as [out'|] eqn:R'; [|discriminate].
    injection R as <-.
    destruct (user_response_entry _ _ V) as (name & address & Hn & He & Hm).
    cbn in Hn, He. injection Hn as ->. injection He as ->.
    constructor; [|now apply (IH items')].
    exists name, address. now rewrite Hm.
Qed.

Lemma listing_total (users : list document) :
  Forall (fun u => exists name address,
              dict_lookup "full_name" u = Some (VStr name) /\
              dict_lookup "email" u = Some (VStr address)) users ->
  exists items out,
    Main.project_users users = Ok items /\
    Register.response_items Main.UserResponse items = Ok out.
Proof.
  induction 1 as [|u us (name & address & Hn & He) _ (items & out & P & R)].
  - do 2 eexists. split; reflexivity.
  - cbn [Main.project_users]. rewrite Hn, He, P.
    do 2 eexists. split; [reflexivity|].
    cbn [Register.response_items]. rewrite R. reflexivity.
Qed.

(** X18: whatever [GET /admin/users] sends is a list of at least one and
    at most 100 entries, each made of a name and an address, both text,
    and of nothing else, so that no password, hashed or not, leaves
    through it; and on a store without scheduled failure whose users all
    have a name and an address that are text it does answer, with one
    entry for each of the first 100 users, in their order. *)
Theorem main_get_all_users_entries (s : store) :
  (forall (body : pyval) (s' : store),
      Main.get_all_users s = (Ok body, s') ->
      exists out,
        body = VList out /\
        1 <= List.length out <= 100 /\
        Forall (fun v => exists name address,
                    v = VDict [("full_name", VStr name);
                               ("email", VStr address)])
          out) /\
  (healthy s ->
   collections s "users" <> [] ->
   Forall (fun u => exists name address,
               dict_lookup "full_name" u = Some (VStr name) /\
               dict_lookup "email" u = Some (VStr address))
     (collections s "users") ->
   exists out s',
     Main.get_all_users s = (Ok (VList out), s') /\
     Forall2 shown_as (firstn 100 (collections s "users")) out /\
     List.length out = Nat.min 100 (List.length (collections s "users"))).
Proof.
  unfold Main.get_all_users, Main.get_all_users_body, bind, db_find_to_list.
  cbn [coll_find_to_list driver]. unfold Mongo.find_to_list, enter.
  cbn [collections]. split.
  - intros body s'. destruct (hd false (faults s)).
    + intros H. discriminate H.
    + set (users := firstn 100 (collections s "users")).
      assert (Lu : List.length users <= 100) by apply firstn_le_length.
      destruct users as [|u us] eqn:U.
      * intros H. discriminate H.
      * cbn [map truthy negb].
        destruct (Main.project_users (u :: us)) as [items|] eqn:P.
        -- cbn [ret Register.response_model_list].
           destruct (Register.response_items Main.UserResponse items)
             as [out|] eqn:R.
           ++ intros H. injection H as <- _.
              pose proof (listing_shape _ _ _ P R) as F.
              exists out. split; [reflexivity|]. split.
              ** rewrite <- (Forall2_length F). cbn [List.length] in *. lia.
              ** clear - F. induction F as [|x y l l' (a & b & _ & _ & E) _ IH];
                   constructor; eauto.
           ++ intros H. discriminate H.
        -- intros H. discriminate H.
  - intros Hs Hne Hall. rewrite Hs. cbn [hd].
    set (users := firstn 100 (collections s "users")).
    assert (Hu : users <> []).
    { unfold users. destruct (collections s "users"); [contradiction|].
      discriminate. }
    assert (Fu : Forall (fun u => exists name address,
                             dict_lookup "full_name" u = Some (VStr name) /\
                             dict_lookup "email" u = Some (VStr address))
                   users).
    { unfold users. now apply Forall_firstn_of. }
    destruct (listing_total users Fu) as (items & out & P & R).
    pose proof (listing_shape _ _ _ P R) as F.
    destruct users as [|u us] eqn:U; [contradiction|].
    cbn [map truthy negb]. rewrite P.
    cbn [ret Register.response_model_list]. rewrite R.
    do 2 eexists. split; [reflexivity|]. split; [exact F|].
    rewrite <- (Forall2_length F), <- U. unfold users. apply length_firstn.
Qed.

End MainOnTheStore.

Lemma main_delete_by_identifier_witness :
  exists s' : Mongo.store,
    Mongo.calls s' =
      Mongo.calls one_item ++
        [Mongo.DeleteOne "items" [("_id", VObjectId (Mongo.new_oid 0))]] /\
    Main.delete_item "000000000000000000000000" one_item =
      (Ok (VDict [("message", VStr "Item deleted successfully")]), s') /\
    Mongo.collections s' "items" = [].
Proof.
  exact (main_delete_by_identifier "000000000000000000000000"
           "items" "Item not found" "Item deleted successfully"
           (Main.delete_item "000000000000000000000000") one_item
           (or_introl eq_refl) eq_refl).
Defined.

Lemma main_get_all_users_entries_witness :
  exists out s',
    Main.get_all_users one_user = (Ok (VList out), s') /\
    Forall2 shown_as (firstn 100 (Mongo.collections one_user "users")) out /\
    List.length out =
      Nat.min 100 (List.length (Mongo.collections one_user "users")).
Proof.
  apply (proj2 (main_get_all_users_entries one_user)).
  - reflexivity.
  - discriminate.
  - repeat constructor. do 2 eexists. split; reflexivity.
Defined.


(** ** Registration in [main.py] *)

Section MainRegister.

Import Mongo.

Variable hashpw : string -> string -> string.

Lemma main_register_first (salt : string) (user : Main.User) (s : store) :
  healthy s ->
  main_accepted user ->
  find (matches [("email", VStr (Main.email user))]) (collections s "users")
    = None ->
  exists s',
    Main.register hashpw salt user s =
      (Ok (VDict [("message", VStr "Registration successful")]), s') /\
    collections s' "users" =
      collections s "users" ++
        [("_id", VObjectId (new_oid (next_oid s))) :: main_record hashpw salt user] /\
    healthy s'.
Proof.
  intros Hs [Hp Ha] Hnone. unfold Main.register.
  rewrite (proj2 (String.eqb_eq _ _) Hp), Ha. cbn [negb].
  unfold bind, Main.motor_find_one, Main.motor_insert_one.
  cbn [coll_find_one coll_insert_one driver].
  unfold find_one, insert_one, enter. rewrite Hs.
  cbn [hd tl collections faults next_oid calls]. rewrite Hnone.
  cbn [hd tl collections faults next_oid calls dict_lookup String.eqb
       Ascii.eqb Bool.eqb].
  eexists. split; [reflexivity|].
  cbn [collections faults]. unfold set_collection. rewrite String.eqb_refl.
  split; reflexivity.
Qed.

(** X19: [POST /admin/register] keeps the address of a user unique: on a
    store without scheduled failure, once a request with an address no
    user has yet has been accepted and stored, with the hash of its
    password in place of the password, a second request with the same
    address that passes both checks is refused with "Email already
    registered" and stores nothing. *)
Theorem main_register_address_unique
    (salt1 salt2 : string) (u1 u2 : Main.User) (s : store) :
  healthy s ->
  main_accepted u1 -> main_accepted u2 ->
  Main.email u1 = Main.email u2 ->
  find (matches [("email", VStr (Main.email u1))]) (collections s "users")
    = None ->
  exists s1 s2 : store,
    Main.register hashpw salt1 u1 s =
      (Ok (VDict [("message", VStr "Registration successful")]), s1) /\
    collections s1 "users" =
      collections s "users" ++
        [("_id", VObjectId (new_oid (next_oid s))) :: main_record hashpw salt1 u1] /\
    Main.register hashpw salt2 u2 s1 =
      (Raise (HTTPException 400 "Email already registered"), s2) /\
    collections s2 = collections s1.
Proof.
  intros Hs A1 [Hp Ha] He Hnone.
  destruct (main_register_first salt1 u1 s Hs A1 Hnone) as (s1 & E1 & C1 & Hs1).
  exists s1. eexists. split; [exact E1|]. split; [exact C1|].
  unfold Main.register.
  rewrite (proj2 (String.eqb_eq _ _) Hp), Ha. cbn [negb].
  unfold bind, Main.motor_find_one. cbn [coll_find_one driver].
  unfold find_one, enter. rewrite Hs1. cbn [hd tl collections].
  rewrite C1, <- He.
  rewrite (find_app_none _ _ _ Hnone).
  - cbn [truthy]. split; reflexivity.
  - unfold matches. cbn [forallb fst snd dict_lookup String.eqb Ascii.eqb
                         Bool.eqb main_record].
    rewrite pyval_eqb_refl. reflexivity.
Qed.

End MainRegister.

Section MainRegisterResponse.

Context {S : Type} {driver : Driver S}.

Variable hashpw : string -> string -> string.

(** X20: [POST /admin/register] never answers with a success: the body the
    handler returns on success has a message and neither of the two fields
    of the declared response model, so a request the handler has completed,
    the user stored, is answered with a response validation error. *)
Theorem main_post_register_never_succeeds
    (salt : string) (user : Main.User) (s : S) :
  (exists (e : exn) (s' : S),
      Main.post_register hashpw salt user s = (Raise e, s')) /\
  (forall (body : pyval) (s' : S),
      Main.register hashpw salt user s = (Ok body, s') ->
      Main.post_register hashpw salt user s =
      (Raise (Unhandled "ResponseValidationError"), s')).
Proof.
  assert (B : forall body s',
             Main.register hashpw salt user s = (Ok body, s') ->
             body = VDict [("message", VStr "Registration successful")]).
  { intros body s'. unfold Main.register.
    destruct (negb _); [discriminate|].
    destruct (negb _); [discriminate|].
    unfold bind, Main.motor_find_one, Main.motor_insert_one.
    destruct (coll_find_one _ _ s) as [[found|what] s1]; [|discriminate].
    destruct (match found with Some doc => truthy (VDict doc) | None => false end);
      [discriminate|].
    destruct (coll_insert_one _ _ s1) as [[res|what] s2]; [|discriminate].
    intros H. now injection H as <- _. }
  split.
  - unfold Main.post_register.
    destruct (Main.register hashpw salt user s) as [[body|e] s'] eqn:E.
    + rewrite (B body s' eq_refl). do 2 eexists. reflexivity.
    + do 2 eexists. reflexivity.
  - intros body s' E. unfold Main.post_register. rewrite E.
    rewrite (B body s' E). reflexivity.
Qed.

End MainRegisterResponse.

Lemma main_register_address_unique_witness :
  exists s1 s2 : Mongo.store,
    Main.register append "salt-1" main_user Mongo.empty =
      (Ok (VDict [("message", VStr "Registration successful")]), s1) /\
    Mongo.collections s1 "users" =
      [] ++ [("_id", VObjectId (Mongo.new_oid 0))
             :: main_record append "salt-1" main_user] /\
    Main.register append "salt-2" main_user s1 =
      (Raise (HTTPException 400 "Email already registered"), s2) /\
    Mongo.collections s2 = Mongo.collections s1.
Proof.
  apply (main_register_address_unique append "salt-1" "salt-2"
           main_user main_user Mongo.empty).
  - reflexivity.
  - split; reflexivity.
  - split; reflexivity.
  - reflexivity.
  - reflexivity.
Defined.

Lemma main_post_register_never_succeeds_witness :
  Main.post_register append "salt-1" main_user Mongo.empty =
  (Raise (Unhandled "ResponseValidationError"),
   snd (Main.register append "salt-1" main_user Mongo.empty)).
Proof.
  exact (proj2 (main_post_register_never_succeeds append "salt-1" main_user
                  Mongo.empty)
           (VDict [("message", VStr "Registration successful")])
           (snd (Main.register append "salt-1" main_user Mongo.empty))
           eq_refl).
Defined.


(** ** The adapter of [db_connection.py] *)

Section DbConnectionFaults.

Context {S : Type} {driver : Driver S}.

Variable py_str : pyval -> string.

(** The adapter of [db_connection.py] raises nothing: each of its four
    operations answers a failure of the driver with the empty mapping, the
    insert too, which the adapter of [admin.py] answers by raising status
    500; and a failed lookup is answered as a lookup that found nothing
    is. *)
Theorem db_connection_swallows_faults
    (name : string) (query doc update : document) (s : S) :
  (forall what s',
      coll_insert_one name doc s = (Raised what, s') ->
      DbConnection.insert_one py_str name doc s = (Ok (VDict []), s') /\
      Database_insert_one name doc s =
        (Raise (HTTPException 500 "Internal Server Error"), s')) /\
  (forall what s',
      coll_find_one name query s = (Raised what, s') ->
      DbConnection.find_one name query s = (Ok (VDict []), s')) /\
  (forall s',
      coll_find_one name query s = (Returned None, s') ->
      DbConnection.find_one name query s = (Ok (VDict []), s')) /\
  (forall what s',
      coll_update_one name query update s = (Raised what, s') ->
      DbConnection.update_one name query update s = (Ok (VDict []), s')) /\
  (forall what s',
      coll_delete_one name query s = (Raised what, s') ->
      DbConnection.delete_one name query s = (Ok (VDict []), s')) /\
  (exists v1 v2 v3 v4 s1 s2 s3 s4,
      DbConnection.insert_one py_str name doc s = (Ok v1, s1) /\
      DbConnection.find_one name query s = (Ok v2, s2) /\
      DbConnection.update_one name query update s = (Ok v3, s3) /\
      DbConnection.delete_one name query s = (Ok v4, s4)).
Proof.
  unfold DbConnection.insert_one, DbConnection.find_one,
    DbConnection.update_one, DbConnection.delete_one, Database_insert_one.
  repeat split; try (intros; match goal with H : _ = _ |- _ => rewrite H end;
                     reflexivity).
  destruct (coll_insert_one name doc s) as [[r1|w1] s1];
    destruct (coll_find_one name query s) as [[[d2|]|w2] s2];
    destruct (coll_update_one name query update s) as [[r3|w3] s3];
    destruct (coll_delete_one name query s) as [[r4|w4] s4];
    do 8 eexists; repeat split.
Qed.

End DbConnectionFaults.

Section DbConnectionOnTheStore.

Import Mongo.

Variable py_str : pyval -> string.

Hypothesis py_str_ObjectId :
  forall oid : bytes, py_str (VObjectId oid) = ObjectId_str oid.

Lemma big_endian_length (width : nat) (n : N) :
  List.length (big_endian width n) = width.
Proof.
  revert n. induction width as [|w IH]; intros n; cbn [big_endian];
    [reflexivity|].
  rewrite length_app, IH. cbn. lia.
Qed.

(** X21: through the adapter of [db_connection.py], on a store without
    scheduled failure and for a document that the store keeps as it is
    given (no timestamp, no [Binary], no [bytearray], integers of 64
    bits), an insert answers with the text of the identifier the store
    assigned, that text read as an identifier is that identifier, and a
    lookup by a key no older document has returns the document as it was
    inserted, the identifier first and as an identifier, no value
    rendered. *)
Theorem db_connection_insert_then_find
    (name key : string) (v : pyval) (doc : document) (s : store) :
  healthy s ->
  bson_exact (VDict doc) = true ->
  key <> "_id" ->
  dict_lookup "_id" doc = None ->
  dict_lookup key doc = Some v ->
  find (matches [(key, v)]) (collections s name) = None ->
  exists (text : string) (oid : bytes) (s1 s2 : store),
    DbConnection.insert_one py_str name doc s =
      (Ok (VDict [("_id", VStr text)]), s1) /\
    Bson.ObjectId_parse text = Some oid /\
    DbConnection.find_one name [(key, v)] s1 =
      (Ok (VDict (("_id", VObjectId oid) :: doc)), s2).
Proof.
  intros Hs _ Hk Hid Hv Hnone.
  exists (ObjectId_str (new_oid (next_oid s))), (new_oid (next_oid s)).
  unfold DbConnection.insert_one, DbConnection.find_one.
  cbn [coll_insert_one coll_find_one driver].
  unfold insert_one, find_one, enter. rewrite Hs.
  cbn [hd tl collections next_oid faults calls]. rewrite Hid.
  cbn [inserted_id collections faults hd tl]. rewrite py_str_ObjectId.
  do 2 eexists. split; [reflexivity|].
  split; [apply ObjectId_parse_hexlify, big_endian_length|].
  cbn [hd tl collections next_oid faults calls]. unfold set_collection.
  rewrite String.eqb_refl.
  rewrite (find_app_none _ _ _ Hnone
             (matches_natural_key key v _ doc Hk Hv)).
  reflexivity.
Qed.

End DbConnectionOnTheStore.

Lemma db_connection_swallows_faults_witness :
  DbConnection.insert_one text_of_id "Branch" branch_body unreachable_store =
    (Ok (VDict []),
     snd (Mongo.insert_one "Branch" branch_body unreachable_store)) /\
  Database_insert_one "Branch" branch_body unreachable_store =
    (Raise (HTTPException 500 "Internal Server Error"),
     snd (Mongo.insert_one "Branch" branch_body unreachable_store)).
Proof.
  exact (proj1 (db_connection_swallows_faults (driver := Mongo.driver)
                  text_of_id "Branch" [("branch_id", VInt 1)] branch_body
                  [] unreachable_store)
           Mongo.unreachable
           (snd (Mongo.insert_one "Branch" branch_body unreachable_store))
           eq_refl).
Defined.

Lemma db_connection_insert_then_find_witness :
  exists (text : string) (oid : bytes) (s1 s2 : Mongo.store),
    DbConnection.insert_one text_of_id "Branch" branch_body Mongo.empty =
      (Ok (VDict [("_id", VStr text)]), s1) /\
    Bson.ObjectId_parse text = Some oid /\
    DbConnection.find_one "Branch" [("branch_id", VInt 1)] s1 =
      (Ok (VDict (("_id", VObjectId oid) :: branch_body)), s2).
Proof.
  apply (db_connection_insert_then_find text_of_id (fun oid => eq_refl)
           "Branch" "branch_id" (VInt 1) branch_body Mongo.empty).
  - reflexivity.
  - reflexivity.
  - discriminate.
  - reflexivity.
  - reflexivity.
  - reflexivity.
Defined.


(** ** Requests in sequence *)

Section Sequences.

Import Mongo.

Lemma find_none_filter (p : document -> bool) (docs : list document) :
  find p docs = None -> filter p docs = [].
Proof.
  induction docs as [|d ds IH]; [reflexivity|]. cbn [find filter].
  destruct (p d); [discriminate | exact IH].
Qed.

Lemma filter_nil_find (p : document -> bool) (docs : list document) :
  filter p docs = [] -> find p docs = None.
Proof.
  induction docs as [|d ds IH]; [reflexivity|]. cbn [find filter].
  destruct (p d); [discriminate | exact IH].
Qed.

Lemma find_remove_first_unique (p : document -> bool)
    (docs : list document) :
  List.length (filter p docs) = 1 -> find p (remove_first p docs) = None.
Proof.
  induction docs as [|d rest IH]; cbn [filter remove_first find];
    [discriminate|].
  destruct (p d) eqn:E.
  - cbn [List.length]. intros H. apply filter_nil_find.
    destruct (filter p rest); [reflexivity | discriminate].
  - cbn [find]. rewrite E. exact IH.
Qed.

Lemma find_keeps_healthy (name : string) (query : document) (s : store) :
  healthy s -> healthy (snd (Database_find_one name query s)).
Proof.
  intros Hs. unfold Database_find_one. cbn [coll_find_one driver].
  unfold find_one, enter. rewrite Hs. cbn [hd].
  destruct (find _ _); reflexivity.
Qed.

Lemma delete_keeps_healthy (name : string) (query : document) (s : store) :
  healthy s -> healthy (snd (Database_delete_one name query s)).
Proof.
  intros Hs. unfold Database_delete_one. cbn [coll_delete_one driver].
  unfold delete_one, enter. rewrite Hs. cbn [hd].
  destruct (find _ _); reflexivity.
Qed.

Lemma delete_route_healthy (n : Z) (k : string) (r : delete_route)
    (s : store) :
  In r (delete_routes n k) -> healthy s -> healthy (snd (d_handler r s)).
Proof.
  intros Hin Hs. destruct (delete_route_shape n k r Hin) as [message Sh].
  rewrite Sh. unfold bind.
  pose proof (find_keeps_healthy (d_collection r) (d_query r) s Hs) as H1.
  destruct (Database_find_one (d_collection r) (d_query r) s)
    as [[found|e] t]; cbn [snd] in *; [|exact H1].
  destruct (negb (truthy found)); [exact H1|].
  pose proof (delete_keeps_healthy (d_collection r) (d_query r) t H1) as H2.
  destruct (Database_delete_one (d_collection r) (d_query r) t)
    as [[res|e] t']; cbn [snd] in *; [|exact H2].
  destruct (truthy res && py_gt (result_get res "deleted_count") 0);
    exact H2.
Qed.

Lemma branch_route (n : Z) (k : string) :
  In {| d_collection := "Branch";
        d_query := [("branch_id", VInt n)];
        d_not_found := HTTPException 400 "Branch not found";
        d_failed := HTTPException 400 "Failed to delete branch";
        d_handler := delete_branch n |} (delete_routes n k).
Proof. cbn. left. reflexivity. Qed.

(** X13: on a store without scheduled failure, when exactly one branch has
    the key, [GET /branch/{id}] after [DELETE /branch/{id}] is answered
    with 404: the delete succeeds and has removed the branch the lookup
    would find.  When two branches have the key, the lookup after the
    delete still finds one. *)
Theorem delete_branch_then_get (n : Z) (s : store) :
  healthy s ->
  (count_matching [("branch_id", VInt n)] (collections s "Branch") = 1 ->
   exists s1 s2 : store,
     fst (delete_branch n s) <> Raise (HTTPException 400 "Branch not found") /\
     delete_branch n s =
       (Ok (VDict [("message", VStr "Branch deleted successfully")]), s1) /\
     get_branch n s1 = (Raise (HTTPException 404 "Branch not found"), s2)) /\
  (count_matching [("branch_id", VInt n)] (collections s "Branch") = 2 ->
   exists (s1 s2 : store) (body : pyval),
     delete_branch n s =
       (Ok (VDict [("message", VStr "Branch deleted successfully")]), s1) /\
     get_branch n s1 = (Ok body, s2)).
Proof.
  intros Hs.
  set (q := [("branch_id", VInt n)]).
  assert (D : forall c, 1 <= c ->
            count_matching q (collections s "Branch") = c ->
            exists s1,
              delete_branch n s =
                (Ok (VDict [("message", VStr "Branch deleted successfully")]),
                 s1) /\
              healthy s1 /\
              count_matching q (collections s1 "Branch") + 1 = c /\
              collections s1 "Branch" =
                remove_first (matches q) (collections s "Branch")).
  { intros c Hc Hcount.
    destruct (find (matches q) (collections s "Branch")) as [doc|] eqn:F.
    2:{ exfalso. unfold count_matching in Hcount.
        rewrite (find_none_filter _ _ F) in Hcount. cbn in Hcount. lia. }
    destruct (delete_first_match n "" _ doc s (branch_route n "") Hs F)
      as (message & s1 & E1 & C1 & N1 & _ & L1).
    cbn [d_handler d_collection d_query] in *.
    assert (M : message = "Branch deleted successfully").
    { destruct (delete_route_shape n "" _ (branch_route n "")) as [m' Sh].
      cbn [d_handler d_collection d_query d_not_found d_failed] in Sh.
      clear - E1 Hs F. unfold delete_branch, bind in E1.
      destruct (Database_find_one "Branch" [("branch_id", VInt n)] s)
        as [[found|e] t]; [|discriminate].
      destruct (negb (truthy found)); [discriminate|].
      destruct (Database_delete_one "Branch" [("branch_id", VInt n)] t)
        as [[res|e] t']; [|discriminate].
      destruct (truthy res && py_gt (result_get res "deleted_count") 0);
        [|discriminate].
      now injection E1 as <- _. }
    subst message. exists s1. split; [exact E1|].
    split; [|split; [rewrite <- Hcount; exact N1 | exact C1]].
    pose proof (delete_route_healthy n "" _ s (branch_route n "") Hs) as H1.
    cbn [d_handler] in H1. now rewrite E1 in H1. }
  split.
  - intros Hc. destruct (D 1 (le_n 1) Hc) as (s1 & E1 & Hs1 & N1 & C1).
    destruct (find_one_healthy "Branch" q s1 Hs1) as (s2 & E2 & _).
    exists s1, s2. split; [rewrite E1; discriminate|]. split; [exact E1|].
    unfold get_branch, bind. fold q. rewrite E2, C1.
    rewrite (find_remove_first_unique _ _ Hc). reflexivity.
  - intros Hc. destruct (D 2 ltac:(lia) Hc) as (s1 & E1 & Hs1 & N1 & C1).
    destruct (find_one_healthy "Branch" q s1 Hs1) as (s2 & E2 & _).
    destruct (find (matches q) (collections s1 "Branch")) as [doc|] eqn:F.
    2:{ exfalso. unfold count_matching in N1.
        rewrite (find_none_filter _ _ F) in N1. cbn in N1. lia. }
    assert (Hne : doc <> []) by (eapply matched_not_empty; exact F).
    destruct doc as [|kv rest]; [contradiction|].
    exists s1, s2. eexists. split; [exact E1|].
    unfold get_branch, bind. fold q. rewrite E2.
    cbn [truthy]. rewrite convert_dict. cbn [map truthy]. reflexivity.
Qed.

Lemma apply_set_cons (kv : string * pyval) (update doc : document) :
  apply_set (kv :: update) doc =
  apply_set update (dict_set (fst kv) (snd kv) doc).
Proof. reflexivity. Qed.

Lemma apply_set_other (key : string) (update doc : document) :
  ~ In key (dict_keys update) ->
  dict_lookup key (apply_set update doc) = dict_lookup key doc.
Proof.
  revert doc. induction update as [|[k v] rest IH]; intros doc H;
    [reflexivity|].
  rewrite apply_set_cons, IH.
  - cbn [fst snd]. rewrite dict_lookup_set.
    destruct (String.eqb_spec k key) as [->|_]; [|reflexivity].
    exfalso. apply H. now left.
  - intros Hin. apply H. now right.
Qed.

Lemma apply_set_member (key : string) (v : pyval) (update doc : document) :
  NoDup (dict_keys update) -> In (key, v) update ->
  dict_lookup key (apply_set update doc) = Some v.
Proof.
  revert doc. induction update as [|[k w] rest IH]; intros doc Hnd Hin;
    [destruct Hin|].
  cbn [dict_keys map fst] in Hnd. inversion Hnd as [|? ? Hk Hrest]. subst.
  rewrite apply_set_cons. cbn [fst snd]. destruct Hin as [E|Hin].
  - injection E as -> ->. rewrite apply_set_other by exact Hk.
    rewrite dict_lookup_set, String.eqb_refl. reflexivity.
  - now apply IH.
Qed.

Lemma filter_keys_NoDup (f : string * pyval -> bool) (d : document) :
  NoDup (dict_keys d) -> NoDup (dict_keys (filter f d)).
Proof.
  unfold dict_keys. induction d as [|kv rest IH]; intros H; [constructor|].
  cbn [map] in H. inversion H as [|? ? Hk Hrest]. subst.
  cbn [filter]. destruct (f kv); [|now apply IH].
  cbn [map]. constructor; [|now apply IH].
  intros Hin. apply Hk. apply in_map_iff in Hin.
  destruct Hin as (x & Ex & Hx). apply filter_In in Hx.
  apply in_map_iff. exists x. tauto.
Qed.

Lemma find_replace_first_gone (p : document -> bool)
    (f : document -> document) (docs : list document) :
  List.length (filter p docs) = 1 ->
  (forall d, find p docs = Some d -> p (f d) = false) ->
  find p (replace_first p f docs) = None.
Proof.
  induction docs as [|d rest IH]; cbn [filter replace_first find];
    [discriminate|].
  destruct (p d) eqn:E.
  - cbn [List.length find]. intros H Hf. rewrite (Hf d eq_refl).
    apply filter_nil_find. destruct (filter p rest); [reflexivity|discriminate].
  - cbn [find]. rewrite E. exact IH.
Qed.

Lemma find_replace_first_new (p p' : document -> bool)
    (f : document -> document) (docs : list document) (d : document) :
  find p' docs = None -> find p docs = Some d -> p' (f d) = true ->
  find p' (replace_first p f docs) = Some (f d).
Proof.
  induction docs as [|x rest IH]; cbn [find replace_first]; [discriminate|].
  destruct (p' x) eqn:E'; [discriminate|]. intros Hn.
  destruct (p x) eqn:E.
  - intros H Hf. injection H as ->. cbn [find]. now rewrite Hf.
  - intros H Hf. cbn [find]. rewrite E'. now apply IH.
Qed.

Lemma first_field_forwarded (f : field) (rest : list field)
    (body : document) (m : instance) (v : pyval) :
  fdefault f = None ->
  validate_fields (f :: rest) body = Ok m ->
  dict_lookup (fname f) body = Some v ->
  In (fname f, v) (model_dict_exclude_unset m).
Proof.
  intros Hreq H Hv. cbn [validate_fields] in H. rewrite Hv in H.
  destruct (has_type (fannot f) v); [|discriminate].
  destruct (validate_fields rest body) as [m'|]; [|discriminate].
  injection H as <-. unfold model_dict_exclude_unset.
  cbn [values fields_set filter fst existsb].
  rewrite String.eqb_refl. cbn [orb]. now left.
Qed.

Lemma update_keeps_healthy (n : Z) (m : instance) (s : store) :
  healthy s -> healthy (snd (update_branch n m s)).
Proof.
  intros Hs. unfold update_branch.
  destruct (negb (truthy (VDict (model_dict_exclude_unset m)))); [exact Hs|].
  unfold bind, Database_update_one. cbn [coll_update_one driver].
  unfold update_one, enter. rewrite Hs. cbn [hd collections].
  destruct (find _ _) as [d|]; [|reflexivity].
  destruct (pyval_eqb _ _); reflexivity.
Qed.

Lemma branch_update_route (n : Z) (k : string) :
  In {| u_collection := "Branch";
        u_query := [("branch_id", VInt n)];
        u_failed := HTTPException 400 "Failed to update branch";
        u_handler := update_branch n |} (update_routes n k).
Proof. cbn. left. reflexivity. Qed.

(** X12: the key in the path of [PUT /branch/{id}] selects the branch and
    the key in the body is written into it.  On a store without scheduled
    failure, when one branch has the key of the path and none has the key
    of the body, the request succeeds, and afterwards a lookup by the key
    of the path finds nothing while a lookup by the key of the body finds
    the branch. *)
Theorem put_branch_changes_key
    (n1 n2 : Z) (body : document) (m : instance) (s : store) :
  healthy s ->
  model_validate Branch body = Ok m ->
  dict_lookup "branch_id" body = Some (VInt n2) ->
  n1 <> n2 ->
  count_matching [("branch_id", VInt n1)] (collections s "Branch") = 1 ->
  find (matches [("branch_id", VInt n2)]) (collections s "Branch") = None ->
  exists (s1 s2 s3 : store) (found : document),
    update_branch n1 m s =
      (Ok (VDict [("message", VStr "Branch updated successfully")]), s1) /\
    get_branch n1 s1 = (Raise (HTTPException 404 "Branch not found"), s2) /\
    get_branch n2 s1 = (Ok (VDict found), s3) /\
    dict_lookup "branch_id" found = Some (VInt n2).
Proof.
  intros Hs Hv Hid Hn Hcount Hfree.
  set (q1 := [("branch_id", VInt n1)]) in *.
  set (q2 := [("branch_id", VInt n2)]) in *.
  set (upd := model_dict_exclude_unset m).
  pose proof (put_branch_guard_unreachable body m Hv)
    as Hne. fold upd in Hne.
  (* the instance carries the key of the body, as a field that was set *)
  assert (V : validate_fields (fields Branch) body = Ok m).
  { unfold model_validate in Hv.
    cbn [Branch before_validator after_validator] in Hv.
    unfold no_before, no_after in Hv.
    destruct (validate_fields (fields Branch) body); [|discriminate].
    exact Hv. }
  assert (Hin : In ("branch_id", VInt n2) upd).
  { change (fields Branch)
      with (required "branch_id" TInt :: tl (fields Branch)) in V.
    exact (first_field_forwarded (required "branch_id" TInt)
             (tl (fields Branch)) body m (VInt n2) eq_refl V Hid). }
  assert (Hnd : NoDup (dict_keys upd)).
  { unfold upd, model_dict_exclude_unset. apply filter_keys_NoDup.
    unfold model_dict. rewrite (validate_fields_keys _ _ _ V). cbn.
    repeat (constructor; [cbn; intuition discriminate|]). constructor. }
  (* the branch the path selects *)
  destruct (find (matches q1) (collections s "Branch")) as [doc|] eqn:F.
  2:{ exfalso. unfold count_matching in Hcount.
      rewrite (find_none_filter _ _ F) in Hcount. discriminate. }
  assert (Hold : dict_lookup "branch_id" doc = Some (VInt n1)).
  { apply find_some in F. destruct F as [_ F]. unfold matches, q1 in F.
    cbn [forallb fst snd] in F.
    destruct (dict_lookup "branch_id" doc) as [w|]; [|discriminate].
    rewrite andb_true_r in F. apply pyval_eqb_eq in F. now subst w. }
  assert (Hnew : forall d, dict_lookup "branch_id" (apply_set upd d) =
                           Some (VInt n2))
    by (intros d; now apply apply_set_member).
  assert (Hch : apply_set upd doc <> doc).
  { intros E. specialize (Hnew doc). rewrite E, Hold in Hnew.
    injection Hnew as C. contradiction. }
  destruct (update_first_match n1 "" _ m doc s (branch_update_route n1 "")
              Hs Hne F Hch) as (message & s1 & E1 & C1 & _).
  cbn [u_handler u_collection u_query] in E1, C1. fold upd q1 in C1.
  assert (M : message = "Branch updated successfully").
  { clear - E1. unfold update_branch, bind in E1.
    destruct (negb _); [discriminate|].
    destruct (Database_update_one _ _ _ s) as [[res|e] t]; [|discriminate].
    destruct (truthy res && _); [|discriminate].
    now injection E1 as <- _. }
  subst message.
  assert (Hs1 : healthy s1).
  { pose proof (update_keeps_healthy n1 m s Hs) as H1.
    now rewrite E1 in H1. }
  destruct (find_one_healthy "Branch" q1 s1 Hs1) as (s2 & E2 & _).
  destruct (find_one_healthy "Branch" q2 s1 Hs1) as (s3 & E3 & _).
  assert (G1 : find (matches q1) (collections s1 "Branch") = None).
  { rewrite C1. apply find_replace_first_gone; [exact Hcount|].
    intros d _. unfold matches, q1. cbn [forallb fst snd].
    rewrite Hnew. cbn [pyval_eqb].
    destruct (Z.eqb_spec n1 n2); [contradiction | reflexivity]. }
  assert (G2 : find (matches q2) (collections s1 "Branch") =
               Some (apply_set upd doc)).
  { rewrite C1. apply find_replace_first_new; [exact Hfree | exact F |].
    unfold matches, q2. cbn [forallb fst snd]. rewrite Hnew.
    cbn [pyval_eqb]. rewrite Z.eqb_refl. reflexivity. }
  rewrite G1 in E2. rewrite G2 in E3.
  destruct (apply_set upd doc) as [|kv rest] eqn:A.
  { specialize (Hnew doc). rewrite A in Hnew. discriminate. }
  cbn [truthy] in E3. rewrite convert_dict in E3.
  exists s1, s2, s3. eexists.
  split; [exact E1|]. split; [|split].
  - unfold get_branch, bind. fold q1. rewrite E2. reflexivity.
  - unfold get_branch, bind. fold q2. rewrite E3. reflexivity.
  - rewrite dict_lookup_map. rewrite <- A, Hnew. reflexivity.
Qed.

End Sequences.

Lemma delete_branch_then_get_witness :
  exists s1 s2 : Mongo.store,
    fst (delete_branch 1 one_branch) <>
      Raise (HTTPException 400 "Branch not found") /\
    delete_branch 1 one_branch =
      (Ok (VDict [("message", VStr "Branch deleted successfully")]), s1) /\
    get_branch 1 s1 = (Raise (HTTPException 404 "Branch not found"), s2).
Proof.
  apply (proj1 (delete_branch_then_get 1 one_branch eq_refl)).
  reflexivity.
Defined.

Lemma put_branch_changes_key_witness :
  exists (s1 s2 s3 : Mongo.store) (found : document),
    update_branch 1 moved_branch one_branch =
      (Ok (VDict [("message", VStr "Branch updated successfully")]), s1) /\
    get_branch 1 s1 = (Raise (HTTPException 404 "Branch not found"), s2) /\
    get_branch 2 s1 = (Ok (VDict found), s3) /\
    dict_lookup "branch_id" found = Some (VInt 2).
Proof.
  apply (put_branch_changes_key 1 2 moved_body moved_branch one_branch).
  - reflexivity.
  - reflexivity.
  - reflexivity.
  - discriminate.
  - reflexivity.
  - reflexivity.
Defined.

